(** * AAPP level-1 runner: the scene-aggregation-and-dispatch core

    A shallow embedding of [bin/aapp_runner.py]: the job registry
    ([overlapping_timeinterval], [reset_job_registry]), the processor
    object [AappLvl1Processor] with its methods [initialise], [run] and
    [move_lvl1dir], the classification done by [pack_aapplvl1_files], and
    the hand-over of the level-1 files that ends a pass of
    [aapp_rolling_runner] ([create_subdirname], [publish_level1]).

    Conventions.
    - A [datetime] is an integer number of microseconds; comparison and
      the addition of a [timedelta] are those of [Z].
    - A Python call either returns or raises: [completion].
    - Effects that leave the process (log records, [Popen],
      [threading.Timer], [tempfile.mkdtemp], the statistics file,
      [os.mkdir], [shutil.copy]) are recorded, in program order, in a
      list of [event]s.  Of the log records only warnings and errors are
      kept, with the literal part of their text.
    - The directories the harvest reads, moves and copies into are an
      explicit file system, on which [shutil.move], [os.mkdir] and
      [shutil.copy] succeed or raise as they do; what the subprocess
      leaves behind is an answer of the [World]. *)

From Stdlib Require Import ZArith Lia Ascii String DecimalString.
From stdpp Require Import gmap strings list fin_maps.

Local Open Scope string_scope.
Local Open Scope list_scope.

(** ** Python values and control *)

Inductive exn :=
| KeyError (key : string)
| ValueError (what : string)
| IndexError (what : string)
| IOError (what : string)
| OSError (what : string)
| ShutilSameFile (src dst : string).

Inductive completion (A : Type) :=
| Returns (v : A)
| Raises (e : exn).
Arguments Returns {A} v.
Arguments Raises {A} e.

Abbreviation datetime := Z (only parsing).
Abbreviation interval := (Z * Z)%type (only parsing).

(** [timedelta(seconds=n)], in microseconds. *)
Definition timedelta_seconds (n : Z) : Z := (n * 1000000)%Z.

(** ** String primitives of Python used by the runner *)

Module Py.

(** [x in l] for a list of strings. *)
Definition str_in (x : string) (l : list string) : bool :=
  bool_decide (x ∈ l).

(** [s.startswith(p)] *)
Definition startswith (p s : string) : bool := String.prefix p s.

(** [s.endswith("/")] *)
Fixpoint ends_with_slash (s : string) : bool :=
  match s with
  | EmptyString => false
  | String c EmptyString => bool_decide (c = "/"%char)
  | String _ s' => ends_with_slash s'
  end.

(** [s[n:]] for a natural [n]. *)
Fixpoint drop (n : nat) (s : string) : string :=
  match n, s with
  | O, _ => s
  | S n', String _ s' => drop n' s'
  | S _, EmptyString => EmptyString
  end.

(** [s[:n]] for a natural [n]. *)
Fixpoint take (n : nat) (s : string) : string :=
  match n, s with
  | O, _ => EmptyString
  | S n', String c s' => String c (take n' s')
  | S _, EmptyString => EmptyString
  end.

(** [s[-n:]]: the last [n] characters, the whole string when it is
    shorter. *)
Definition last_chars (n : nat) (s : string) : string :=
  drop (String.length s - n) s.

(** [s[0:-n]]: all but the last [n] characters, empty when the string
    is not longer than [n]. *)
Definition but_last_chars (n : nat) (s : string) : string :=
  take (String.length s - n) s.

(** [s.split(sep)] for a non-empty separator.  [skip] counts the
    characters of a separator that was just recognised and is still to
    be passed over; [cur] is the current piece, reversed. *)
Fixpoint split_go (sep : string) (skip : nat) (cur : string) (s : string)
  : list string :=
  match s with
  | EmptyString => [String.rev cur]
  | String c s' =>
      match skip with
      | S k => split_go sep k cur s'
      | O =>
          if String.prefix sep s
          then String.rev cur :: split_go sep (String.length sep - 1) EmptyString s'
          else split_go sep O (String c cur) s'
      end
  end.
Definition split (sep s : string) : list string :=
  split_go sep O EmptyString s.

(** [s.find(sub)]: index of the first occurrence, [-1] when absent. *)
Fixpoint find_go (sub : string) (i : Z) (s : string) : Z :=
  if String.prefix sub s then i
  else match s with
       | EmptyString => (-1)%Z
       | String _ s' => find_go sub (i + 1)%Z s'
       end.
Definition find (sub s : string) : Z := find_go sub 0%Z s.

(** [s.rfind("/") + 1]: the index just after the last slash, [0] when
    there is none. *)
Fixpoint after_last_slash (i : nat) (s : string) : nat :=
  match s with
  | EmptyString => O
  | String c s' =>
      match after_last_slash (S i) s' with
      | O => if bool_decide (c = "/"%char) then S i else O
      | n => n
      end
  end.

(** [s.lstrip(chars)], [s.rstrip(chars)], [s.strip(chars)] *)
Fixpoint lstrip (chars : list ascii) (s : string) : string :=
  match s with
  | EmptyString => EmptyString
  | String c s' => if bool_decide (c ∈ chars) then lstrip chars s' else s
  end.
Definition rstrip (chars : list ascii) (s : string) : string :=
  String.rev (lstrip chars (String.rev s)).
Definition strip (chars : list ascii) (s : string) : string :=
  rstrip chars (lstrip chars s).

(** [os.path.basename], [os.path.dirname], [os.path.join] (posixpath) *)
Definition basename (p : string) : string :=
  drop (after_last_slash O p) p.

Definition dirname (p : string) : string :=
  let head := take (after_last_slash O p) p in
  if bool_decide (lstrip ["/"%char] head = EmptyString) then head
  else rstrip ["/"%char] head.

Definition join (a b : string) : string :=
  if startswith "/" b then b
  else if bool_decide (a = EmptyString) || ends_with_slash a then a +:+ b
  else a +:+ "/" +:+ b.

End Py.

(** ** Module constants *)

Definition SUPPORTED_NOAA_SATELLITES : list string :=
  ["NOAA-19"; "NOAA-18"; "NOAA-16"; "NOAA-15"].
Definition SUPPORTED_METOP_SATELLITES : list string :=
  ["Metop-B"; "Metop-A"; "Metop-C"].

Definition SATELLITE_NAME : gmap string string :=
  list_to_map [("NOAA-19", "noaa19"); ("NOAA-18", "noaa18");
               ("NOAA-15", "noaa15");
               ("Metop-A", "metop02"); ("Metop-B", "metop01");
               ("Metop-C", "metop03")].

Definition METOP_SENSOR : gmap string string :=
  list_to_map [("amsu-a", "amsua"); ("avhrr/3", "avhrr");
               ("amsu-b", "amsub"); ("hirs/4", "hirs")].
Definition METOP_NUMBER : gmap string string :=
  list_to_map [("b", "01"); ("a", "02")].

(** [d.get(k, default)] *)
Definition dict_get {V} (d : gmap string V) (k : string) (default : V) : V :=
  from_option id default (d !! k).


(** ** Effects *)

Inductive level := WARNING | ERROR.

(** The two command shapes.  [NoaaRun script t file] is
    [script -Y <year of t> file]; [MetopRun] carries, in order, the
    arguments of [-d], [-a], [-u], [-m], [-h] and [-o]. *)
Inductive command :=
| NoaaRun (script : string) (year_of : datetime) (level0 : string)
| MetopRun (script in_dir avhrr amsua mhs hirs out_dir : string).

Inductive event :=
| Log (lvl : level) (text : string)
| Mkdtemp (dir : string)
| Popen (cmd : command) (cwd : string)
| TimerStart (seconds : Z) (key : string) (start_end_times : interval)
| StatAppend (level0 : string)
| Mkdir (dir : string)
| Copy (src dst : string).

(** Configuration read at import time ([OPTIONS] and the environment). *)
Record Options := {
  SERVERNAME : string;
  AAPP_OUT_DIR : string;
  METOP_IN_DIR : string;
  AAPP_BIN_HOME : string
}.

Definition NOAA_RUN_SCRIPT (opts : Options) : string :=
  AAPP_BIN_HOME opts +:+ "/smhi/AAPP_RUN_NOAA_WITH_ANA".
Definition METOP_RUN_SCRIPT (opts : Options) : string :=
  AAPP_BIN_HOME opts +:+ "/smhi/AAPP_RUN_METOP_SMHI".

(** What the operating system answers during one call of [run]: the
    directory [tempfile.mkdtemp] creates, and the paths [glob] finds for
    a pattern once the subprocess has run. *)
Record World := {
  mkdtemp : string;
  glob : string -> list string
}.

(** ** Messages *)

(** [urlparse(msg.data['uri'])]: the message carries the parsed URI. *)
Record urlobj := { netloc : string; path : string }.

(** [msg.data].  The fields the code reads under a [try] are optional. *)
Record msgdata := {
  platform_name : option string;
  sensor : string;
  uri : urlobj;
  start_time : datetime;
  end_time : option datetime;
  orbit_number : option Z
}.

Record Message := { type : string; data : msgdata }.

(** ** The processor object *)

(** [self.orbit] holds a string, an integer or [None]. *)
Inductive pyorbit :=
| OrbitStr (s : string)
| OrbitInt (n : Z)
| OrbitNone.

(** The key of [level0files] is the string
    [satid + '_' + str(starttime) + '_' + str(endtime)].  Neither a
    satellite id of [SATELLITE_NAME] nor the text of a datetime contains
    an underscore and [str] is injective on datetimes, so the key is kept
    as the triple it is built from. *)
Abbreviation scene_key := (string * datetime * datetime)%type (only parsing).

Record AappLvl1Processor := {
  lvl1_home : string;
  fullswath : bool;
  ishmf : bool;
  working_dir : option string;
  level0_filename : option string;
  starttime : option datetime;
  endtime : option datetime;
  satid : string;
  satellite : string;
  platform : string;
  satnum : string;
  orbit : pyorbit;
  result_files : list string;
  level0files : gmap scene_key (list (string * string));
  job_register : gmap string (list interval)
}.

Definition set_ishmf (v : bool) (self : AappLvl1Processor) : AappLvl1Processor :=
  {| lvl1_home := lvl1_home self;
     fullswath := fullswath self;
     ishmf := v;
     working_dir := working_dir self;
     level0_filename := level0_filename self;
     starttime := starttime self;
     endtime := endtime self;
     satid := satid self;
     satellite := satellite self;
     platform := platform self;
     satnum := satnum self;
     orbit := orbit self;
     result_files := result_files self;
     level0files := level0files self;
     job_register := job_register self |}.
Definition set_working_dir (v : option string) (self : AappLvl1Processor) : AappLvl1Processor :=
  {| lvl1_home := lvl1_home self;
     fullswath := fullswath self;
     ishmf := ishmf self;
     working_dir := v;
     level0_filename := level0_filename self;
     starttime := starttime self;
     endtime := endtime self;
     satid := satid self;
     satellite := satellite self;
     platform := platform self;
     satnum := satnum self;
     orbit := orbit self;
     result_files := result_files self;
     level0files := level0files self;
     job_register := job_register self |}.
Definition set_level0_filename (v : option string) (self : AappLvl1Processor) : AappLvl1Processor :=
  {| lvl1_home := lvl1_home self;
     fullswath := fullswath self;
     ishmf := ishmf self;
     working_dir := working_dir self;
     level0_filename := v;
     starttime := starttime self;
     endtime := endtime self;
     satid := satid self;
     satellite := satellite self;
     platform := platform self;
     satnum := satnum self;
     orbit := orbit self;
     result_files := result_files self;
     level0files := level0files self;
     job_register := job_register self |}.
Definition set_starttime (v : option datetime) (self : AappLvl1Processor) : AappLvl1Processor :=
  {| lvl1_home := lvl1_home self;
     fullswath := fullswath self;
     ishmf := ishmf self;
     working_dir := working_dir self;
     level0_filename := level0_filename self;
     starttime := v;
     endtime := endtime self;
     satid := satid self;
     satellite := satellite self;
     platform := platform self;
     satnum := satnum self;
     orbit := orbit self;
     result_files := result_files self;
     level0files := level0files self;
     job_register := job_register self |}.
Definition set_endtime (v : option datetime) (self : AappLvl1Processor) : AappLvl1Processor :=
  {| lvl1_home := lvl1_home self;
     fullswath := fullswath self;
     ishmf := ishmf self;
     working_dir := working_dir self;
     level0_filename := level0_filename self;
     starttime := starttime self;
     endtime := v;
     satid := satid self;
     satellite := satellite self;
     platform := platform self;
     satnum := satnum self;
     orbit := orbit self;
     result_files := result_files self;
     level0files := level0files self;
     job_register := job_register self |}.
Definition set_satid (v : string) (self : AappLvl1Processor) : AappLvl1Processor :=
  {| lvl1_home := lvl1_home self;
     fullswath := fullswath self;
     ishmf := ishmf self;
     working_dir := working_dir self;
     level0_filename := level0_filename self;
     starttime := starttime self;
     endtime := endtime self;
     satid := v;
     satellite := satellite self;
     platform := platform self;
     satnum := satnum self;
     orbit := orbit self;
     result_files := result_files self;
     level0files := level0files self;
     job_register := job_register self |}.
Definition set_satellite (v : string) (self : AappLvl1Processor) : AappLvl1Processor :=
  {| lvl1_home := lvl1_home self;
     fullswath := fullswath self;
     ishmf := ishmf self;
     working_dir := working_dir self;
     level0_filename := level0_filename self;
     starttime := starttime self;
     endtime := endtime self;
     satid := satid self;
     satellite := v;
     platform := platform self;
     satnum := satnum self;
     orbit := orbit self;
     result_files := result_files self;
     level0files := level0files self;
     job_register := job_register self |}.
Definition set_platform (v : string) (self : AappLvl1Processor) : AappLvl1Processor :=
  {| lvl1_home := lvl1_home self;
     fullswath := fullswath self;
     ishmf := ishmf self;
     working_dir := working_dir self;
     level0_filename := level0_filename self;
     starttime := starttime self;
     endtime := endtime self;
     satid := satid self;
     satellite := satellite self;
     platform := v;
     satnum := satnum self;
     orbit := orbit self;
     result_files := result_files self;
     level0files := level0files self;
     job_register := job_register self |}.
Definition set_satnum (v : string) (self : AappLvl1Processor) : AappLvl1Processor :=
  {| lvl1_home := lvl1_home self;
     fullswath := fullswath self;
     ishmf := ishmf self;
     working_dir := working_dir self;
     level0_filename := level0_filename self;
     starttime := starttime self;
     endtime := endtime self;
     satid := satid self;
     satellite := satellite self;
     platform := platform self;
     satnum := v;
     orbit := orbit self;
     result_files := result_files self;
     level0files := level0files self;
     job_register := job_register self |}.
Definition set_orbit (v : pyorbit) (self : AappLvl1Processor) : AappLvl1Processor :=
  {| lvl1_home := lvl1_home self;
     fullswath := fullswath self;
     ishmf := ishmf self;
     working_dir := working_dir self;
     level0_filename := level0_filename self;
     starttime := starttime self;
     endtime := endtime self;
     satid := satid self;
     satellite := satellite self;
     platform := platform self;
     satnum := satnum self;
     orbit := v;
     result_files := result_files self;
     level0files := level0files self;
     job_register := job_register self |}.
Definition set_result_files (v : list string) (self : AappLvl1Processor) : AappLvl1Processor :=
  {| lvl1_home := lvl1_home self;
     fullswath := fullswath self;
     ishmf := ishmf self;
     working_dir := working_dir self;
     level0_filename := level0_filename self;
     starttime := starttime self;
     endtime := endtime self;
     satid := satid self;
     satellite := satellite self;
     platform := platform self;
     satnum := satnum self;
     orbit := orbit self;
     result_files := v;
     level0files := level0files self;
     job_register := job_register self |}.
Definition set_level0files (v : gmap scene_key (list (string * string))) (self : AappLvl1Processor) : AappLvl1Processor :=
  {| lvl1_home := lvl1_home self;
     fullswath := fullswath self;
     ishmf := ishmf self;
     working_dir := working_dir self;
     level0_filename := level0_filename self;
     starttime := starttime self;
     endtime := endtime self;
     satid := satid self;
     satellite := satellite self;
     platform := platform self;
     satnum := satnum self;
     orbit := orbit self;
     result_files := result_files self;
     level0files := v;
     job_register := job_register self |}.
Definition set_job_register (v : gmap string (list interval)) (self : AappLvl1Processor) : AappLvl1Processor :=
  {| lvl1_home := lvl1_home self;
     fullswath := fullswath self;
     ishmf := ishmf self;
     working_dir := working_dir self;
     level0_filename := level0_filename self;
     starttime := starttime self;
     endtime := endtime self;
     satid := satid self;
     satellite := satellite self;
     platform := platform self;
     satnum := satnum self;
     orbit := orbit self;
     result_files := result_files self;
     level0files := level0files self;
     job_register := v |}.

(** A call's completion, the object after it and what it emitted. *)
Record result (S A : Type) := Result {
  outcome : completion A;
  post : S;
  trace : list event
}.
Arguments Result {S A} outcome post trace.
Arguments outcome {S A} r.
Arguments post {S A} r.
Arguments trace {S A} r.

(** ** Job registry *)

(** [overlapping_timeinterval(start_end_times, timelist)]; the Python
    function returns the tuple or [False]. *)
Fixpoint overlapping_timeinterval (start_end_times : interval)
    (timelist : list interval) : option interval :=
  let '(starttime, endtime) := start_end_times in
  match timelist with
  | [] => None
  | (tstart, tend) :: timelist' =>
      if ((starttime >? tstart)%Z && (starttime <? tend)%Z) ||
         ((endtime >? tstart)%Z && (endtime <? tend)%Z)
      then Some (tstart, tend)
      else overlapping_timeinterval start_end_times timelist'
  end.

(** [list.remove(x)]: drops the first element equal to [x]; [None] stands
    for the [ValueError] Python raises when there is none. *)
Fixpoint list_remove (x : interval) (l : list interval) : option (list interval) :=
  match l with
  | [] => None
  | y :: l' =>
      if bool_decide (y = x) then Some l'
      else cons y <$> list_remove x l'
  end.

(** [reset_job_registry(objdict, key, start_end_times)] *)
Definition reset_job_registry (objdict : gmap string (list interval))
    (key : string) (start_end_times : interval)
  : result (gmap string (list interval)) unit :=
  let nothing :=
    Result (Returns tt) objdict
      [Log WARNING "Nothing to reset/release - Register didn't contain any entry matching: "] in
  match objdict !! key with
  | Some l =>
      if bool_decide (0 < length l)%nat then
        match list_remove start_end_times l with
        | Some l' => Result (Returns tt) (<[key := l']> objdict) []
        | None => Result (Raises (ValueError "list.remove(x): x not in list")) objdict []
        end
      else nothing
  | None => nothing
  end.

(** ** Processor methods *)

(** [AappLvl1Processor.initialise] *)
Definition initialise (self : AappLvl1Processor) : AappLvl1Processor :=
  let self := set_working_dir None self in
  let self := set_level0_filename None self in
  let self := set_starttime None self in
  let self := set_endtime None self in
  let self := set_satid "Unknown" self in
  let self := set_satellite "Unknown" self in
  let self := set_platform "Unknown" self in
  let self := set_satnum "0" self in
  let self := set_orbit (OrbitStr "00000") self in
  let self := set_result_files [] self in
  set_level0files ∅ self.

(** [AappLvl1Processor.__init__]: the fields are given their first values
    and [initialise] is called. *)
Definition new_processor (opts : Options) : AappLvl1Processor :=
  initialise
    {| lvl1_home := AAPP_OUT_DIR opts; fullswath := true; ishmf := false;
       working_dir := None; level0_filename := None;
       starttime := None; endtime := None;
       satid := "Unknown"; satellite := "Unknown"; platform := "Unknown";
       satnum := "0"; orbit := OrbitStr "00000";
       result_files := []; level0files := ∅; job_register := ∅ |}.

(** [get_aapp_lvl1_files(level1_dir, satid)] *)
Definition get_aapp_lvl1_files (w : World) (level1_dir satid : string)
  : list string :=
  if Py.str_in satid SUPPORTED_METOP_SATELLITES then
    (glob w (Py.join level1_dir "*.l1b") ++
     glob w (Py.join level1_dir "*.l1c") ++
     glob w (Py.join level1_dir "*.l1d"))%list
  else
    glob w (Py.join level1_dir
              (dict_get SATELLITE_NAME satid satid +:+ "_????????_????_?????/")
            +:+ "*").

(** *** [run], lines 304-326: scene times, orbit and satellite identity *)

Definition resolve_scene (self : AappLvl1Processor) (d : msgdata)
    (pname : string) : result AappLvl1Processor interval :=
  let self := set_starttime (Some (start_time d)) self in
  let '(endtime, ev1) :=
    match end_time d with
    | Some e => (e, [])
    | None =>
        ((start_time d + timedelta_seconds (60 * 14))%Z,
         [Log WARNING "No end_time in message! Guessing start_time + 14 minutes..."])
    end in
  let self := set_endtime (Some endtime) self in
  let start_end_times := (start_time d, endtime) in
  let '(self, ev2) :=
    match orbit_number d with
    | Some n => (set_orbit (OrbitInt n) self, [])
    | None =>
        (set_orbit OrbitNone self,
         [Log WARNING "No orbit_number in message! Set to none..."])
    end in
  let self := set_satellite pname self in
  let self := set_satid (dict_get SATELLITE_NAME pname "unknown") self in
  if Py.str_in pname SUPPORTED_METOP_SATELLITES then
    let self := set_platform "metop" self in
    match Py.split "metop" (satid self) !! 1%nat with
    | Some metop_id =>
        Result (Returns start_end_times)
          (set_satnum (dict_get METOP_NUMBER metop_id metop_id) self)
          (ev1 ++ ev2)%list
    | None => Result (Raises (IndexError "list index out of range")) self (ev1 ++ ev2)%list
    end
  else
    let self := set_platform "noaa" self in
    Result (Returns start_end_times)
      (set_satnum (Py.strip ["n"; "o"; "a"; "a"]%char (satid self)) self)
      (ev1 ++ ev2)%list.

(** *** [run], lines 328-339: has an overlapping scene been launched? *)

Definition launched_previously (self : AappLvl1Processor)
    (start_end_times : interval) : option interval :=
  let keyname := satid self in
  match job_register self !! keyname with
  | Some timelist =>
      if bool_decide (0 < length timelist)%nat
      then overlapping_timeinterval start_end_times timelist
      else None
  | None => None
  end.

(** *** [run], lines 354-376: collecting the level-0 files of a Metop scene *)

Definition METOP_SENSORS : list string :=
  ["avhrr"; "amsua"; "amsub"; "mhs"; "hirs"].

Inductive collected :=
| NotRequired
| NotEnough
| Ready.

Definition collect_level0 (files : gmap scene_key (list (string * string)))
    (keyname : scene_key) (level0_filename msg_sensor : string)
  : collected * gmap scene_key (list (string * string)) :=
  let sensor := dict_get METOP_SENSOR msg_sensor msg_sensor in
  if negb (Py.str_in sensor METOP_SENSORS) then (NotRequired, files)
  else
    let files :=
      match files !! keyname with
      | Some _ => files
      | None => <[keyname := []]> files
      end in
    let item := (level0_filename, sensor) in
    let have : list (string * string) := files !!! keyname in
    let files :=
      if bool_decide (item ∈ have) then files
      else <[keyname := (have ++ [item])%list]> files in
    if bool_decide (length (files !!! keyname : list (string * string)) < 4)%nat
    then (NotEnough, files)
    else (Ready, files).

(** *** [run], lines 378-386: the working directory *)

Definition ensure_working_dir (w : World) (self : AappLvl1Processor)
  : string * AappLvl1Processor * list event :=
  let fresh :=
    (mkdtemp w, set_working_dir (Some (mkdtemp w)) self, [Mkdtemp (mkdtemp w)]) in
  match working_dir self with
  | Some d => if bool_decide (d = "") then fresh else (d, self, [])
  | None => fresh
  end.

(** *** [run], lines 404-409 and 434-439: adding the scene to the register *)

Definition register_job (self : AappLvl1Processor) (start_end_times : interval)
  : AappLvl1Processor :=
  let keyname := satid self in
  let reg :=
    match job_register self !! keyname with
    | Some _ => job_register self
    | None => <[keyname := []]> (job_register self)
    end in
  let jobs : list interval := reg !!! keyname in
  set_job_register (<[keyname := (jobs ++ [start_end_times])%list]> reg) self.

(** *** [run], lines 425-432: one file name per sensor *)

Definition sensor_filenames (files : list (string * string)) : gmap string string :=
  foldl (fun d item => <[item.2 := Py.basename item.1]> d) ∅ files.

Definition REQUIRED_SENSORS : list string := ["avhrr"; "amsua"; "hirs"; "mhs"].

Definition sensor_names_match (sensor_filename : gmap string string) : bool :=
  forallb (fun instr => Py.str_in instr REQUIRED_SENSORS)
          ((map_to_list sensor_filename).*1).

(** [sensor_filename[k]] *)
Definition subscript (d : gmap string string) (k : string) : completion string :=
  match d !! k with
  | Some v => Returns v
  | None => Raises (KeyError k)
  end.

(** The [%]-formatting of lines 441-451; the entries are looked up in the
    order avhrr, amsua, mhs, hirs. *)
Definition metop_command (opts : Options) (sensor_filename : gmap string string)
  : completion command :=
  match subscript sensor_filename "avhrr" with
  | Raises e => Raises e
  | Returns avhrr =>
  match subscript sensor_filename "amsua" with
  | Raises e => Raises e
  | Returns amsua =>
  match subscript sensor_filename "mhs" with
  | Raises e => Raises e
  | Returns mhs =>
  match subscript sensor_filename "hirs" with
  | Raises e => Raises e
  | Returns hirs =>
      Returns (MetopRun (METOP_RUN_SCRIPT opts) (METOP_IN_DIR opts)
                 avhrr amsua mhs hirs (AAPP_OUT_DIR opts))
  end end end end.

(** *** [run], lines 459-518: after [Popen]

    Reading the two pipes and [communicate] change nothing in the object
    and are not recorded.  The timer is started, the result files are
    looked up, the statistics line is written, and [run] returns
    [False]. *)
Definition after_popen (w : World) (self : AappLvl1Processor)
    (pname cwd level0 : string) (start_end_times : interval)
    (before : list event) (cmd : command)
  : result AappLvl1Processor bool :=
  let self := set_result_files (get_aapp_lvl1_files w cwd pname) self in
  Result (Returns false) self
    (before ++
     [Popen cmd cwd;
      TimerStart (10 * 60) (satid self) start_end_times;
      StatAppend level0])%list.

(** *** [run], lines 378-518 *)

Definition launch (opts : Options) (w : World) (self : AappLvl1Processor)
    (pname level0 : string) (keyname : scene_key)
    (start_end_times : interval) (before : list event)
  : result AappLvl1Processor bool :=
  let '(cwd, self, ev) := ensure_working_dir w self in
  let before := (before ++ ev)%list in
  if negb (Py.str_in pname SUPPORTED_NOAA_SATELLITES) &&
     negb (Py.str_in pname SUPPORTED_METOP_SATELLITES)
  then Result (Returns true) self
         (before ++ [Log WARNING "Satellite platform not noaa or metop!"])%list
  else if Py.str_in pname SUPPORTED_NOAA_SATELLITES then
    let self := register_job self start_end_times in
    let cmdseq := NoaaRun (NOAA_RUN_SCRIPT opts) start_end_times.1 level0 in
    after_popen w self pname cwd level0 start_end_times before cmdseq
  else
    match level0files self !! keyname with
    | None => Result (Raises (KeyError "keyname")) self before
    | Some files =>
        let sensor_filename := sensor_filenames files in
        if negb (sensor_names_match sensor_filename)
        then Result (Returns true) self
               (before ++ [Log ERROR "Sensor name mismatch! name = "])%list
        else
          let self := register_job self start_end_times in
          match metop_command opts sensor_filename with
          | Raises e => Result (Raises e) self before
          | Returns cmdstr =>
              after_popen w self pname cwd level0 start_end_times before cmdstr
          end
    end.

(** *** [run], lines 304-518: a file message of a supported satellite
    from the current server *)

Definition process (opts : Options) (w : World) (self : AappLvl1Processor)
    (d : msgdata) (pname : string) : result AappLvl1Processor bool :=
  let urlobj := uri d in
  let r := resolve_scene self d pname in
  match outcome r with
  | Raises e => Result (Raises e) (post r) (trace r)
  | Returns start_end_times =>
  let self := post r in
  match launched_previously self start_end_times with
  | Some _ => Result (Returns true) self (trace r)
  | None =>
  let keyname := (satid self, start_end_times.1, start_end_times.2) in
  let self := set_level0_filename (Some (path urlobj)) self in
  (* [launch] reads [self.level0_filename], set just above *)
  let fname := Py.basename (path urlobj) in
  let self :=
    if (Py.find ".hmf" fname >? 0)%Z then set_ishmf true self else self in
  if bool_decide (platform self = "metop") then
    let '(c, files) :=
      collect_level0 (level0files self) keyname (path urlobj) (sensor d) in
    let self := set_level0files files self in
    match c with
    | NotRequired | NotEnough => Result (Returns true) self (trace r)
    | Ready =>
        launch opts w self pname (path urlobj) keyname start_end_times (trace r)
    end
  else launch opts w self pname (path urlobj) keyname start_end_times (trace r)
  end end.

(** *** [AappLvl1Processor.run] *)

Definition run (opts : Options) (w : World) (self : AappLvl1Processor)
    (msg : option Message) : result AappLvl1Processor bool :=
  match msg with
  | None => Result (Returns true) self []
  | Some msg =>
  if negb (bool_decide (type msg = "file")) then Result (Returns true) self []
  else
  match platform_name (data msg) with
  | None => Result (Returns true) self [Log WARNING "'platform_name'"]
  | Some pname =>
  if negb (Py.str_in pname SUPPORTED_NOAA_SATELLITES) &&
     negb (Py.str_in pname SUPPORTED_METOP_SATELLITES)
  then Result (Returns true) self []
  else
  if negb (bool_decide (netloc (uri (data msg)) = SERVERNAME opts))
  then Result (Returns true) self [Log WARNING "Server not the current one"]
  else process opts w self (data msg) pname
  end end.

(** The [for] loop of [aapp_rolling_runner] (lines 533-536): messages are
    handed to [run] until it returns [False]; an exception leaves the
    loop and the runner. *)
Fixpoint receive (opts : Options) (w : World) (self : AappLvl1Processor)
    (msgs : list (option Message)) : result AappLvl1Processor bool :=
  match msgs with
  | [] => Result (Returns true) self []
  | msg :: msgs' =>
      let r := run opts w self msg in
      match outcome r with
      | Returns true =>
          let r' := receive opts w (post r) msgs' in
          Result (outcome r') (post r') (trace r ++ trace r')%list
      | _ => r
      end
  end.

(** ** Harvesting the level-1 files *)

(** The value [{'level': lvl, 'sensor': instr}] stored for each file. *)
Record sensor_level := { res_sensor : string; res_level : string }.

(** The directories the harvest touches: each directory, by its path as
    written, with the names of the files in it.  The pass directories the
    subprocess writes hold plain files only. *)
Abbreviation filesystem := (gmap string (list string)) (only parsing).

(** [glob(os.path.join(d, '*'))]: the entries of [d] that do not start
    with a dot, as paths, in directory order. *)
Definition glob_all (fs : filesystem) (d : string) : list string :=
  match fs !! d with
  | Some names =>
      Py.join d <$> filter (fun n => Py.startswith "." n = false) names
  | None => []
  end.

(** [shutil.move(src, dst)] for a directory [src]: the file system after
    the move, [shutil.Error], or another exception. *)
Inductive moved :=
| Moved (fs : filesystem)
| ShutilError (what : string)
| MoveFailed (e : exn).

Definition shutil_move (fs : filesystem) (src dst : string) : moved :=
  let rename (real_dst : string) :=
    match fs !! src with
    | Some names => Moved (<[real_dst := names]> (delete src fs))
    | None => MoveFailed (IOError "No such file or directory")
    end in
  match fs !! dst with
  | Some _ =>
      if bool_decide (src = dst) then Moved fs
      else
        let real_dst := Py.join dst (Py.basename (Py.rstrip ["/"%char] src)) in
        match fs !! real_dst with
        | Some _ => ShutilError "Destination path already exists"
        | None => rename real_dst
        end
  | None => rename dst
  end.

(** Lines 255-263 of [move_lvl1dir]: sensor and level of one file. *)
Definition sensor_and_level_of (fname : string) : sensor_level :=
  let mstr := hd "" (Py.split "_" (Py.basename fname)) in
  if bool_decide (mstr = "hrpt") then
    {| res_sensor := "avhrr/3"; res_level := "1b" |}
  else
    {| res_sensor := Py.but_last_chars 3 mstr;
       res_level := Py.last_chars 2 mstr |}.

(** [self.orbit == '00000' or self.orbit == None] *)
Definition orbit_unset (o : pyorbit) : bool :=
  match o with
  | OrbitStr s => bool_decide (s = "00000")
  | OrbitInt _ => false
  | OrbitNone => true
  end.

(** [move_lvl1dir], lines 245-267: the orbit number is taken from the
    name of the sub-directory when the message gave none, and every file
    found in the sub-directory under [lvl1_home] gets its sensor and
    level.  [logged] holds what the move has logged. *)
Definition classify_moved (self : AappLvl1Processor) (fs : filesystem)
    (subd : string) (logged : list event)
  : result (AappLvl1Processor * filesystem) (gmap string sensor_level) :=
  let classify (self : AappLvl1Processor) :=
    let filenames := glob_all fs (Py.join (lvl1_home self) subd) in
    let retv :=
      foldl (fun retv fname => <[fname := sensor_and_level_of fname]> retv)
            ∅ filenames in
    Result (Returns retv) (self, fs) logged in
  if orbit_unset (orbit self) then
    match Py.split "_" subd with
    | [_; _; _; orb] => classify (set_orbit (OrbitStr orb) self)
    | _ => Result (Raises (ValueError "unpack")) (self, fs) logged
    end
  else classify self.

(** [AappLvl1Processor.move_lvl1dir] *)
Definition move_lvl1dir (self : AappLvl1Processor) (fs : filesystem)
  : result (AappLvl1Processor * filesystem) (gmap string sensor_level) :=
  match result_files self with
  | [] => Result (Returns ∅) (self, fs) [Log WARNING "No files in directory to move!"]
  | first :: _ =>
      let path := Py.dirname first in
      let subd := Py.basename path in
      match shutil_move fs path (lvl1_home self) with
      | Moved fs' => classify_moved self fs' subd []
      | ShutilError _ =>
          classify_moved self fs subd [Log WARNING "Directory already exists: "]
      | MoveFailed e => Result (Raises e) (self, fs) []
      end
  end.

(** *** [pack_aapplvl1_files] *)

Definition name_converter : gmap string string :=
  list_to_map [("avhr", "avhrr/3"); ("aman", "amsu-a"); ("hrsn", "hirs/4");
               ("msun", "msu"); ("hrpt", "hrpt")].
Definition not_considered : list string := ["dcsn"; "msun"].

(** What the loop body of [pack_aapplvl1_files] decides for one file,
    before it copies it: nothing for a name that is not considered,
    otherwise the first part of the new name, the sensor and the level.
    [satnum_int] is [int(satnum)], [None] when it raises [ValueError]. *)
Definition pack_one (satnum_int : option Z) (in_name ext : string)
  : option (string * sensor_level) :=
  if Py.str_in in_name not_considered then None
  else if bool_decide (in_name = "ambn") then
    let instr :=
      match satnum_int with
      | Some n => if (n <=? 17)%Z then "amsub" else "mhs"
      | None => "mhs"
      end in
    Some (instr +:+ ext,
          {| res_sensor := instr; res_level := Py.strip ["l"%char] ext |})
  else if bool_decide (in_name = "hrpt") then
    Some (dict_get name_converter in_name "",
          {| res_sensor := "avhrr/3"; res_level := "1b" |})
  else
    let instr := dict_get name_converter in_name in_name in
    Some (instr +:+ ext,
          {| res_sensor := instr; res_level := Py.strip ["l"%char] ext |}).

(** The file-system calls of [pack_aapplvl1_files], on the directories
    of the harvest.  A path names the directory the file system has under
    that very text, and a file by the text of its directory and its name;
    the empty text is the current directory. *)

(** [os.path.isdir(p)] *)
Definition os_path_isdir (fs : filesystem) (p : string) : bool :=
  bool_decide (is_Some (fs !! p)).

(** [os.path.isfile(p)] *)
Definition os_path_isfile (fs : filesystem) (p : string) : bool :=
  match fs !! Py.dirname p with
  | Some names => bool_decide (Py.basename p ∈ names)
  | None => false
  end.

(** [os.path.exists(p)] *)
Definition os_path_exists (fs : filesystem) (p : string) : bool :=
  os_path_isdir fs p || os_path_isfile fs p.

(** [os.mkdir(p)] for a path that does not exist: [OSError] when the
    directory it is to be made in is not there. *)
Definition os_mkdir (fs : filesystem) (p : string) : completion filesystem :=
  match fs !! Py.dirname p with
  | Some _ => Returns (<[p := []]> fs)
  | None => Raises (OSError "No such file or directory")
  end.

(** [shutil.copy(src, dst)]: a destination that is a directory stands for
    the file of the source's name in it; [shutil.Error] when source and
    destination are the same file, [IOError] when the source is no file
    or the destination cannot be opened for writing, because it is a
    directory or because its directory is not there. *)
Definition shutil_copy (fs : filesystem) (src dst : string)
  : completion filesystem :=
  let dst :=
    if os_path_isdir fs dst then Py.join dst (Py.basename src) else dst in
  if os_path_isfile fs src &&
     bool_decide (Py.dirname src = Py.dirname dst) &&
     bool_decide (Py.basename src = Py.basename dst)
  then Raises (ShutilSameFile src dst)
  else if os_path_isdir fs src then Raises (IOError "Is a directory")
  else if negb (os_path_isfile fs src)
  then Raises (IOError "No such file or directory")
  else if os_path_isdir fs dst then Raises (IOError "Is a directory")
  else
    match fs !! Py.dirname dst with
    | Some names =>
        Returns (<[Py.dirname dst :=
                     if bool_decide (Py.basename dst ∈ names) then names
                     else (names ++ [Py.basename dst])%list]> fs)
    | None => Raises (IOError "No such file or directory")
    end.

(** The [for] loop of [pack_aapplvl1_files]: the dictionary and the file
    system as they are when it ends, and the copies made. *)
Fixpoint pack_loop (satnum_int : option Z) (path subdir : string)
    (aappfiles : list string) (sensor_and_level : gmap string sensor_level)
    (fs : filesystem) (done : list event)
  : result (gmap string sensor_level * filesystem) unit :=
  match aappfiles with
  | [] => Result (Returns tt) (sensor_and_level, fs) done
  | aapp_file :: rest =>
      let fname := Py.basename aapp_file in
      match Py.split "." fname with
      | [in_name; ext] =>
          match pack_one satnum_int in_name ext with
          | None => pack_loop satnum_int path subdir rest sensor_and_level fs done
          | Some (firstname, sl) =>
              let newfilename :=
                Py.join path (firstname +:+ "_" +:+ subdir +:+ "." +:+ ext) in
              match shutil_copy fs aapp_file newfilename with
              | Raises e => Result (Raises e) (sensor_and_level, fs) done
              | Returns fs' =>
                  pack_loop satnum_int path subdir rest
                    (<[newfilename := sl]> sensor_and_level) fs'
                    (done ++ [Copy aapp_file newfilename])%list
              end
          end
      | _ => Result (Raises (ValueError "unpack")) (sensor_and_level, fs) done
      end
  end.

(** Lines 645-647: the sub-directory is made when it is not there. *)
Definition ensure_subdir (fs : filesystem) (path : string)
  : completion (filesystem * list event) :=
  if os_path_exists fs path then Returns (fs, [])
  else
    match os_mkdir fs path with
    | Returns fs' => Returns (fs', [Mkdir path])
    | Raises e => Raises e
    end.

(** [pack_aapplvl1_files(aappfiles, base_dir, subdir, satnum)] on the
    file system [fs]: what it returns, the file system it leaves and the
    directory and copies it has made. *)
Definition pack_aapplvl1_files (fs : filesystem) (satnum_int : option Z)
    (aappfiles : list string) (base_dir subdir : string)
  : result filesystem (gmap string sensor_level) :=
  let path := Py.join base_dir subdir in
  match ensure_subdir fs path with
  | Raises e => Result (Raises e) fs []
  | Returns (fs', ev) =>
      let r := pack_loop satnum_int path subdir aappfiles ∅ fs' ev in
      match outcome r with
      | Returns _ => Result (Returns (post r).1) (post r).2 (trace r)
      | Raises e => Result (Raises e) (post r).2 (trace r)
      end
  end.

(** ** Handing over the level-1 files

    The part of [aapp_rolling_runner] that follows the receive loop
    (lines 538-559), with [create_subdirname], the method
    [pack_aapplvl1_files] and [publish_level1]. *)

(** The exceptions of the hand-over: those of [exn], and the two Python
    raises for a [None] or a string where a number or a datetime is
    needed. *)
Inductive pass_exn :=
| Raised (e : exn)
| TypeError (what : string)
| AttributeError (what : string).

Inductive ended (A : Type) :=
| Ok (v : A)
| Fails (e : pass_exn).
Arguments Ok {A} v.
Arguments Fails {A} e.

(** What the host answers during the hand-over: [MODE], the text
    [datetime.strftime] gives for a format, and [int] on a string
    ([None] for [ValueError]). *)
Record Host := {
  MODE : string;
  strftime : string → datetime → string;
  py_int : string → option Z
}.

(** ['%.5d' % n] for an integer: the decimal digits, filled with zeros on
    the left up to five, after the sign. *)
Fixpoint zeros (k : nat) : string :=
  match k with
  | O => ""
  | S k' => String "0" (zeros k')
  end.
Definition format_5d (n : Z) : string :=
  let digits := NilZero.string_of_uint (N.to_uint (Z.abs_N n)) in
  let padded := zeros (5 - String.length digits) +:+ digits in
  if (n <? 0)%Z then "-" +:+ padded else padded.

(** [create_subdirname(obstime, satid, orbnum)] *)
Definition create_subdirname (host : Host) (obstime : option datetime)
    (satid : string) (orbnum : pyorbit) : ended string :=
  let name := dict_get SATELLITE_NAME satid satid in
  match obstime with
  | None => Fails (AttributeError "'NoneType' object has no attribute 'strftime'")
  | Some t =>
      let stamp := strftime host "_%Y%m%d_%H%M_" t in
      match orbnum with
      | OrbitInt n => Ok (name +:+ stamp +:+ format_5d n)
      | OrbitStr _ | OrbitNone =>
          Fails (TypeError "%d format: a number is required")
      end
  end.

(** The method [AappLvl1Processor.pack_aapplvl1_files] *)
Definition pack_lvl1 (host : Host) (self : AappLvl1Processor) (fs : filesystem)
    (subd : string) : result filesystem (gmap string sensor_level) :=
  pack_aapplvl1_files fs (py_int host (satnum self)) (result_files self)
    (lvl1_home self) subd.

(** The dictionary [to_send] of [publish_level1], and the message made
    of it. *)
Record to_send := {
  send_uri : string;
  send_filename : string;
  send_sensor : string;
  send_platform_name : string;
  send_orbit_number : pyorbit;
  send_format : string;
  send_type : string;
  send_data_processing_level : string;
  send_start_time : option datetime;
  send_end_time : option datetime
}.
Record published := { subject : string; atype : string; body : to_send }.

(** [publish_level1(publisher, result_files, satellite, orbit, start_t,
    end_t)]: the messages sent.  Python goes through the dictionary in an
    order it does not promise; here it is the order of [map_to_list]. *)
Definition publish_level1 (opts : Options) (host : Host)
    (result_files : gmap string sensor_level) (satellite : string)
    (orbit : pyorbit) (start_t end_t : option datetime) : list published :=
  (fun '(resultfile, sl) =>
     let to_send :=
       {| send_uri := "ssh://" +:+ SERVERNAME opts +:+ "/" +:+ resultfile;
          send_filename := Py.basename resultfile;
          send_sensor := res_sensor sl;
          send_platform_name := satellite;
          send_orbit_number := orbit;
          send_format := "AAPP-HRPT";
          send_type := "Binary";
          send_data_processing_level := res_level sl;
          send_start_time := start_t;
          send_end_time := end_t |} in
     {| subject := "/" +:+ send_format to_send +:+ "/" +:+
                   send_data_processing_level to_send +:+
                   "/norrköping/" +:+ MODE host +:+ "/polar/direct_readout/";
        atype := "file";
        body := to_send |})
  <$> map_to_list result_files.

(** What the hand-over leaves: its completion, the object and the file
    system, the events and the messages sent. *)
Record handed_over := HandedOver {
  pass_outcome : ended unit;
  pass_post : AappLvl1Processor * filesystem;
  pass_trace : list event;
  pass_sent : list published
}.

(** [aapp_rolling_runner], lines 538-559. *)
Definition hand_over (opts : Options) (host : Host) (self : AappLvl1Processor)
    (fs : filesystem) : handed_over :=
  match starttime self with
  | None =>
      HandedOver
        (Fails (AttributeError "'NoneType' object has no attribute 'strftime'"))
        (self, fs) [] []
  | Some tobj =>
      if Py.startswith "metop" (satid self) then
        match create_subdirname host (Some tobj) (satid self) (orbit self) with
        | Fails e => HandedOver (Fails e) (self, fs) [] []
        | Ok subd =>
            let r := pack_lvl1 host self fs subd in
            match outcome r with
            | Raises e =>
                HandedOver (Fails (Raised e)) (self, post r) (trace r) []
            | Returns level1_files =>
                HandedOver (Ok tt) (self, post r) (trace r)
                  (publish_level1 opts host level1_files (satellite self)
                     (orbit self) (starttime self) (endtime self))
            end
        end
      else
        let r := move_lvl1dir self fs in
        match outcome r with
        | Raises e => HandedOver (Fails (Raised e)) (post r) (trace r) []
        | Returns level1_files =>
            let self := (post r).1 in
            HandedOver (Ok tt) (post r) (trace r)
              (publish_level1 opts host level1_files (satellite self)
                 (orbit self) (starttime self) (endtime self))
        end
  end.

(** A sample host. *)
Definition example_host : Host :=
  {| MODE := "offline"; strftime := fun _ _ => "_20140826_1108_";
     py_int := fun _ => None |}.

(** * Vocabulary of the properties *)

(** The test written in [overlapping_timeinterval]: an end point of the
    candidate lies strictly inside the locked interval. *)
Definition endpoint_inside (start_end_times locked : interval) : Prop :=
  (locked.1 < start_end_times.1 < locked.2)%Z ∨
  (locked.1 < start_end_times.2 < locked.2)%Z.

(** Overlap of the two open intervals. *)
Definition open_overlap (a b : interval) : Prop :=
  (Z.max a.1 b.1 < Z.min a.2 b.2)%Z.

Definition nothing_to_reset : event :=
  Log WARNING "Nothing to reset/release - Register didn't contain any entry matching: ".

(** A satellite [run] processes. *)
Definition supported (pname : string) : Prop :=
  pname ∈ SUPPORTED_NOAA_SATELLITES ∨ pname ∈ SUPPORTED_METOP_SATELLITES.

(** A file message of a supported satellite from the current server. *)
Definition accepted (opts : Options) (msg : Message) (pname : string) : Prop :=
  type msg = "file" ∧ platform_name (data msg) = Some pname ∧
  supported pname ∧ netloc (uri (data msg)) = SERVERNAME opts.

(** The end of the scene window: the message's, or the guess. *)
Definition scene_end (d : msgdata) : datetime :=
  from_option id (start_time d + timedelta_seconds (60 * 14))%Z (end_time d).

(** The subprocess was started. *)
Definition dispatched (tr : list event) : Prop :=
  ∃ cmd cwd, Popen cmd cwd ∈ tr.

(** A message with one field replaced. *)
Definition with_end_time (e : option datetime) (msg : Message) : Message :=
  {| type := type msg;
     data := {| platform_name := platform_name (data msg);
                sensor := sensor (data msg);
                uri := uri (data msg);
                start_time := start_time (data msg);
                end_time := e;
                orbit_number := orbit_number (data msg) |} |}.

Definition with_orbit_number (n : option Z) (msg : Message) : Message :=
  {| type := type msg;
     data := {| platform_name := platform_name (data msg);
                sensor := sensor (data msg);
                uri := uri (data msg);
                start_time := start_time (data msg);
                end_time := end_time (data msg);
                orbit_number := n |} |}.

Definition no_end_time : event :=
  Log WARNING "No end_time in message! Guessing start_time + 14 minutes...".
Definition no_orbit_number : event :=
  Log WARNING "No orbit_number in message! Set to none...".

(** Sample configuration and messages. *)
Definition example_options : Options :=
  {| SERVERNAME := "host"; AAPP_OUT_DIR := "/data/lvl1";
     METOP_IN_DIR := "/data/metop"; AAPP_BIN_HOME := "/opt/aapp" |}.
Definition example_world : World :=
  {| mkdtemp := "/tmp/aapp_wrk"; glob := fun _ => [] |}.
Definition noaa19_message : Message :=
  {| type := "file";
     data := {| platform_name := Some "NOAA-19"; sensor := "avhrr/3";
                uri := {| netloc := "host"; path := "/data/x.hmf" |};
                start_time := 0; end_time := None; orbit_number := None |} |}.


(** The overlap test [run] makes for a scene of satellite [pname] against
    the intervals registered under its id. *)
Definition pass_locked (self : AappLvl1Processor) (pname : string)
    (start_end_times : interval) : option interval :=
  overlapping_timeinterval start_end_times
    (default [] (job_register self !! dict_get SATELLITE_NAME pname "unknown")).

Definition metop_message (msg_sensor level0 : string) : Message :=
  {| type := "file";
     data := {| platform_name := Some "Metop-B"; sensor := msg_sensor;
                uri := {| netloc := "host"; path := level0 |};
                start_time := 0; end_time := Some 100%Z;
                orbit_number := Some 12345%Z |} |}.




(** A pass directory under the output root, with a file of a known and
    a file of an unknown prefix, and a processor that has just run. *)
Definition harvested_fs : filesystem :=
  {[ "/data/lvl1" := [];
     "/tmp/aapp_wrk/noaa19_20140826_1108_47748" :=
       ["hrpt_noaa19_20140826_1108_47748.l1b";
        "foo_noaa19_20140826_1108_47748.l1b"] ]}.
Definition harvesting_processor : AappLvl1Processor :=
  set_result_files
    ["/tmp/aapp_wrk/noaa19_20140826_1108_47748/hrpt_noaa19_20140826_1108_47748.l1b";
     "/tmp/aapp_wrk/noaa19_20140826_1108_47748/foo_noaa19_20140826_1108_47748.l1b"]
    (set_orbit OrbitNone (new_processor example_options)).

Definition already_exists : event := Log WARNING "Directory already exists: ".

(** A file of the pass directory whose prefix is in no table. *)
Definition foo_file : string :=
  "/data/lvl1/noaa19_20140826_1108_47748/foo_noaa19_20140826_1108_47748.l1b".

(** A trace that holds log records only. *)
Definition only_logs (tr : list event) : Prop :=
  ∀ ev, ev ∈ tr → ∃ lvl text, ev = Log lvl text.

(** The key under which [run] registers a scene of satellite [pname]. *)
Definition registry_key (pname : string) : string :=
  dict_get SATELLITE_NAME pname "unknown".


Definition is_popen (ev : event) : bool :=
  match ev with Popen _ _ => true | _ => false end.
Definition is_mkdtemp (ev : event) : bool :=
  match ev with Mkdtemp _ => true | _ => false end.
(** How many events of a kind a trace holds. *)
Definition count (kind : event → bool) (tr : list event) : nat :=
  length (List.filter kind tr).


(** A Metop-B scene with the files of three roles collected. *)
Definition three_roles_collected : AappLvl1Processor :=
  set_level0files
    {[ ("metop01", 0%Z, 100%Z) :=
         [("/data/metop/avhrr.hmf", "avhrr"); ("/data/metop/amsua.hmf", "amsua");
          ("/data/metop/mhs.hmf", "mhs")] ]}
    (new_processor example_options).


(** A pass directory whose name has three parts. *)
Definition short_name_fs : gmap string (list string) :=
  {[ "/data/lvl1" := [];
     "/tmp/aapp_wrk/noaa19_20140826_1108" := ["hrpt_noaa19_20140826_1108.l1b"] ]}.
Definition short_name_processor : AappLvl1Processor :=
  set_result_files ["/tmp/aapp_wrk/noaa19_20140826_1108/hrpt_noaa19_20140826_1108.l1b"]
    (set_orbit OrbitNone (new_processor example_options)).

(** Files left in a working directory by the Metop script. *)
Definition metop_result_files : list string :=
  ["/tmp/aapp_wrk/hrpt.l1b"; "/tmp/aapp_wrk/dcsn.l1b"; "/tmp/aapp_wrk/aman.l1c"].

(** A Metop-B pass that has been processed: start time and orbit from
    the message, the result files found. *)
Definition metop_pass_ready : AappLvl1Processor :=
  set_result_files metop_result_files
    (set_orbit (OrbitInt 12345)
       (set_satid "metop01"
          (set_starttime (Some 0%Z) (new_processor example_options)))).

(** The output root, empty, and the working directory with the files of
    [metop_result_files]. *)
Definition metop_fs : filesystem :=
  {[ "/data/lvl1" := [];
     "/tmp/aapp_wrk" := ["hrpt.l1b"; "dcsn.l1b"; "aman.l1c"] ]}.

(** The output root, empty, and a working directory with the AVHRR
    level-1b file the Metop script leaves. *)
Definition avhr_fs : filesystem :=
  {[ "/data/lvl1" := []; "/tmp/aapp_wrk" := ["avhr.l1b"] ]}.

(** The answers of the operating system during a Metop-B pass whose
    script leaves one level-1b file in the working directory. *)
Definition metop_world : World :=
  {| mkdtemp := "/tmp/aapp_wrk";
     glob := fun pattern =>
       if bool_decide (pattern = "/tmp/aapp_wrk/*.l1b")
       then ["/tmp/aapp_wrk/hrpt.l1b"] else [] |}.

(** The answers of the operating system during a NOAA-19 pass whose
    script leaves the pass directory of [harvested_fs]. *)
Definition noaa_world : World :=
  {| mkdtemp := "/tmp/aapp_wrk";
     glob := fun pattern =>
       if bool_decide (pattern = "/tmp/aapp_wrk/noaa19_????????_????_?????/*")
       then ["/tmp/aapp_wrk/noaa19_20140826_1108_47748/hrpt_noaa19_20140826_1108_47748.l1b";
             "/tmp/aapp_wrk/noaa19_20140826_1108_47748/foo_noaa19_20140826_1108_47748.l1b"]
       else [] |}.

(** The message that completes the scene of [three_roles_collected]. *)
Definition hirs_message : Message :=
  metop_message "hirs/4" "/data/metop/hirs.hmf".

(** * Properties *)

(** ** The overlap test *)

Section Overlap.

Implicit Types (c a : interval) (timelist : list interval).

Lemma overlap_test_spec c a :
  ((c.1 >? a.1)%Z && (c.1 <? a.2)%Z) || ((c.2 >? a.1)%Z && (c.2 <? a.2)%Z) = true
  ↔ endpoint_inside c a.
Proof. unfold endpoint_inside. destruct c, a; simpl. lia. Qed.

Lemma overlapping_timeinterval_cons c a timelist :
  overlapping_timeinterval c (a :: timelist) =
  if ((c.1 >? a.1)%Z && (c.1 <? a.2)%Z) || ((c.2 >? a.1)%Z && (c.2 <? a.2)%Z)
  then Some a else overlapping_timeinterval c timelist.
Proof. destruct c, a; reflexivity. Qed.

Lemma overlapping_timeinterval_nil c : overlapping_timeinterval c [] = None.
Proof. destruct c; reflexivity. Qed.

(** No match exactly when no locked interval has an end point of the
    candidate strictly inside it. *)
Lemma overlapping_timeinterval_None c timelist :
  overlapping_timeinterval c timelist = None
  ↔ Forall (fun a => ¬ endpoint_inside c a) timelist.
Proof.
  induction timelist as [|a timelist IH].
  - rewrite overlapping_timeinterval_nil. split; [constructor | done].
  - rewrite overlapping_timeinterval_cons, Forall_cons, <- IH, <- overlap_test_spec.
    destruct (_ || _); intuition congruence.
Qed.

(** A match is the first locked interval that passes the test. *)
Lemma overlapping_timeinterval_Some c timelist a :
  overlapping_timeinterval c timelist = Some a
  ↔ ∃ before after,
      timelist = before ++ a :: after ∧
      Forall (fun a' => ¬ endpoint_inside c a') before ∧
      endpoint_inside c a.
Proof.
  induction timelist as [|a' timelist IH].
  - rewrite overlapping_timeinterval_nil. split; [done|].
    intros ([|??] & ? & ? & _); done.
  - rewrite overlapping_timeinterval_cons.
    destruct (_ || _) eqn:Ht.
    + apply overlap_test_spec in Ht. split.
      * intros [= <-]. exists [], timelist. by repeat split.
      * intros ([|b before] & after & Heq & Hb & Ha); simplify_eq/=; [done|].
        by apply Forall_cons in Hb as [? _].
    + assert (¬ endpoint_inside c a') as Hn.
      { rewrite <- overlap_test_spec. by rewrite Ht. }
      rewrite IH. split.
      * intros (before & after & -> & Hb & Ha).
        exists (a' :: before), after. repeat split; [|done]. by constructor.
      * intros ([|b before] & after & Heq & Hb & Ha); simplify_eq/=; [done|].
        apply Forall_cons in Hb as [_ Hb]. by exists before, after.
Qed.

Lemma overlapping_timeinterval_app c l1 l2 :
  overlapping_timeinterval c (l1 ++ l2) =
  match overlapping_timeinterval c l1 with
  | Some a => Some a
  | None => overlapping_timeinterval c l2
  end.
Proof.
  induction l1 as [|a l1 IH]; simpl app.
  - by rewrite overlapping_timeinterval_nil.
  - rewrite !overlapping_timeinterval_cons. by destruct (_ || _).
Qed.

(** A match of a proper candidate does overlap it. *)
Lemma endpoint_inside_overlap c a :
  (c.1 < c.2)%Z → endpoint_inside c a → open_overlap a c.
Proof. unfold endpoint_inside, open_overlap. lia. Qed.

(** Touching at a boundary is no match. *)
Lemma touching_not_inside c a :
  (c.1 ≤ c.2)%Z → (a.1 ≤ a.2)%Z → c.1 = a.2 ∨ c.2 = a.1 →
  ¬ endpoint_inside c a.
Proof. unfold endpoint_inside. lia. Qed.

(** A locked interval that strictly contains the candidate is matched. *)
Lemma containing_is_inside c a :
  (c.1 < c.2)%Z → (a.1 < c.1)%Z → (c.2 < a.2)%Z → endpoint_inside c a.
Proof. unfold endpoint_inside. lia. Qed.

(** What the test leaves out: the overlapping intervals it does not
    match are those the candidate covers, the candidate's own window
    among them. *)
Lemma overlap_not_inside c a :
  open_overlap a c ∧ ¬ endpoint_inside c a
  ↔ (a.1 < a.2)%Z ∧ (c.1 ≤ a.1)%Z ∧ (a.2 ≤ c.2)%Z.
Proof. unfold endpoint_inside, open_overlap. lia. Qed.

Lemma own_window_not_inside c : ¬ endpoint_inside c c.
Proof. unfold endpoint_inside. lia. Qed.

End Overlap.

(** C2 (defect).  The claim asks for a match on any overlap of the open
    intervals, a candidate that strictly contains a locked interval
    included.  For the candidate (0,10) and the single locked interval
    (2,5) the open intervals overlap, (2,5) lying inside (0,10), and
    [overlapping_timeinterval] reports no match. *)
Theorem overlapping_timeinterval_misses_covered_interval :
  open_overlap (2, 5)%Z (0, 10)%Z ∧
  overlapping_timeinterval (0, 10)%Z [(2, 5)%Z] = None.
Proof. split; [unfold open_overlap; simpl; lia | reflexivity]. Qed.

(** ** Releasing a lock *)

Section Release.

Implicit Types (objdict : gmap string (list interval)) (l : list interval).

Lemma list_remove_None x l : list_remove x l = None ↔ x ∉ l.
Proof.
  induction l as [|y l IH]; simpl.
  - split; [intros _; apply not_elem_of_nil | done].
  - rewrite not_elem_of_cons. case_bool_decide as Hy.
    + split; [done | intros [? _]; congruence].
    + rewrite fmap_None, IH. intuition congruence.
Qed.

(** [list.remove] takes out the first occurrence and nothing else. *)
Lemma list_remove_Some x l l' :
  list_remove x l = Some l'
  ↔ ∃ before after,
      l = before ++ x :: after ∧ (x ∉ before) ∧ l' = before ++ after.
Proof.
  revert l'. induction l as [|y l IH]; intros l'; simpl.
  - split; [done | intros ([|??] & ? & ? & _); done].
  - case_bool_decide as Hy.
    + subst y. split.
      * intros [= <-]. exists [], l. repeat split. apply not_elem_of_nil.
      * intros ([|b before] & after & Heq & Hb & ->); simplify_eq/=; [done|].
        exfalso. apply Hb. left.
    + rewrite fmap_Some. split.
      * intros (l0 & (before & after & -> & Hb & ->)%IH & ->).
        exists (y :: before), after. repeat split.
        rewrite not_elem_of_cons. split; [congruence | done].
      * intros ([|b before] & after & Heq & Hb & ->); simplify_eq/=.
        apply not_elem_of_cons in Hb as [_ Hb].
        exists (before ++ after). split; [|done].
        apply IH. by exists before, after.
Qed.

(** Key absent: a warning, nothing else. *)
Lemma reset_job_registry_absent objdict key start_end_times :
  objdict !! key = None →
  reset_job_registry objdict key start_end_times
  = Result (Returns tt) objdict [nothing_to_reset].
Proof. intros H. unfold reset_job_registry. by rewrite H. Qed.

(** Empty list under the key: a warning, nothing else. *)
Lemma reset_job_registry_empty objdict key start_end_times :
  objdict !! key = Some [] →
  reset_job_registry objdict key start_end_times
  = Result (Returns tt) objdict [nothing_to_reset].
Proof. intros H. unfold reset_job_registry. by rewrite H. Qed.

(** A recorded interval: its first occurrence is removed. *)
Lemma reset_job_registry_found objdict key start_end_times before after :
  objdict !! key = Some (before ++ start_end_times :: after) →
  start_end_times ∉ before →
  reset_job_registry objdict key start_end_times
  = Result (Returns tt) (<[key := before ++ after]> objdict) [].
Proof.
  intros H Hb. unfold reset_job_registry. rewrite H.
  rewrite bool_decide_true by (rewrite length_app; simpl; lia).
  assert (list_remove start_end_times (before ++ start_end_times :: after)
          = Some (before ++ after)) as ->; [|done].
  apply list_remove_Some. by exists before, after.
Qed.

(** Intervals under the key but not this one: [list.remove] raises, no
    warning is written. *)
Lemma reset_job_registry_unmatched objdict key start_end_times l :
  objdict !! key = Some l → l ≠ [] → start_end_times ∉ l →
  reset_job_registry objdict key start_end_times
  = Result (Raises (ValueError "list.remove(x): x not in list")) objdict [].
Proof.
  intros H Hl Hn. unfold reset_job_registry. rewrite H.
  rewrite bool_decide_true by (destruct l; [done | simpl; lia]).
  by apply list_remove_None in Hn as ->.
Qed.

End Release.

(** C5 (defect).  The claim makes every unlock without a matching
    interval a logged no-op.  With the register
    [{'noaa19': [(0, 840)]}], releasing (100, 940) under 'noaa19' finds a
    non-empty list that does not hold the interval: the call raises
    [ValueError] out of [list.remove] and writes no warning; the register
    is left as it was. *)
Theorem reset_job_registry_unmatched_interval_raises :
  reset_job_registry {[ "noaa19" := [(0, 840)%Z] ]} "noaa19" (100, 940)%Z
  = Result (Raises (ValueError "list.remove(x): x not in list"))
           {[ "noaa19" := [(0, 840)%Z] ]} [].
Proof. reflexivity. Qed.

(** ** Re-initialising between passes *)

(** C9.  [initialise] gives the per-pass fields (working directory,
    level-0 file name, scene times, satellite identity, orbit, result
    files, pending level-0 files) their empty values and leaves the job
    register as it is, so every lock recorded for an earlier pass is
    still there after the reset: the overlap test [run] makes for a
    scene gives the same answer before and after. *)
Theorem initialise_keeps_job_register (self : AappLvl1Processor) :
  job_register (initialise self) = job_register self ∧
  (∀ pname start_end_times,
     pass_locked (initialise self) pname start_end_times
     = pass_locked self pname start_end_times) ∧
  working_dir (initialise self) = None ∧
  level0_filename (initialise self) = None ∧
  starttime (initialise self) = None ∧
  endtime (initialise self) = None ∧
  satid (initialise self) = "Unknown" ∧
  satellite (initialise self) = "Unknown" ∧
  platform (initialise self) = "Unknown" ∧
  satnum (initialise self) = "0" ∧
  orbit (initialise self) = OrbitStr "00000" ∧
  result_files (initialise self) = [] ∧
  level0files (initialise self) = ∅.
Proof. repeat split. Qed.

(** ** Processing a message *)

Lemma supported_cases pname :
  supported pname →
  pname ∈ ["NOAA-19"; "NOAA-18"; "NOAA-16"; "NOAA-15"; "Metop-B"; "Metop-A"; "Metop-C"].
Proof.
  unfold supported, SUPPORTED_NOAA_SATELLITES, SUPPORTED_METOP_SATELLITES.
  rewrite !elem_of_cons, !elem_of_nil. tauto.
Qed.

Ltac each_satellite H :=
  apply supported_cases in H;
  repeat (apply elem_of_cons in H as [->|H]); [..|by apply elem_of_nil in H].

Lemma run_accepted opts w self msg pname :
  accepted opts msg pname →
  run opts w self (Some msg) = process opts w self (data msg) pname.
Proof.
  intros (Ht & Hp & Hs & Hn). unfold run. rewrite Ht, Hp, Hn.
  rewrite !bool_decide_true by done. simpl negb at 1. cbv iota.
  each_satellite Hs; reflexivity.
Qed.

Lemma resolve_scene_outcome self d pname :
  supported pname →
  outcome (resolve_scene self d pname) = Returns (start_time d, scene_end d).
Proof.
  intros Hs. unfold resolve_scene, scene_end.
  each_satellite Hs; destruct (end_time d), (orbit_number d); reflexivity.
Qed.

(** What [resolve_scene] leaves in the object. *)
Lemma resolve_scene_post self d pname :
  supported pname →
  let self' := post (resolve_scene self d pname) in
  starttime self' = Some (start_time d) ∧
  endtime self' = Some (scene_end d) ∧
  orbit self' = from_option OrbitInt OrbitNone (orbit_number d) ∧
  satid self' = dict_get SATELLITE_NAME pname "unknown" ∧
  platform self' = (if Py.str_in pname SUPPORTED_METOP_SATELLITES then "metop" else "noaa") ∧
  level0files self' = level0files self ∧
  job_register self' = job_register self ∧
  working_dir self' = working_dir self.
Proof.
  intros Hs. unfold resolve_scene, scene_end.
  each_satellite Hs; destruct (end_time d), (orbit_number d); repeat split.
Qed.

Lemma resolve_scene_trace self d pname :
  supported pname →
  trace (resolve_scene self d pname) =
    match end_time d with
    | Some _ => []
    | None => [Log WARNING "No end_time in message! Guessing start_time + 14 minutes..."]
    end ++
    match orbit_number d with
    | Some _ => []
    | None => [Log WARNING "No orbit_number in message! Set to none..."]
    end.
Proof.
  intros Hs. unfold resolve_scene.
  each_satellite Hs; destruct (end_time d), (orbit_number d); reflexivity.
Qed.

(** Case analysis along the branches of [launch]. *)
Ltac launch_cases self pname keyname :=
  unfold launch, ensure_working_dir; simpl;
  destruct (working_dir self) as [?dir|]; [case_bool_decide|]; simpl;
  (destruct (negb (Py.str_in pname SUPPORTED_NOAA_SATELLITES) &&
             negb (Py.str_in pname SUPPORTED_METOP_SATELLITES)); [|
   destruct (Py.str_in pname SUPPORTED_NOAA_SATELLITES); [|
   destruct (level0files self !! keyname); [
   destruct (negb (sensor_names_match _)); [|
   destruct (metop_command _ _)]|]]]);
  unfold after_popen, register_job; simpl.

(** [launch] writes the working directory, the job register and the
    result files, nothing else. *)
Lemma launch_frame opts w self pname level0 keyname se before :
  let self' := post (launch opts w self pname level0 keyname se before) in
  starttime self' = starttime self ∧ endtime self' = endtime self ∧
  orbit self' = orbit self ∧ satid self' = satid self ∧
  level0files self' = level0files self.
Proof.
  launch_cases self pname keyname; repeat split.
Qed.

Lemma launch_before opts w self pname level0 keyname se before :
  launch opts w self pname level0 keyname se before =
  let r := launch opts w self pname level0 keyname se [] in
  Result (outcome r) (post r) (before ++ trace r).
Proof.
  launch_cases self pname keyname; rewrite ?app_nil_r, <- ?app_assoc; reflexivity.
Qed.

(** The steps of [process] after [resolve_scene], for a supported
    satellite. *)
Lemma process_supported opts w self d pname :
  supported pname →
  process opts w self d pname =
  let r := resolve_scene self d pname in
  let se := (start_time d, scene_end d) in
  match launched_previously (post r) se with
  | Some _ => Result (Returns true) (post r) (trace r)
  | None =>
      let keyname := (satid (post r), se.1, se.2) in
      let self := set_level0_filename (Some (path (uri d))) (post r) in
      let self :=
        if (Py.find ".hmf" (Py.basename (path (uri d))) >? 0)%Z
        then set_ishmf true self else self in
      if bool_decide (platform self = "metop") then
        let c := collect_level0 (level0files self) keyname (path (uri d)) (sensor d) in
        let self := set_level0files c.2 self in
        match c.1 with
        | Ready => launch opts w self pname (path (uri d)) keyname se (trace r)
        | _ => Result (Returns true) self (trace r)
        end
      else launch opts w self pname (path (uri d)) keyname se (trace r)
  end.
Proof.
  intros Hs. unfold process. rewrite (resolve_scene_outcome _ _ _ Hs).
  cbv zeta. destruct (launched_previously _ _); [done|].
  case_bool_decide; [|done].
  destruct (collect_level0 _ _ _ _) as [[] ?]; reflexivity.
Qed.

Lemma set_orbit_same self : set_orbit (orbit self) self = self.
Proof. by destruct self. Qed.

(** [launch] does not look at the orbit. *)
Lemma launch_set_orbit opts w self o pname level0 keyname se before :
  launch opts w (set_orbit o self) pname level0 keyname se before =
  let r := launch opts w self pname level0 keyname se before in
  Result (outcome r) (set_orbit o (post r)) (trace r).
Proof.
  launch_cases self pname keyname; reflexivity.
Qed.

(** The part of [process] that follows [resolve_scene] sees the message
    only through the resolved object, the scene window, the URI and the
    sensor.  It does not read the orbit, and it only adds to the events
    of [resolve_scene]. *)
Lemma process_after_resolve opts w self self' d d' pname o :
  supported pname →
  uri d = uri d' → sensor d = sensor d' →
  start_time d = start_time d' → scene_end d = scene_end d' →
  post (resolve_scene self d pname)
    = set_orbit o (post (resolve_scene self' d' pname)) →
  let r := process opts w self d pname in
  let r' := process opts w self' d' pname in
  outcome r = outcome r' ∧ post r = set_orbit o (post r') ∧
  ∃ rest, trace r = trace (resolve_scene self d pname) ++ rest ∧
          trace r' = trace (resolve_scene self' d' pname) ++ rest.
Proof.
  intros Hs Hu Hse Hst Hen Hpost.
  rewrite !process_supported by done. cbv zeta.
  rewrite Hpost, Hu, Hse, Hst, Hen.
  generalize (trace (resolve_scene self d pname)).
  generalize (trace (resolve_scene self' d' pname)).
  generalize (post (resolve_scene self' d' pname)).
  intros x T' T.
  change (launched_previously (set_orbit o x)) with (launched_previously x).
  destruct (launched_previously _ _).
  { repeat split. exists []. by rewrite !app_nil_r. }
  assert (∀ y k, let r := launch opts w (set_orbit o y) pname (path (uri d')) k
                            (start_time d', scene_end d') T in
                 let r' := launch opts w y pname (path (uri d')) k
                            (start_time d', scene_end d') T' in
                 outcome r = outcome r' ∧ post r = set_orbit o (post r') ∧
                 ∃ rest, trace r = T ++ rest ∧ trace r' = T' ++ rest) as Hl.
  { intros y k. rewrite launch_set_orbit. cbv zeta.
    rewrite (launch_before _ _ _ _ _ _ _ T), (launch_before _ _ _ _ _ _ _ T').
    simpl. repeat split. eauto. }
  destruct (Py.find _ _ >? 0)%Z.
  - change (platform (set_ishmf true (set_level0_filename ?a (set_orbit o x))))
      with (platform (set_ishmf true (set_level0_filename a x))).
    case_bool_decide.
    + simpl level0files.
      destruct (collect_level0 _ _ _ _) as [[] ?]; simpl fst; simpl snd; cbv iota.
      1,2: repeat split; exists []; by rewrite !app_nil_r.
      apply (Hl (set_level0files _ (set_ishmf true (set_level0_filename _ x)))).
    + apply (Hl (set_ishmf true (set_level0_filename _ x))).
  - change (platform (set_level0_filename ?a (set_orbit o x)))
      with (platform (set_level0_filename a x)).
    case_bool_decide.
    + simpl level0files.
      destruct (collect_level0 _ _ _ _) as [[] ?]; simpl fst; simpl snd; cbv iota.
      1,2: repeat split; exists []; by rewrite !app_nil_r.
      apply (Hl (set_level0files _ (set_level0_filename _ x))).
    + apply (Hl (set_level0_filename _ x)).
Qed.

Lemma accepted_with_end_time opts msg pname e :
  accepted opts msg pname → accepted opts (with_end_time e msg) pname.
Proof. intros (?&?&?&?). by repeat split. Qed.

Lemma accepted_with_orbit_number opts msg pname n :
  accepted opts msg pname → accepted opts (with_orbit_number n msg) pname.
Proof. intros (?&?&?&?). by repeat split. Qed.

Lemma dispatched_app_log (front rest : list event) :
  (∀ ev, ev ∈ front → ∃ lvl text, ev = Log lvl text) →
  dispatched (front ++ rest) ↔ dispatched rest.
Proof.
  intros Hf. unfold dispatched. split.
  - intros (cmd & cwd & [Hin|Hin]%elem_of_app); [|eauto].
    apply Hf in Hin as (? & ? & ?). done.
  - intros (cmd & cwd & Hin). exists cmd, cwd. apply elem_of_app. by right.
Qed.

Lemma resolve_scene_logs self d pname ev :
  supported pname → ev ∈ trace (resolve_scene self d pname) →
  ∃ lvl text, ev = Log lvl text.
Proof.
  intros Hs. rewrite resolve_scene_trace by done.
  destruct (end_time d), (orbit_number d); simpl;
    rewrite ?elem_of_cons, elem_of_nil; intros H; eauto; intuition eauto.
Qed.

(** A message without [end_time] is resolved like the message that
    carries the guessed end time. *)
Lemma resolve_scene_guessed_end self msg pname :
  end_time (data msg) = None →
  let guess := (start_time (data msg) + 14 * 60 * 1000000)%Z in
  let d' := data (with_end_time (Some guess) msg) in
  scene_end (data msg) = guess ∧ scene_end d' = guess ∧
  post (resolve_scene self (data msg) pname) = post (resolve_scene self d' pname).
Proof.
  destruct msg as [ty [pn sn u st e orb]]. simpl. intros ->.
  repeat split. unfold resolve_scene. simpl.
  destruct orb; destruct (Py.str_in pname _); try destruct (_ !! 1%nat);
    reflexivity.
Qed.

(** A message without [orbit_number] is resolved like one that carries
    an orbit number, up to the orbit stored. *)
Lemma resolve_scene_any_orbit self msg pname n :
  orbit_number (data msg) = None →
  let d' := data (with_orbit_number (Some n) msg) in
  scene_end (data msg) = scene_end d' ∧
  post (resolve_scene self (data msg) pname)
    = set_orbit OrbitNone (post (resolve_scene self d' pname)).
Proof.
  destruct msg as [ty [pn sn u st e orb]]. simpl. intros ->.
  repeat split. unfold resolve_scene. simpl.
  destruct e; destruct (Py.str_in pname _); try destruct (_ !! 1%nat);
    reflexivity.
Qed.

(** Whatever branch [process] takes, the scene times and the orbit are
    those [resolve_scene] stored. *)
Lemma process_scene_fields opts w self d pname :
  supported pname →
  let self' := post (process opts w self d pname) in
  starttime self' = Some (start_time d) ∧
  endtime self' = Some (scene_end d) ∧
  orbit self' = from_option OrbitInt OrbitNone (orbit_number d).
Proof.
  intros Hs.
  destruct (resolve_scene_post self d pname Hs) as (Hst & Hen & Hor & _).
  rewrite process_supported by done. cbv zeta.
  destruct (launched_previously _ _); [done|].
  assert (∀ y k T,
    starttime y = Some (start_time d) → endtime y = Some (scene_end d) →
    orbit y = from_option OrbitInt OrbitNone (orbit_number d) →
    let self' := post (launch opts w y pname (path (uri d)) k
                         (start_time d, scene_end d) T) in
    starttime self' = Some (start_time d) ∧
    endtime self' = Some (scene_end d) ∧
    orbit self' = from_option OrbitInt OrbitNone (orbit_number d)) as Hl.
  { intros y k T ???.
    pose proof (launch_frame opts w y pname (path (uri d)) k
                  (start_time d, scene_end d) T) as Hf.
    cbv zeta in *. by destruct Hf as (-> & -> & -> & _). }
  destruct (Py.find _ _ >? 0)%Z; case_bool_decide;
    try (destruct (collect_level0 _ _ _ _) as [[] ?]; simpl fst; simpl snd; cbv iota);
    try (apply Hl; done); done.
Qed.

Lemma process_trace_front opts w self d pname :
  supported pname →
  ∃ rest, trace (process opts w self d pname)
          = trace (resolve_scene self d pname) ++ rest.
Proof.
  intros Hs.
  destruct (process_after_resolve opts w self self d d pname
              (orbit (post (resolve_scene self d pname))))
    as (_ & _ & rest & Ht & _); try done.
  - by rewrite set_orbit_same.
  - eauto.
Qed.

(** The defaults inside [run].  For a file message of a supported
    satellite from the current
    server: when [end_time] is absent the scene end is the start time
    plus exactly 14 minutes, a warning is logged and the run goes on as
    for the message that carries this end time (same completion, same
    object, same further events); when [orbit_number] is absent the orbit
    is [None], a warning is logged and the run goes on as for a message
    with an orbit number (same completion, same object up to the orbit,
    the subprocess started in the one case exactly when it is in the
    other). *)
Theorem run_defaults_end_time_and_orbit opts w self msg pname :
  accepted opts msg pname →
  let d := data msg in
  let r := run opts w self (Some msg) in
  (end_time d = None →
     let guess := (start_time d + 14 * 60 * 1000000)%Z in
     let r' := run opts w self (Some (with_end_time (Some guess) msg)) in
     endtime (post r) = Some guess ∧
     outcome r = outcome r' ∧ post r = post r' ∧
     trace r = no_end_time :: trace r') ∧
  (orbit_number d = None →
     orbit (post r) = OrbitNone ∧
     no_orbit_number ∈ trace r ∧
     ∀ n, let r' := run opts w self (Some (with_orbit_number (Some n) msg)) in
          outcome r = outcome r' ∧
          post r = set_orbit OrbitNone (post r') ∧
          (dispatched (trace r) ↔ dispatched (trace r'))).
Proof.
  intros Hacc. cbv zeta.
  assert (supported pname) as Hs by apply Hacc.
  destruct (process_scene_fields opts w self (data msg) pname Hs) as (_ & Hen & Hor).
  rewrite (run_accepted _ _ _ _ _ Hacc). split.
  - intros Hend.
    destruct (resolve_scene_guessed_end self msg pname Hend) as (Hg & Hg' & Hres).
    split; [by rewrite Hen, Hg|].
    rewrite (run_accepted _ _ _ _ _ (accepted_with_end_time _ _ _ _ Hacc)).
    set (d' := data (with_end_time _ msg)) in *.
    destruct (process_after_resolve opts w self self (data msg) d' pname
                (orbit (post (resolve_scene self d' pname))))
      as (Ho & Hp & rest & Ht & Ht'); try done.
    { by rewrite set_orbit_same. }
    destruct (resolve_scene_post self d' pname Hs) as (_ & _ & Hor1 & _).
    destruct (process_scene_fields opts w self d' pname Hs) as (_ & _ & Hor2).
    cbv zeta in Hor1, Hor2. rewrite Hor1, <- Hor2, set_orbit_same in Hp.
    repeat split; try done.
    rewrite Ht, Ht', !resolve_scene_trace by done.
    by rewrite Hend.
  - intros Horb. split; [by rewrite Hor, Horb|]. split.
    { destruct (process_trace_front opts w self (data msg) pname Hs) as (rest & ->).
      rewrite resolve_scene_trace by done. rewrite Horb.
      apply elem_of_app. left. apply elem_of_app. right. left. }
    intros n.
    rewrite (run_accepted _ _ _ _ _ (accepted_with_orbit_number _ _ _ _ Hacc)).
    destruct (resolve_scene_any_orbit self msg pname n Horb) as (Hse & Hres).
    set (d' := data (with_orbit_number _ msg)) in *.
    destruct (process_after_resolve opts w self self (data msg) d' pname OrbitNone)
      as (Ho & Hp & rest & Ht & Ht'); try done.
    repeat split; try done.
    + rewrite Ht, Ht', !dispatched_app_log; eauto using resolve_scene_logs.
    + rewrite Ht, Ht', !dispatched_app_log; eauto using resolve_scene_logs.
Qed.

(** The NOAA-19 notification without [end_time] and [orbit_number],
    given to a new processor. *)
Lemma run_defaults_end_time_and_orbit_witness :
  accepted example_options noaa19_message "NOAA-19" ∧
  let r := run example_options example_world (new_processor example_options)
               (Some noaa19_message) in
  endtime (post r) = Some 840000000%Z ∧ orbit (post r) = OrbitNone.
Proof.
  assert (accepted example_options noaa19_message "NOAA-19") as Hacc.
  { repeat split. left. unfold SUPPORTED_NOAA_SATELLITES. apply elem_of_cons. by left. }
  split; [exact Hacc|].
  destruct (run_defaults_end_time_and_orbit example_options example_world
              (new_processor example_options) noaa19_message "NOAA-19" Hacc)
    as [He Ho].
  split.
  - exact (proj1 (He eq_refl)).
  - exact (proj1 (Ho eq_refl)).
Defined.

Lemma launched_previously_alt self se :
  launched_previously self se =
  overlapping_timeinterval se (default [] (job_register self !! satid self)).
Proof.
  unfold launched_previously.
  destruct se as [s e].
  destruct (job_register self !! satid self) as [l|]; simpl; [|done].
  case_bool_decide; [done|].
  destruct l; [done | simpl in *; lia].
Qed.

Lemma launched_previously_resolved self d pname se :
  supported pname →
  launched_previously (post (resolve_scene self d pname)) se
  = pass_locked self pname se.
Proof.
  intros Hs. rewrite launched_previously_alt. unfold pass_locked.
  destruct (resolve_scene_post self d pname Hs) as (_ & _ & _ & -> & _ & _ & -> & _).
  done.
Qed.

(** ** Collecting the files of a Metop scene *)

Lemma collect_level0_spec (files : gmap (string * Z * Z) (list (string * string)))
    keyname level0 msg_sensor :
  let sensor := dict_get METOP_SENSOR msg_sensor msg_sensor in
  let item := (level0, sensor) in
  let have := default [] (files !! keyname) in
  let now := if bool_decide (item ∈ have) then have else have ++ [item] in
  collect_level0 files keyname level0 msg_sensor =
  if Py.str_in sensor METOP_SENSORS
  then (if bool_decide (length now < 4) then NotEnough else Ready,
        <[keyname := now]> files)
  else (NotRequired, files).
Proof.
  cbv zeta. unfold collect_level0.
  destruct (Py.str_in _ METOP_SENSORS); [|done]. simpl negb. cbv iota.
  unfold lookup_total, map_lookup_total.
  destruct (files !! keyname) as [have|] eqn:Hk; simpl default.
  - simpl. rewrite !Hk. simpl.
    destruct (bool_decide (_ ∈ have)); rewrite ?Hk, ?lookup_insert_eq; simpl.
    + rewrite (insert_id _ _ _ Hk). by destruct (bool_decide _).
    + by destruct (bool_decide _).
  - rewrite ?lookup_insert_eq; simpl.
    rewrite ?lookup_insert_eq, ?insert_insert_eq; simpl. done.
Qed.

Lemma not_dispatched_logs (tr : list event) :
  (∀ ev, ev ∈ tr → ∃ lvl text, ev = Log lvl text) → ¬ dispatched tr.
Proof. intros Hl (cmd & cwd & (? & ? & ?)%Hl). done. Qed.




(** ** Registering a launched scene *)

Lemma register_job_spec self se :
  job_register (register_job self se)
  = <[satid self := default [] (job_register self !! satid self) ++ [se]]>
      (job_register self).
Proof.
  unfold register_job. simpl. unfold lookup_total, map_lookup_total.
  destruct (job_register self !! satid self) as [l|] eqn:Hk; simpl.
  - by rewrite Hk.
  - by rewrite lookup_insert_eq, insert_insert_eq.
Qed.

(** A NOAA scene that reaches [launch] is registered and started. *)
Lemma launch_noaa opts w self pname level0 keyname se before :
  pname ∈ SUPPORTED_NOAA_SATELLITES →
  let r := launch opts w self pname level0 keyname se before in
  outcome r = Returns false ∧ dispatched (trace r) ∧
  job_register (post r)
  = <[satid self := default [] (job_register self !! satid self) ++ [se]]>
      (job_register self).
Proof.
  intros Hn. cbv zeta.
  assert (Py.str_in pname SUPPORTED_NOAA_SATELLITES = true) as Hin.
  { by apply bool_decide_eq_true. }
  pose proof (register_job_spec self se) as Hreg.
  unfold launch, ensure_working_dir.
  destruct (working_dir self) as [dir|]; [case_bool_decide|];
    rewrite Hin; simpl; (split; [done|]);
    (split; [eexists _, _; apply elem_of_app; right; left|]);
    apply (register_job_spec (set_working_dir _ self)) || exact Hreg.
Qed.

Lemma process_noaa opts w self d pname :
  supported pname → pname ∈ SUPPORTED_NOAA_SATELLITES →
  let se := (start_time d, scene_end d) in
  let key := dict_get SATELLITE_NAME pname "unknown" in
  let r := process opts w self d pname in
  match pass_locked self pname se with
  | Some _ =>
      outcome r = Returns true ∧ ¬ dispatched (trace r) ∧
      job_register (post r) = job_register self
  | None =>
      outcome r = Returns false ∧ dispatched (trace r) ∧
      job_register (post r)
      = <[key := default [] (job_register self !! key) ++ [se]]> (job_register self)
  end.
Proof.
  intros Hs Hn. cbv zeta. rewrite process_supported by done. cbv zeta.
  rewrite launched_previously_resolved by done.
  destruct (resolve_scene_post self d pname Hs)
    as (_ & _ & _ & Hsat & Hpl & _ & Hreg & _).
  assert (Py.str_in pname SUPPORTED_METOP_SATELLITES = false) as Hin.
  { apply bool_decide_eq_false. revert Hn.
    unfold SUPPORTED_NOAA_SATELLITES, SUPPORTED_METOP_SATELLITES.
    rewrite !elem_of_cons, !elem_of_nil. intros [->|[->|[->|[->|[]]]]]; intuition done. }
  rewrite Hin in Hpl.
  destruct (pass_locked _ _ _).
  { simpl. repeat split; try done.
    apply not_dispatched_logs. eauto using resolve_scene_logs. }
  assert (∀ (b : bool) (x y : AappLvl1Processor), platform (if b then x else y)
            = if b then platform x else platform y) as Hif by (by intros []).
  rewrite Hif. simpl platform. rewrite Hpl.
  rewrite bool_decide_false by (by destruct (Py.find _ _ >? 0)%Z).
  match goal with |- context [launch ?o ?w ?y ?p ?l ?k ?se ?T] =>
    pose proof (launch_noaa o w y p l k se T Hn) as Hl end.
  cbv zeta in Hl. destruct Hl as (-> & Hd & ->). split; [done|]. split; [done|].
  destruct (Py.find _ _ >? 0)%Z; simpl; by rewrite Hsat, Hreg.
Qed.

(** ** Re-delivery of a notification *)

(** A NOAA notification that was dispatched is dispatched again when it
    is delivered a second time while its interval is still registered:
    the overlap test does not match a window against itself. *)
Lemma noaa_redelivery_dispatched_again opts w w' self msg pname :
  accepted opts msg pname → pname ∈ SUPPORTED_NOAA_SATELLITES →
  let se := (start_time (data msg), scene_end (data msg)) in
  let key := dict_get SATELLITE_NAME pname "unknown" in
  let r1 := run opts w self (Some msg) in
  let r2 := run opts w' (initialise (post r1)) (Some msg) in
  outcome r1 = Returns false →
  outcome r2 = Returns false ∧ dispatched (trace r2) ∧
  ∃ earlier, job_register (post r2) !! key = Some (earlier ++ [se; se]).
Proof.
  intros Hacc Hn. cbv zeta.
  assert (supported pname) as Hs by apply Hacc.
  rewrite !(run_accepted _ _ _ _ _ Hacc).
  pose proof (process_noaa opts w self (data msg) pname Hs Hn) as H1.
  cbv zeta in H1.
  destruct (pass_locked self pname _) eqn:Hlk.
  { destruct H1 as (-> & _). done. }
  destruct H1 as (_ & _ & Hreg1). intros _.
  pose proof (process_noaa opts w' (initialise (post (process opts w self (data msg) pname)))
                (data msg) pname Hs Hn) as H2.
  cbv zeta in H2.
  set (se := (start_time (data msg), scene_end (data msg))) in *.
  set (key := dict_get SATELLITE_NAME pname "unknown") in *.
  assert (pass_locked (initialise (post (process opts w self (data msg) pname))) pname se
          = None) as Hlk2.
  { unfold pass_locked in *. fold key in Hlk |- *.
    change (job_register (initialise ?x)) with (job_register x).
    rewrite Hreg1, lookup_insert_eq. simpl default.
    rewrite overlapping_timeinterval_app, Hlk.
    apply overlapping_timeinterval_None. constructor; [|constructor].
    apply own_window_not_inside. }
  rewrite Hlk2 in H2. destruct H2 as (-> & Hd & ->).
  split; [done|]. split; [done|].
  change (job_register (initialise ?x)) with (job_register x).
  rewrite Hreg1, !lookup_insert_eq. simpl default.
  exists (default [] (job_register self !! key)). by rewrite <- app_assoc.
Qed.

(** C1 (defect).  The claim: while the interval of a dispatched
    notification is registered, a second notification for the same
    satellite with an overlapping window, the identical window included,
    is not dispatched and adds no interval.  A NOAA-19 notification
    starting at 0 without [end_time] is dispatched and registers
    (0, 840000000); the same notification, delivered again to the
    re-initialised processor with the interval still registered, is
    dispatched a second time and the interval is then registered twice. *)
Theorem identical_window_dispatched_twice :
  let r1 := run example_options example_world (new_processor example_options)
                (Some noaa19_message) in
  let r2 := run example_options example_world (initialise (post r1))
                (Some noaa19_message) in
  open_overlap (0, 840000000)%Z (0, 840000000)%Z ∧
  outcome r1 = Returns false ∧
  job_register (post r1) !! "noaa19" = Some [(0, 840000000)%Z] ∧
  outcome r2 = Returns false ∧
  trace r2 =
    [no_end_time; no_orbit_number; Mkdtemp "/tmp/aapp_wrk";
     Popen (NoaaRun "/opt/aapp/smhi/AAPP_RUN_NOAA_WITH_ANA" 0 "/data/x.hmf")
           "/tmp/aapp_wrk";
     TimerStart 600 "noaa19" (0, 840000000)%Z;
     StatAppend "/data/x.hmf"] ∧
  job_register (post r2) !! "noaa19"
  = Some [(0, 840000000)%Z; (0, 840000000)%Z].
Proof.
  cbv zeta. split; [unfold open_overlap; simpl; lia|].
  repeat split; vm_compute; reflexivity.
Qed.

(** C4 (defect).  The claim: a Metop dispatch whose sensor-filename
    dictionary lacks one of the four required sensors is abandoned
    without an exception.  Four Metop-B notifications of one scene, two
    of them AVHRR files with different paths, one AMSU-A and one MHS,
    leave no HIRS file: the fourth [run] passes the name check, registers
    the scene and raises [KeyError('hirs')] out of [run] and out of the
    receive loop; no subprocess is started and no timer is armed for the
    registered interval. *)
Theorem missing_sensor_file_raises_key_error :
  let r := receive example_options example_world (new_processor example_options)
             [Some (metop_message "avhrr/3" "/data/metop/avhrr_a.hmf");
              Some (metop_message "avhrr/3" "/data/metop/avhrr_b.hmf");
              Some (metop_message "amsu-a" "/data/metop/amsua.hmf");
              Some (metop_message "mhs" "/data/metop/mhs.hmf")] in
  outcome r = Raises (KeyError "hirs") ∧
  trace r = [Mkdtemp "/tmp/aapp_wrk"] ∧
  job_register (post r) !! "metop01" = Some [(0, 100)%Z].
Proof. cbv zeta. repeat split; vm_compute; reflexivity. Qed.

(** ** The Metop command *)

Lemma metop_command_missing opts (sensor_filename : gmap string string) role :
  role ∈ REQUIRED_SENSORS → sensor_filename !! role = None →
  ∃ role', role' ∈ REQUIRED_SENSORS ∧
           metop_command opts sensor_filename = Raises (KeyError role').
Proof.
  unfold REQUIRED_SENSORS, metop_command, subscript.
  rewrite !elem_of_cons, elem_of_nil. intros Hr Hnone.
  destruct (sensor_filename !! "avhrr") eqn:H1;
    [|exists "avhrr"; split; [rewrite !elem_of_cons; auto 6 | done]].
  destruct (sensor_filename !! "amsua") eqn:H2;
    [|exists "amsua"; split; [rewrite !elem_of_cons; auto 6 | done]].
  destruct (sensor_filename !! "mhs") eqn:H3;
    [|exists "mhs"; split; [rewrite !elem_of_cons; auto 6 | done]].
  destruct (sensor_filename !! "hirs") eqn:H4;
    [|exists "hirs"; split; [rewrite !elem_of_cons; auto 6 | done]].
  destruct Hr as [->|[->|[->|[->|[]]]]]; congruence.
Qed.

(** The check of lines 429-432 stops a scene with a file of a sensor
    outside the four: [run] returns [True], nothing is registered or
    started. *)
Lemma launch_metop_name_mismatch opts w self pname level0 keyname se before files :
  pname ∈ SUPPORTED_METOP_SATELLITES →
  level0files self !! keyname = Some files →
  sensor_names_match (sensor_filenames files) = false →
  let r := launch opts w self pname level0 keyname se before in
  outcome r = Returns true ∧
  (¬ dispatched before → ¬ dispatched (trace r)) ∧
  job_register (post r) = job_register self.
Proof.
  intros Hm Hf Hmatch. cbv zeta.
  assert (Py.str_in pname SUPPORTED_METOP_SATELLITES = true) as Hin
    by (by apply bool_decide_eq_true).
  assert (Py.str_in pname SUPPORTED_NOAA_SATELLITES = false) as Hnin.
  { apply bool_decide_eq_false. revert Hm.
    unfold SUPPORTED_NOAA_SATELLITES, SUPPORTED_METOP_SATELLITES.
    rewrite !elem_of_cons, !elem_of_nil. intros [->|[->|[->|[]]]]; intuition done. }
  unfold launch, ensure_working_dir.
  destruct (working_dir self) as [dir|]; [case_bool_decide|];
    rewrite Hin, Hnin; simpl; rewrite Hf, Hmatch; simpl;
    (split; [done|]); (split; [|done]);
    intros Hb (cmd & cwd & Hd); apply Hb; exists cmd, cwd;
    repeat (apply elem_of_app in Hd as [Hd|Hd]); try done;
    repeat (apply elem_of_cons in Hd as [Hd|Hd]; [done|]);
    by apply elem_of_nil in Hd.
Qed.

(** A scene whose files leave one of the four sensors without a file
    passes that check, is registered, and then fails in the formatting of
    the command: [KeyError], no subprocess. *)
Lemma launch_metop_missing_role opts w self pname level0 keyname se before files role :
  pname ∈ SUPPORTED_METOP_SATELLITES →
  level0files self !! keyname = Some files →
  sensor_names_match (sensor_filenames files) = true →
  role ∈ REQUIRED_SENSORS → sensor_filenames files !! role = None →
  let r := launch opts w self pname level0 keyname se before in
  (∃ role', role' ∈ REQUIRED_SENSORS ∧ outcome r = Raises (KeyError role')) ∧
  (¬ dispatched before → ¬ dispatched (trace r)) ∧
  job_register (post r)
  = <[satid self := default [] (job_register self !! satid self) ++ [se]]>
      (job_register self).
Proof.
  intros Hm Hf Hmatch Hr Hnone. cbv zeta.
  destruct (metop_command_missing opts _ _ Hr Hnone) as (role' & Hr' & Hcmd).
  assert (Py.str_in pname SUPPORTED_METOP_SATELLITES = true) as Hin
    by (by apply bool_decide_eq_true).
  assert (Py.str_in pname SUPPORTED_NOAA_SATELLITES = false) as Hnin.
  { apply bool_decide_eq_false. revert Hm.
    unfold SUPPORTED_NOAA_SATELLITES, SUPPORTED_METOP_SATELLITES.
    rewrite !elem_of_cons, !elem_of_nil. intros [->|[->|[->|[]]]]; intuition done. }
  pose proof (register_job_spec self se) as Hreg.
  unfold launch, ensure_working_dir.
  destruct (working_dir self) as [dir|]; [case_bool_decide|];
    rewrite Hin, Hnin; simpl; rewrite Hf, Hmatch, Hcmd; simpl;
    (split; [by exists role'|]);
    (split; [|apply (register_job_spec (set_working_dir _ self)) || exact Hreg]);
    intros Hb (cmd & cwd & Hd); apply Hb; exists cmd, cwd;
    repeat (apply elem_of_app in Hd as [Hd|Hd]); try done;
    repeat (apply elem_of_cons in Hd as [Hd|Hd]; [done|]);
    by apply elem_of_nil in Hd.
Qed.

(** ** Moving the pass directory *)

Section Harvest.

Implicit Types (fs : gmap string (list string)) (self : AappLvl1Processor).

(** The destination is there: nothing is moved. *)
Lemma shutil_move_exists fs src dst :
  is_Some (fs !! dst) → src ≠ dst →
  is_Some (fs !! Py.join dst (Py.basename (Py.rstrip ["/"%char] src))) →
  shutil_move fs src dst = ShutilError "Destination path already exists".
Proof.
  intros [? Hd] Hne [? He]. unfold shutil_move.
  by rewrite Hd, bool_decide_false, He.
Qed.

(** After a move the destination is there. *)
Lemma shutil_move_moved fs fs' src dst :
  is_Some (fs !! dst) → src ≠ dst →
  shutil_move fs src dst = Moved fs' →
  is_Some (fs' !! dst) ∧
  is_Some (fs' !! Py.join dst (Py.basename (Py.rstrip ["/"%char] src))).
Proof.
  intros [names Hd] Hne. unfold shutil_move.
  rewrite Hd, bool_decide_false by done.
  destruct (fs !! Py.join _ _) eqn:He; [done|].
  destruct (fs !! src) eqn:Hs; [|done]. intros [= <-].
  split; [|by rewrite lookup_insert_eq].
  destruct (decide (Py.join dst (Py.basename (Py.rstrip ["/"%char] src)) = dst))
    as [->|Hj].
  - by rewrite lookup_insert_eq.
  - rewrite lookup_insert_ne, lookup_delete_ne by done. by rewrite Hd.
Qed.

Lemma classify_moved_frame self fs subd logged :
  let r := classify_moved self fs subd logged in
  (post r).2 = fs ∧ trace r = logged ∧
  lvl1_home (post r).1 = lvl1_home self ∧
  result_files (post r).1 = result_files self.
Proof.
  unfold classify_moved.
  destruct (orbit_unset _); [destruct (Py.split _ _) as [|?[|?[|?[|?[|]]]]]|];
    done.
Qed.

(** Classifying again, from the object the first time left, gives the
    same result. *)
Lemma classify_moved_again self fs subd logged logged' retv :
  let r := classify_moved self fs subd logged in
  outcome r = Returns retv →
  classify_moved (post r).1 fs subd logged'
  = Result (Returns retv) (post r) logged'.
Proof.
  unfold classify_moved.
  destruct (orbit_unset (orbit self)) eqn:Hu.
  - destruct (Py.split "_" subd) as [|?[|?[|?[|orb[|]]]]] eqn:Hsp; try done.
    intros [= <-]. cbn [post fst].
    change (orbit (set_orbit ?o ?x)) with o. cbn [orbit_unset].
    destruct (bool_decide (orb = "00000")); reflexivity.
  - simpl. rewrite Hu. by intros [= <-].
Qed.

End Harvest.

(** C8.  When the output root is a directory other than the one being
    moved and a first harvest of the pass has returned its
    classification, harvesting again from the object and the file system
    the first harvest left finds the sub-directory under the output root:
    the move is skipped with the warning, nothing is raised, object and
    file system stay as they are, and the classification returned is the
    same. *)
Theorem move_lvl1dir_again_is_skipped self (fs : gmap string (list string))
    first rest retv :
  result_files self = first :: rest →
  is_Some (fs !! lvl1_home self) →
  Py.dirname first ≠ lvl1_home self →
  let r1 := move_lvl1dir self fs in
  outcome r1 = Returns retv →
  let r2 := move_lvl1dir (post r1).1 (post r1).2 in
  outcome r2 = Returns retv ∧ post r2 = post r1 ∧ trace r2 = [already_exists].
Proof.
  intros Hrf Hhome Hne. cbv zeta.
  set (path := Py.dirname first) in *. set (subd := Py.basename path).
  assert (move_lvl1dir self fs =
          match shutil_move fs path (lvl1_home self) with
          | Moved fs' => classify_moved self fs' subd []
          | ShutilError _ => classify_moved self fs subd [already_exists]
          | MoveFailed e => Result (Raises e) (self, fs) []
          end) as -> by (unfold move_lvl1dir; by rewrite Hrf).
  destruct (shutil_move fs path (lvl1_home self)) as [fs'| |] eqn:Hmv; [| |done].
  - destruct (shutil_move_moved _ _ _ _ Hhome Hne Hmv) as [Hd He].
    intros Hret.
    pose proof (classify_moved_frame self fs' subd []) as (Hfs & _ & Hh & Hr).
    unfold move_lvl1dir. rewrite Hr, Hrf, Hfs, Hh. fold path. fold subd.
    rewrite shutil_move_exists by done.
    by rewrite (classify_moved_again _ _ _ _ _ _ Hret).
  - intros Hret.
    pose proof (classify_moved_frame self fs subd [already_exists])
      as (Hfs & _ & Hh & Hr).
    unfold move_lvl1dir. rewrite Hr, Hrf, Hfs, Hh. fold path. fold subd.
    rewrite Hmv.
    by rewrite (classify_moved_again _ _ _ _ _ _ Hret).
Qed.

(** ** Sensor and level of the harvested files *)

Section Classification.

Context {V : Type} (f : string → V).

Lemma foldl_insert_other (l : list string) (acc : gmap string V) k :
  k ∉ l → foldl (fun m x => <[x := f x]> m) acc l !! k = acc !! k.
Proof.
  revert acc. induction l as [|x l IH]; intros acc Hk; simpl; [done|].
  apply not_elem_of_cons in Hk as [Hne Hk].
  rewrite IH by done. by rewrite lookup_insert_ne.
Qed.

(** Every name of the list gets its value: none is left out. *)
Lemma foldl_insert_all (l : list string) (acc : gmap string V) k :
  k ∈ l → foldl (fun m x => <[x := f x]> m) acc l !! k = Some (f k).
Proof.
  revert acc. induction l as [|x l IH]; intros acc Hk; simpl.
  - by apply elem_of_nil in Hk.
  - destruct (decide (k ∈ l)) as [Hin|Hnin]; [by apply IH|].
    apply elem_of_cons in Hk as [->|?]; [|done].
    rewrite foldl_insert_other by done. by rewrite lookup_insert_eq.
Qed.

End Classification.











(** The destination of the move is there already: the move is skipped
    with a warning and the file system is as before. *)
Lemma move_lvl1dir_destination_exists self (fs : gmap string (list string))
    first rest :
  result_files self = first :: rest →
  is_Some (fs !! lvl1_home self) →
  Py.dirname first ≠ lvl1_home self →
  is_Some (fs !! Py.join (lvl1_home self)
                   (Py.basename (Py.rstrip ["/"%char] (Py.dirname first)))) →
  let r := move_lvl1dir self fs in
  (post r).2 = fs ∧ trace r = [already_exists] ∧
  (∀ e, outcome r = Raises e → e = ValueError "unpack").
Proof.
  intros Hrf Hh Hne He. cbv zeta. unfold move_lvl1dir. rewrite Hrf.
  rewrite shutil_move_exists by done.
  pose proof (classify_moved_frame self fs (Py.basename (Py.dirname first))
                [Log WARNING "Directory already exists: "]) as (-> & -> & _).
  split; [done|]. split; [done|].
  unfold classify_moved.
  destruct (orbit_unset _);
    [destruct (Py.split _ _) as [|?[|?[|?[|?[|]]]]]|]; simpl; congruence.
Qed.

(** The pass directory of [harvested_fs], harvested twice. *)
Lemma move_lvl1dir_again_is_skipped_witness :
  let r1 := move_lvl1dir harvesting_processor harvested_fs in
  let r2 := move_lvl1dir (post r1).1 (post r1).2 in
  ∃ retv, outcome r1 = Returns retv ∧
          outcome r2 = Returns retv ∧ post r2 = post r1 ∧
          trace r2 = [already_exists].
Proof.
  cbv zeta.
  assert (match outcome (move_lvl1dir harvesting_processor harvested_fs) with
          | Returns _ => true
          | Raises _ => false
          end = true) as Hok by (vm_compute; reflexivity).
  destruct (outcome (move_lvl1dir harvesting_processor harvested_fs))
    as [retv|] eqn:Hret; [|discriminate Hok].
  exists retv. split; [reflexivity|].
  apply (move_lvl1dir_again_is_skipped harvesting_processor harvested_fs
           _ _ retv eq_refl).
  - exists []. vm_compute. reflexivity.
  - vm_compute. discriminate.
  - exact Hret.
Defined.
(** * Further properties of the job registry *)

(** X1.  [overlapping_timeinterval] returns the first interval of the list
    that has the start or the end of the candidate strictly inside it,
    and [False] exactly when no interval of the list has. *)
Theorem overlapping_timeinterval_first_inside (c : Z * Z) (timelist : list (Z * Z)) :
  match overlapping_timeinterval c timelist with
  | Some a =>
      ∃ before after,
        timelist = before ++ a :: after ∧
        Forall (fun a' => ¬ endpoint_inside c a') before ∧
        endpoint_inside c a
  | None => Forall (fun a => ¬ endpoint_inside c a) timelist
  end.
Proof.
  destruct (overlapping_timeinterval c timelist) as [a|] eqn:H.
  - by apply overlapping_timeinterval_Some.
  - by apply overlapping_timeinterval_None.
Qed.

(** X2.  For a candidate that starts before it ends, an interval returned by
    [overlapping_timeinterval] is one of the list, is not empty, and
    really overlaps the candidate. *)
Theorem overlapping_timeinterval_match_overlaps (c a : Z * Z) (timelist : list (Z * Z)) :
  (c.1 < c.2)%Z →
  overlapping_timeinterval c timelist = Some a →
  a ∈ timelist ∧ open_overlap a c ∧ (a.1 < a.2)%Z.
Proof.
  intros Hc (before & after & -> & _ & Hin)%overlapping_timeinterval_Some.
  split; [apply elem_of_app; right; left|].
  split; [by apply endpoint_inside_overlap|].
  unfold endpoint_inside in Hin. lia.
Qed.

Lemma overlapping_timeinterval_match_overlaps_witness :
  overlapping_timeinterval (3, 8)%Z [(10, 20)%Z; (5, 12)%Z; (0, 4)%Z] = Some (5, 12)%Z ∧
  open_overlap (5, 12)%Z (3, 8)%Z.
Proof.
  split; [reflexivity|].
  apply (overlapping_timeinterval_match_overlaps (3, 8)%Z (5, 12)%Z
           [(10, 20)%Z; (5, 12)%Z; (0, 4)%Z]); [simpl; lia | reflexivity].
Defined.

(** X3.  When every interval of the list lies before the start of the
    candidate or after its end, touching allowed, there is no match. *)
Theorem overlapping_timeinterval_apart (c : Z * Z) (timelist : list (Z * Z)) :
  (c.1 ≤ c.2)%Z →
  Forall (fun a => (a.1 ≤ a.2)%Z ∧ ((c.2 ≤ a.1)%Z ∨ (a.2 ≤ c.1)%Z)) timelist →
  overlapping_timeinterval c timelist = None.
Proof.
  intros Hc Hall. apply overlapping_timeinterval_None.
  eapply Forall_impl; [exact Hall|]. simpl. intros a [Ha Hd].
  unfold endpoint_inside. lia.
Qed.

Lemma overlapping_timeinterval_apart_witness :
  overlapping_timeinterval (10, 20)%Z [(0, 10)%Z; (20, 30)%Z; (40, 50)%Z] = None.
Proof.
  apply overlapping_timeinterval_apart; [simpl; lia|].
  repeat constructor; simpl; lia.
Defined.

(** Releasing an interval that is registered. *)
Lemma reset_job_registry_member (objdict : gmap string (list (Z * Z)))
    key (se : Z * Z) l :
  objdict !! key = Some l → se ∈ l →
  ∃ before after,
    l = before ++ se :: after ∧ (se ∉ before) ∧
    reset_job_registry objdict key se
    = Result (Returns tt) (<[key := before ++ after]> objdict) [].
Proof.
  intros Hk Hin.
  destruct (list_remove se l) as [l'|] eqn:Hrm.
  - apply list_remove_Some in Hrm as (before & after & -> & Hb & ->).
    exists before, after. split; [done|]. split; [done|].
    by apply reset_job_registry_found.
  - apply list_remove_None in Hrm. done.
Qed.

(** X4.  When the interval is in the list of the key, [reset_job_registry]
    removes its first occurrence and nothing else: the intervals before
    it and after it, later occurrences included, stay in their order,
    the other keys are untouched, and no warning is logged. *)
Theorem reset_job_registry_removes_first (objdict : gmap string (list (Z * Z)))
    key (se : Z * Z) l :
  objdict !! key = Some l → se ∈ l →
  ∃ before after,
    l = before ++ se :: after ∧ (se ∉ before) ∧
    reset_job_registry objdict key se
    = Result (Returns tt) (<[key := before ++ after]> objdict) [].
Proof. apply reset_job_registry_member. Qed.

Lemma reset_job_registry_removes_first_witness :
  reset_job_registry {[ "noaa19" := [(0, 5)%Z; (7, 9)%Z; (0, 5)%Z] ]} "noaa19" (0, 5)%Z
  = Result (Returns tt)
      (<["noaa19" := [(7, 9)%Z; (0, 5)%Z]]> {[ "noaa19" := [(0, 5)%Z; (7, 9)%Z; (0, 5)%Z] ]})
      [].
Proof.
  destruct (reset_job_registry_removes_first
              {[ "noaa19" := [(0, 5)%Z; (7, 9)%Z; (0, 5)%Z] ]} "noaa19" (0, 5)%Z
              [(0, 5)%Z; (7, 9)%Z; (0, 5)%Z])
    as (before & after & Heq & Hb & ->).
  - reflexivity.
  - left.
  - destruct before as [|b before].
    + injection Heq as <-. reflexivity.
    + injection Heq as <- _. exfalso. apply Hb. left.
Defined.

(** Registering an interval and releasing it again. *)
Lemma register_then_reset (self : AappLvl1Processor) (se : Z * Z) :
  let key := satid self in
  let old := default [] (job_register self !! key) in
  let r := reset_job_registry (job_register (register_job self se)) key se in
  outcome r = Returns tt ∧ trace r = [] ∧
  (∀ k, k ≠ key → post r !! k = job_register self !! k) ∧
  ∃ l, post r !! key = Some l ∧ l ≡ₚ old ∧ (se ∉ old → l = old).
Proof.
  cbv zeta. rewrite register_job_spec.
  set (key := satid self). set (old := default [] (job_register self !! key)).
  destruct (reset_job_registry_member
              (<[key := old ++ [se]]> (job_register self)) key se (old ++ [se]))
    as (before & after & Heq & Hb & ->).
  { by rewrite lookup_insert_eq. }
  { apply elem_of_app. right. left. }
  split; [done|]. split; [done|]. split.
  { intros k Hk. simpl. by rewrite !lookup_insert_ne. }
  exists (before ++ after). simpl. rewrite lookup_insert_eq. split; [done|].
  assert (before ++ after ++ [se] ≡ₚ before ++ se :: after) as Hperm.
  { apply Permutation_app_head. by rewrite Permutation_app_comm. }
  rewrite <- Heq in Hperm.
  split.
  - apply (Permutation_app_inv_r [se]). by rewrite <- app_assoc.
  - intros Hn. destruct (decide (after = [])) as [->|Hne].
    + rewrite app_nil_r. apply (app_inv_tail [se]). by rewrite Heq.
    + exfalso. apply Hn.
      destruct (exists_last Hne) as (after' & x & ->).
      change (before ++ se :: after' ++ [x])
        with (before ++ (se :: after') ++ [x]) in Heq.
      rewrite app_assoc in Heq. apply app_inj_tail in Heq as [-> _].
      apply elem_of_app. right. left.
Qed.

(** * Further properties of [run] *)

Lemma only_logs_nil : only_logs [].
Proof. intros ev Hin. by apply elem_of_nil in Hin. Qed.

Lemma only_logs_singleton lvl text : only_logs [Log lvl text].
Proof. intros ev ->%list_elem_of_singleton. eauto. Qed.

Lemma only_logs_not_dispatched tr : only_logs tr → ¬ dispatched tr.
Proof. apply not_dispatched_logs. Qed.

Lemma not_dispatched_app before tail :
  ¬ dispatched before → (∀ cmd cwd, Popen cmd cwd ∉ tail) →
  ¬ dispatched (before ++ tail).
Proof.
  intros Hb Ht (cmd & cwd & [Hin|Hin]%elem_of_app).
  - apply Hb. by exists cmd, cwd.
  - by apply (Ht cmd cwd).
Qed.

Ltac no_popen :=
  intros ? ?; rewrite ?elem_of_cons, ?elem_of_nil; intuition congruence.

(** [launch] returns [False] exactly when it starts the subprocess. *)
Lemma launch_returns_false_iff opts w self pname level0 keyname se before :
  ¬ dispatched before →
  let r := launch opts w self pname level0 keyname se before in
  outcome r = Returns false ↔ dispatched (trace r).
Proof.
  intros Hb. cbv zeta. launch_cases self pname keyname.
  all: rewrite <- ?app_assoc; simpl.
  all: first
    [ split; [intros _|done]; eexists _, _;
      rewrite !elem_of_app, ?elem_of_cons; by auto 10
    | split; [done|]; intros Hd; exfalso; revert Hd;
      first [ exact Hb | apply not_dispatched_app; [exact Hb | no_popen] ] ].
Qed.

(** A returned [False] means the interval is registered and its timer is
    started. *)
Lemma launch_false_registers opts w self pname level0 keyname se before :
  let r := launch opts w self pname level0 keyname se before in
  let key := satid self in
  let old := default [] (job_register self !! key) in
  outcome r = Returns false →
  TimerStart (10 * 60) key se ∈ trace r ∧
  job_register (post r) = <[key := old ++ [se]]> (job_register self).
Proof.
  cbv zeta. pose proof (register_job_spec self se) as Hreg.
  launch_cases self pname keyname.
  all: try (intros [=]; fail).
  all: intros _; split;
    [ rewrite !elem_of_app, ?elem_of_cons; by auto 10
    | first [exact Hreg | apply (register_job_spec (set_working_dir _ self))] ].
Qed.

(** The register after [launch] is the one before, or that one with the
    interval appended under the satellite's key. *)
Lemma launch_register opts w self pname level0 keyname se before :
  let r := launch opts w self pname level0 keyname se before in
  let key := satid self in
  let old := default [] (job_register self !! key) in
  job_register (post r) = job_register self ∨
  job_register (post r) = <[key := old ++ [se]]> (job_register self).
Proof.
  cbv zeta. pose proof (register_job_spec self se) as Hreg.
  launch_cases self pname keyname.
  all: first
    [ by left
    | right; first [exact Hreg | apply (register_job_spec (set_working_dir _ self))] ].
Qed.

(** [launch_cases], keeping what the working directory was. *)
Ltac launch_cases_wd self pname keyname Hwd :=
  unfold launch, ensure_working_dir; simpl;
  destruct (working_dir self) as [?dir|] eqn:Hwd; [case_bool_decide|]; simpl;
  (destruct (negb (Py.str_in pname SUPPORTED_NOAA_SATELLITES) &&
             negb (Py.str_in pname SUPPORTED_METOP_SATELLITES)); [|
   destruct (Py.str_in pname SUPPORTED_NOAA_SATELLITES); [|
   destruct (level0files self !! keyname); [
   destruct (negb (sensor_names_match _)); [|
   destruct (metop_command _ _)]|]]]);
  unfold after_popen, register_job; simpl.

(** A working directory that is set is kept, and no other is made. *)
Lemma launch_working_dir opts w self pname level0 keyname se before dir :
  working_dir self = Some dir → dir ≠ "" →
  let r := launch opts w self pname level0 keyname se before in
  working_dir (post r) = Some dir ∧
  ∀ x, Mkdtemp x ∈ trace r → Mkdtemp x ∈ before.
Proof.
  intros Hw Hne. cbv zeta. launch_cases_wd self pname keyname Hwd.
  all: simplify_eq.
  all: (split; [done|]); intros x;
    rewrite ?app_nil_r, ?elem_of_app, ?elem_of_cons, ?elem_of_nil;
    intuition congruence.
Qed.

(** Without a working directory, [launch] makes one. *)
Lemma launch_makes_working_dir opts w self pname level0 keyname se before :
  working_dir self = None ∨ working_dir self = Some "" →
  let r := launch opts w self pname level0 keyname se before in
  working_dir (post r) = Some (mkdtemp w) ∧ Mkdtemp (mkdtemp w) ∈ trace r.
Proof.
  intros Hw. cbv zeta. launch_cases_wd self pname keyname Hwd.
  all: destruct Hw; simplify_eq.
  all: (split; [done|]); rewrite ?elem_of_app, ?elem_of_cons; auto 10.
Qed.

(** [process] either returns [True] with nothing but log records and an
    unchanged register, or ends in [launch]. *)
Lemma process_shape opts w self d pname :
  supported pname →
  let se := (start_time d, scene_end d) in
  let key := (registry_key pname, se.1, se.2) in
  let c := collect_level0 (level0files self) key (path (uri d)) (sensor d) in
  let r := process opts w self d pname in
  (outcome r = Returns true ∧ only_logs (trace r) ∧
   job_register (post r) = job_register self ∧
   working_dir (post r) = working_dir self ∧
   (pass_locked self pname se = None →
    pname ∈ SUPPORTED_METOP_SATELLITES ∧ c.1 ≠ Ready ∧
    level0files (post r) = c.2)) ∨
  (∃ y keyname T,
     r = launch opts w y pname (path (uri d)) keyname se T ∧
     pass_locked self pname se = None ∧
     only_logs T ∧ satid y = registry_key pname ∧
     job_register y = job_register self ∧
     working_dir y = working_dir self ∧
     keyname = key ∧
     (pname ∈ SUPPORTED_METOP_SATELLITES → c.1 = Ready ∧ level0files y = c.2)).
Proof.
  intros Hs. cbv zeta. rewrite process_supported by done. cbv zeta.
  rewrite launched_previously_resolved by done.
  destruct (resolve_scene_post self d pname Hs)
    as (_ & _ & _ & Hsat & Hpl & Hfiles & Hreg & Hwd).
  assert (only_logs (trace (resolve_scene self d pname))) as Hlogs.
  { intros ev. by apply resolve_scene_logs. }
  destruct (pass_locked self pname _) eqn:Hlk.
  { left. simpl. by repeat split. }
  set (x := post (resolve_scene self d pname)) in *.
  set (y := if (Py.find ".hmf" (Py.basename (path (uri d))) >? 0)%Z
            then set_ishmf true (set_level0_filename (Some (path (uri d))) x)
            else set_level0_filename (Some (path (uri d))) x).
  assert (satid y = registry_key pname ∧ job_register y = job_register self ∧
          working_dir y = working_dir self ∧ platform y = platform x ∧
          level0files y = level0files self) as (Hy1 & Hy2 & Hy3 & Hy4 & Hy5).
  { subst y. destruct (Py.find _ _ >? 0)%Z; simpl; by repeat split. }
  rewrite ?Hsat, ?Hy5. fold (registry_key pname).
  case_bool_decide as Hmetop.
  - assert (pname ∈ SUPPORTED_METOP_SATELLITES) as Hm.
    { rewrite Hy4, Hpl in Hmetop. unfold Py.str_in in Hmetop.
      case_bool_decide; [done|discriminate Hmetop]. }
    destruct (collect_level0 _ _ _ _) as [[] files']; simpl fst; simpl snd; cbv iota.
    + left. simpl. by repeat split.
    + left. simpl. by repeat split.
    + right. eexists (set_level0files files' y), _, _. by repeat split.
  - right. eexists y, _, _. split_and!; try done.
    intros Hm; exfalso; apply Hmetop; rewrite Hy4, Hpl;
      unfold Py.str_in; by rewrite bool_decide_true.
Qed.

(** [run] either ignores the message, or hands an accepted one to
    [process]. *)
Lemma run_shape opts w self msg :
  let r := run opts w self msg in
  (outcome r = Returns true ∧ post r = self ∧ only_logs (trace r) ∧
   ∀ m pname, msg = Some m → ¬ accepted opts m pname) ∨
  (∃ m pname, msg = Some m ∧ accepted opts m pname ∧
              r = process opts w self (data m) pname).
Proof.
  cbv zeta. unfold run.
  destruct msg as [m|]; [|left; split_and!; try done; apply only_logs_nil].
  case_bool_decide as Ht; simpl.
  2:{ left. split_and!; try done; [apply only_logs_nil|].
      intros m' pname [= <-] (? & _). done. }
  destruct (platform_name (data m)) as [pname|] eqn:Hp.
  2:{ left. split_and!; try done; [apply only_logs_singleton|].
      intros m' pname [= <-] (_ & Hp' & _). congruence. }
  destruct (negb (Py.str_in pname SUPPORTED_NOAA_SATELLITES) &&
            negb (Py.str_in pname SUPPORTED_METOP_SATELLITES)) eqn:Hs.
  { left. split_and!; try done; [apply only_logs_nil|].
    intros m' pname' [= <-] (_ & Hp' & Hs' & _).
    assert (pname' = pname) as -> by congruence.
    apply andb_true_iff in Hs as [Hs1 Hs2].
    apply negb_true_iff, bool_decide_eq_false in Hs1, Hs2.
    by destruct Hs'. }
  case_bool_decide as Hn; simpl.
  2:{ left. split_and!; try done; [apply only_logs_singleton|].
      intros m' pname' [= <-] (_ & _ & _ & Hn'). done. }
  right. exists m, pname. split; [done|]. split; [|done].
  repeat split; try done.
  unfold supported, Py.str_in in *.
  apply andb_false_iff in Hs as [Hs|Hs]; apply negb_false_iff in Hs;
    apply bool_decide_eq_true in Hs; auto.
Qed.

Lemma count_app kind tr tr' : count kind (tr ++ tr') = (count kind tr + count kind tr')%nat.
Proof. unfold count. by rewrite List.filter_app, length_app. Qed.

Lemma count_only_logs kind tr :
  (∀ lvl text, kind (Log lvl text) = false) → only_logs tr → count kind tr = 0%nat.
Proof.
  intros Hk. induction tr as [|ev tr IH]; intros Hl; [done|].
  destruct (Hl ev) as (lvl & text & ->); [left|].
  unfold count in *. simpl. rewrite Hk. apply IH.
  intros ev Hin. apply Hl. by right.
Qed.

(** * Further properties of [run] *)

(** X6.  A message that is no file message of a supported satellite from the
    current server is ignored. *)
Theorem run_ignores_unaccepted opts w self msg :
  (∀ m pname, msg = Some m → ¬ accepted opts m pname) →
  let r := run opts w self msg in
  outcome r = Returns true ∧ post r = self ∧ only_logs (trace r).
Proof.
  intros Hno. cbv zeta.
  destruct (run_shape opts w self msg) as [(? & ? & ? & _)|(m & pname & -> & Hacc & _)].
  - done.
  - by destruct (Hno m pname).
Qed.

Lemma run_ignores_unaccepted_witness :
  let msg := {| type := "file";
                data := {| platform_name := Some "NOAA-19"; sensor := "avhrr/3";
                           uri := {| netloc := "elsewhere"; path := "/data/x.hmf" |};
                           start_time := 0; end_time := None;
                           orbit_number := None |} |} in
  post (run example_options example_world (new_processor example_options) (Some msg))
  = new_processor example_options.
Proof.
  cbv zeta.
  apply (run_ignores_unaccepted example_options example_world
           (new_processor example_options)).
  intros m pname [= <-] (_ & _ & _ & Hn). discriminate Hn.
Defined.

(** X7.  [run] returns [False] exactly when it has started the subprocess. *)
Theorem run_false_iff_dispatched opts w self msg :
  let r := run opts w self msg in
  outcome r = Returns false ↔ dispatched (trace r).
Proof.
  cbv zeta.
  destruct (run_shape opts w self msg) as [(Ho & _ & Hl & _)|(m & pname & -> & Hacc & ->)].
  { rewrite Ho. split; [done|]. intros Hd. by apply only_logs_not_dispatched in Hd. }
  assert (supported pname) as Hs by apply Hacc.
  destruct (process_shape opts w self (data m) pname Hs)
    as [(Ho & Hl & _)|(y & keyname & T & -> & _ & Hl & _)].
  { rewrite Ho. split; [done|]. intros Hd. by apply only_logs_not_dispatched in Hd. }
  apply launch_returns_false_iff. by apply only_logs_not_dispatched.
Qed.

(** X8.  When [run] returns [False], the scene was not locked, its interval has
    been appended to the register under the satellite's id, and the timer
    that releases it after ten minutes has been started. *)
Theorem run_false_registers opts w self msg :
  let r := run opts w self msg in
  outcome r = Returns false →
  ∃ m pname,
    msg = Some m ∧ accepted opts m pname ∧
    let se := (start_time (data m), scene_end (data m)) in
    let key := registry_key pname in
    pass_locked self pname se = None ∧
    TimerStart (10 * 60) key se ∈ trace r ∧
    job_register (post r)
    = <[key := default [] (job_register self !! key) ++ [se]]> (job_register self).
Proof.
  cbv zeta.
  destruct (run_shape opts w self msg) as [(Ho & _)|(m & pname & -> & Hacc & ->)].
  { by rewrite Ho. }
  assert (supported pname) as Hs by apply Hacc.
  destruct (process_shape opts w self (data m) pname Hs)
    as [(Ho & _)|(y & keyname & T & -> & Hlk & _ & Hsat & Hreg & _)].
  { by rewrite Ho. }
  intros Hf. exists m, pname. split; [done|]. split; [done|]. split; [done|].
  apply launch_false_registers in Hf. cbv zeta in Hf.
  by rewrite Hsat, Hreg in Hf.
Qed.

Lemma run_false_registers_witness :
  job_register
    (post (run example_options example_world (new_processor example_options)
             (Some noaa19_message))) !! "noaa19"
  = Some [(0, 840000000)%Z].
Proof.
  destruct (run_false_registers example_options example_world
              (new_processor example_options) (Some noaa19_message))
    as (m & pname & [= <-] & (_ & [= <-] & _) & _ & _ & ->).
  - reflexivity.
  - reflexivity.
Defined.

(** X9.  [run] never removes or reorders a registered interval: under every
    key the list is the one before, with at most one interval appended. *)
Theorem run_register_only_grows opts w self msg k l :
  job_register self !! k = Some l →
  ∃ l', job_register (post (run opts w self msg)) !! k = Some (l ++ l') ∧
        (length l' ≤ 1)%nat.
Proof.
  intros Hk.
  assert (∀ reg key (se : Z * Z),
            reg = job_register self ∨
            reg = <[key := default [] (job_register self !! key) ++ [se]]>
                    (job_register self) →
            ∃ l', reg !! k = Some (l ++ l') ∧ (length l' ≤ 1)%nat) as Hgrow.
  { intros reg key se [->| ->].
    - exists []. rewrite app_nil_r. split; [done|simpl; lia].
    - destruct (decide (key = k)) as [->|Hne].
      + exists [se]. rewrite lookup_insert_eq, Hk. split; [done|simpl; lia].
      + exists []. rewrite lookup_insert_ne, app_nil_r by done.
        split; [done|simpl; lia]. }
  destruct (run_shape opts w self msg) as [(_ & -> & _)|(m & pname & -> & Hacc & ->)].
  { apply (Hgrow _ "" (0, 0)%Z). by left. }
  assert (supported pname) as Hs by apply Hacc.
  destruct (process_shape opts w self (data m) pname Hs)
    as [(_ & _ & -> & _)|(y & keyname & T & -> & _ & _ & _ & Hreg & _)].
  { apply (Hgrow _ "" (0, 0)%Z). by left. }
  pose proof (launch_register opts w y pname (path (uri (data m))) keyname
                (start_time (data m), scene_end (data m)) T) as Hl.
  cbv zeta in Hl. rewrite Hreg in Hl. by eapply Hgrow.
Qed.

Lemma run_register_only_grows_witness :
  ∃ l', job_register
          (post (run example_options example_world
                   (set_job_register {[ "noaa19" := [(5, 9)%Z] ]}
                      (new_processor example_options))
                   (Some noaa19_message))) !! "noaa19"
        = Some ([(5, 9)%Z] ++ l') ∧ (length l' ≤ 1)%nat.
Proof.
  apply (run_register_only_grows example_options example_world
           (set_job_register {[ "noaa19" := [(5, 9)%Z] ]}
              (new_processor example_options))).
  reflexivity.
Defined.

(** X10.  A scene with its start or its end strictly inside an interval
    registered for the satellite is dropped: no subprocess, and register,
    collected files and working directory stay as they are. *)
Theorem run_suppresses_locked_scene opts w self m pname a :
  accepted opts m pname →
  a ∈ default [] (job_register self !! registry_key pname) →
  endpoint_inside (start_time (data m), scene_end (data m)) a →
  let r := run opts w self (Some m) in
  outcome r = Returns true ∧ only_logs (trace r) ∧
  job_register (post r) = job_register self ∧
  level0files (post r) = level0files self ∧
  working_dir (post r) = working_dir self.
Proof.
  intros Hacc Hin Hinside. cbv zeta.
  assert (supported pname) as Hs by apply Hacc.
  rewrite (run_accepted _ _ _ _ _ Hacc), process_supported by done. cbv zeta.
  rewrite launched_previously_resolved by done.
  destruct (pass_locked self pname _) as [b|] eqn:Hlk.
  - destruct (resolve_scene_post self (data m) pname Hs)
      as (_ & _ & _ & _ & _ & Hfiles & Hreg & Hwd).
    simpl. split_and!; try done.
    intros ev. by apply resolve_scene_logs.
  - exfalso. apply overlapping_timeinterval_None in Hlk.
    rewrite Forall_forall in Hlk. by apply (Hlk a).
Qed.

Lemma run_suppresses_locked_scene_witness :
  outcome (run example_options example_world
             (set_job_register {[ "noaa19" := [(-5, 9)%Z] ]}
                (new_processor example_options))
             (Some noaa19_message))
  = Returns true.
Proof.
  apply (run_suppresses_locked_scene example_options example_world
           (set_job_register {[ "noaa19" := [(-5, 9)%Z] ]}
              (new_processor example_options))
           noaa19_message "NOAA-19" (-5, 9)%Z).
  - repeat split. left. left.
  - left.
  - left. simpl. lia.
Defined.

(** What [launch] adds to the trace. *)
Lemma launch_counts opts w self pname level0 keyname se before :
  let r := launch opts w self pname level0 keyname se before in
  count is_popen (trace r)
  = (count is_popen before +
     match outcome r with Returns false => 1 | _ => 0 end)%nat ∧
  count is_mkdtemp (trace r)
  = (count is_mkdtemp before +
     match working_dir self with
     | Some d => if bool_decide (d = "") then 1 else 0
     | None => 1
     end)%nat.
Proof.
  cbv zeta. launch_cases_wd self pname keyname Hwd.
  all: rewrite ?bool_decide_true, ?bool_decide_false by done.
  all: rewrite <- ?app_assoc, ?count_app; unfold count; simpl; lia.
Qed.

(** The subprocess runs in the working directory the object holds. *)
Lemma launch_popen opts w self pname level0 keyname se before cmd cwd :
  let r := launch opts w self pname level0 keyname se before in
  (∀ c d, Popen c d ∉ before) →
  Popen cmd cwd ∈ trace r →
  working_dir (post r) = Some cwd ∧
  result_files (post r) = get_aapp_lvl1_files w cwd pname ∧
  (working_dir self = Some cwd ∨ (cwd = mkdtemp w ∧ Mkdtemp cwd ∈ trace r)).
Proof.
  cbv zeta. intros Hb. launch_cases_wd self pname keyname Hwd.
  all: rewrite ?elem_of_app, ?elem_of_cons, ?elem_of_nil.
  all: intros Hin;
    repeat match goal with
           | H : _ ∨ _ |- _ => destruct H
           | H : Popen _ _ ∈ ?l, Hb' : ∀ c d, Popen c d ∉ ?l |- _ => by apply Hb' in H
           | H : False |- _ => destruct H
           | H : Popen _ _ = _ |- _ => first [discriminate H | injection H as <- <-]
           end.
  all: split_and!; try done; auto 10.
Qed.

(** X11.  The subprocess is started in the working directory the object
    holds afterwards, which is the one it held before or the one just
    made, and the result files are looked up from that directory for the
    satellite of the message. *)
Theorem run_popen_in_working_dir opts w self msg cmd cwd :
  let r := run opts w self msg in
  Popen cmd cwd ∈ trace r →
  working_dir (post r) = Some cwd ∧
  (working_dir self = Some cwd ∨ (cwd = mkdtemp w ∧ Mkdtemp cwd ∈ trace r)) ∧
  ∃ m pname, msg = Some m ∧ platform_name (data m) = Some pname ∧
             result_files (post r) = get_aapp_lvl1_files w cwd pname.
Proof.
  cbv zeta.
  destruct (run_shape opts w self msg) as [(_ & _ & Hl & _)|(m & pname & -> & Hacc & ->)].
  { intros (? & ? & ?)%Hl. done. }
  assert (supported pname) as Hs by apply Hacc.
  destruct (process_shape opts w self (data m) pname Hs)
    as [(_ & Hl & _)|(y & keyname & T & -> & _ & Hl & _ & _ & Hwd & _)].
  { intros (? & ? & ?)%Hl. done. }
  intros Hin. apply launch_popen in Hin as (? & ? & ?).
  - rewrite <- Hwd. split; [done|]. split; [done|].
    exists m, pname. split; [done|]. split; [apply Hacc|done].
  - intros c d (? & ? & ?)%Hl. done.
Qed.

Lemma run_popen_in_working_dir_witness :
  working_dir
    (post (run example_options example_world (new_processor example_options)
             (Some noaa19_message)))
  = Some "/tmp/aapp_wrk".
Proof.
  apply (run_popen_in_working_dir example_options example_world
           (new_processor example_options) (Some noaa19_message)
           (NoaaRun "/opt/aapp/smhi/AAPP_RUN_NOAA_WITH_ANA" 0 "/data/x.hmf")).
  vm_compute. do 3 right. left.
Defined.

(** What one call of [run] adds to the trace. *)
Lemma run_counts opts w self msg :
  let r := run opts w self msg in
  count is_popen (trace r) = match outcome r with Returns false => 1 | _ => 0 end%nat ∧
  ((working_dir (post r) = working_dir self ∧ count is_mkdtemp (trace r) = 0%nat) ∨
   (working_dir (post r) = Some (mkdtemp w) ∧ count is_mkdtemp (trace r) = 1%nat ∧
    (working_dir self = None ∨ working_dir self = Some ""))).
Proof.
  cbv zeta.
  destruct (run_shape opts w self msg) as [(-> & -> & Hl & _)|(m & pname & -> & Hacc & ->)].
  { rewrite !count_only_logs by done. auto. }
  assert (supported pname) as Hs by apply Hacc.
  destruct (process_shape opts w self (data m) pname Hs)
    as [(Ho & Hl & _ & Hw & _)|(y & keyname & T & -> & _ & Hl & _ & _ & Hwd & _)].
  { rewrite Ho, Hw. rewrite (count_only_logs is_popen) by done.
    rewrite (count_only_logs is_mkdtemp) by done.
    auto. }
  match goal with |- context [launch ?o ?w ?y ?p ?l ?k ?se ?T] =>
    pose proof (launch_counts o w y p l k se T) as [Hp Hm];
    pose proof (launch_working_dir o w y p l k se T) as Hkeep;
    pose proof (launch_makes_working_dir o w y p l k se T) as Hmake
  end.
  cbv zeta in Hp, Hm, Hkeep, Hmake.
  rewrite (count_only_logs is_popen T) in Hp by done.
  rewrite (count_only_logs is_mkdtemp T) in Hm by done.
  split; [done|]. rewrite Hm, <- Hwd.
  destruct (working_dir y) as [d|] eqn:Hy.
  - case_bool_decide as Hd.
    + subst d. right. split; [apply Hmake|]; auto.
    + left. split; [|done]. by apply (Hkeep d).
  - right. split; [apply Hmake|]; auto.
Qed.

(** * The command of a NOAA scene *)

Lemma launch_noaa_command opts w self pname level0 keyname se before cmd cwd :
  pname ∈ SUPPORTED_NOAA_SATELLITES →
  (∀ c d, Popen c d ∉ before) →
  Popen cmd cwd ∈ trace (launch opts w self pname level0 keyname se before) →
  cmd = NoaaRun (NOAA_RUN_SCRIPT opts) se.1 level0.
Proof.
  intros Hn Hb.
  assert (Py.str_in pname SUPPORTED_NOAA_SATELLITES = true) as Hin.
  { by apply bool_decide_eq_true. }
  unfold launch, ensure_working_dir.
  destruct (working_dir self) as [dir|]; [case_bool_decide|];
    rewrite Hin; simpl; unfold after_popen; simpl;
    rewrite ?elem_of_app, ?elem_of_cons, ?elem_of_nil;
    intros Hp;
    repeat match goal with
           | H : _ ∨ _ |- _ => destruct H
           | H : Popen _ _ ∈ ?l, Hb' : ∀ c d, Popen c d ∉ ?l |- _ => by apply Hb' in H
           | H : False |- _ => destruct H
           | H : Popen _ _ = _ |- _ => first [discriminate H | by injection H as -> _]
           end.
Qed.

(** X12.  A NOAA file message [run] accepts starts the subprocess exactly when
    the scene is not locked, and the command is the NOAA script with the
    year of the message's start time and the path of its file. *)
Theorem noaa_dispatched_iff_unlocked opts w self m pname :
  accepted opts m pname → pname ∈ SUPPORTED_NOAA_SATELLITES →
  let d := data m in
  let r := run opts w self (Some m) in
  (dispatched (trace r) ↔ pass_locked self pname (start_time d, scene_end d) = None) ∧
  ∀ cmd cwd, Popen cmd cwd ∈ trace r →
             cmd = NoaaRun (NOAA_RUN_SCRIPT opts) (start_time d) (path (uri d)).
Proof.
  intros Hacc Hn. cbv zeta.
  assert (supported pname) as Hs by apply Hacc.
  rewrite (run_accepted _ _ _ _ _ Hacc). split.
  - pose proof (process_noaa opts w self (data m) pname Hs Hn) as Hp.
    cbv zeta in Hp.
    destruct (pass_locked self pname _).
    + destruct Hp as (_ & Hnd & _). split; [done|discriminate].
    + destruct Hp as (_ & Hd & _). done.
  - intros cmd cwd.
    destruct (process_shape opts w self (data m) pname Hs)
      as [(_ & Hl & _)|(y & keyname & T & -> & _ & Hl & _)].
    { intros (? & ? & ?)%Hl. done. }
    intros Hin. apply launch_noaa_command in Hin; [done..|].
    intros c d0 (? & ? & ?)%Hl. done.
Qed.

Lemma noaa_dispatched_iff_unlocked_witness :
  dispatched
    (trace (run example_options example_world (new_processor example_options)
              (Some noaa19_message))).
Proof.
  apply (noaa_dispatched_iff_unlocked example_options example_world
           (new_processor example_options) noaa19_message "NOAA-19").
  - repeat split. left. left.
  - left.
  - reflexivity.
Defined.

(** * The command of a Metop scene *)

Lemma sensor_filenames_snoc files item :
  sensor_filenames (files ++ [item])
  = <[item.2 := Py.basename item.1]> (sensor_filenames files).
Proof. unfold sensor_filenames. by rewrite foldl_app. Qed.

(** X14.  The entry of a sensor is the name of the last file collected for it. *)
Theorem sensor_filenames_last_wins (files : list (string * string)) (instr : string) :
  sensor_filenames files !! instr
  = (fun item => Py.basename item.1) <$> last (filter (fun item => item.2 = instr) files).
Proof.
  induction files as [|item files IH] using rev_ind; [done|].
  rewrite sensor_filenames_snoc, filter_app.
  destruct (decide (item.2 = instr)) as [Heq|Hne].
  - rewrite filter_cons_True, filter_nil by done.
    rewrite last_snoc. simpl. by rewrite Heq, lookup_insert_eq.
  - rewrite filter_cons_False, filter_nil, app_nil_r by done.
    by rewrite lookup_insert_ne.
Qed.

Lemma sensor_filenames_dom files instr :
  is_Some (sensor_filenames files !! instr) ↔ instr ∈ files.*2.
Proof.
  induction files as [|item files IH] using rev_ind.
  - unfold sensor_filenames. simpl. rewrite lookup_empty, elem_of_nil.
    split; [by intros [? ?]|done].
  - rewrite sensor_filenames_snoc, fmap_app, elem_of_app. simpl.
    rewrite list_elem_of_singleton.
    destruct (decide (item.2 = instr)) as [Heq|Hne].
    + rewrite Heq, lookup_insert_eq. split; eauto.
    + rewrite lookup_insert_ne, IH by done. split; [auto|]. intros [?|?]; [done|].
      congruence.
Qed.

Lemma sensor_names_match_spec files :
  sensor_names_match (sensor_filenames files) = true
  ↔ ∀ instr, instr ∈ files.*2 → instr ∈ REQUIRED_SENSORS.
Proof.
  unfold sensor_names_match. rewrite forallb_forall. split.
  - intros Hall instr [fname Hin]%sensor_filenames_dom.
    specialize (Hall instr). unfold Py.str_in in Hall.
    rewrite bool_decide_eq_true in Hall. apply Hall.
    apply list_elem_of_In, list_elem_of_fmap. exists (instr, fname).
    split; [done|]. by apply elem_of_map_to_list.
  - intros Hall instr Hin. apply bool_decide_eq_true, Hall.
    apply list_elem_of_In, list_elem_of_fmap in Hin as ([k v] & -> & Hin).
    apply elem_of_map_to_list in Hin. simpl. apply sensor_filenames_dom. eauto.
Qed.

Lemma metop_command_spec opts sf :
  match metop_command opts sf with
  | Returns cmd =>
      ∃ avhrr amsua mhs hirs,
        sf !! "avhrr" = Some avhrr ∧ sf !! "amsua" = Some amsua ∧
        sf !! "mhs" = Some mhs ∧ sf !! "hirs" = Some hirs ∧
        cmd = MetopRun (METOP_RUN_SCRIPT opts) (METOP_IN_DIR opts)
                avhrr amsua mhs hirs (AAPP_OUT_DIR opts)
  | Raises e =>
      ∃ instr, instr ∈ REQUIRED_SENSORS ∧ sf !! instr = None ∧ e = KeyError instr
  end.
Proof.
  unfold metop_command, subscript, REQUIRED_SENSORS.
  destruct (sf !! "avhrr") eqn:H1; [|exists "avhrr"; rewrite !elem_of_cons; auto 10].
  destruct (sf !! "amsua") eqn:H2; [|exists "amsua"; rewrite !elem_of_cons; auto 10].
  destruct (sf !! "mhs") eqn:H3; [|exists "mhs"; rewrite !elem_of_cons; auto 10].
  destruct (sf !! "hirs") eqn:H4; [|exists "hirs"; rewrite !elem_of_cons; auto 10].
  eauto 10.
Qed.

(** A Metop scene that reaches [launch]: the subprocess is started
    exactly when the sensors of the collected files are the four roles. *)
Lemma launch_metop_iff opts w self pname level0 keyname se before files :
  pname ∈ SUPPORTED_METOP_SATELLITES →
  level0files self !! keyname = Some files →
  ¬ dispatched before →
  let r := launch opts w self pname level0 keyname se before in
  dispatched (trace r) ↔ ∀ instr, instr ∈ files.*2 ↔ instr ∈ REQUIRED_SENSORS.
Proof.
  intros Hm Hfiles Hb. cbv zeta.
  assert (Py.str_in pname SUPPORTED_NOAA_SATELLITES = false) as Hn.
  { unfold SUPPORTED_METOP_SATELLITES in Hm.
    repeat (apply elem_of_cons in Hm as [->|Hm]); [..|by apply elem_of_nil in Hm];
      reflexivity. }
  assert (Py.str_in pname SUPPORTED_METOP_SATELLITES = true) as Hm'.
  { by apply bool_decide_eq_true. }
  pose proof (sensor_names_match_spec files) as Hmatch.
  pose proof (metop_command_spec opts (sensor_filenames files)) as Hcmd.
  unfold launch.
  destruct (ensure_working_dir w self) as [[cwd self'] ev] eqn:Hwd.
  assert (level0files self' = level0files self ∧
          ¬ dispatched (before ++ ev)) as [Hf' Hb'].
  { unfold ensure_working_dir in Hwd.
    destruct (working_dir self) as [dir|]; [case_bool_decide|];
      injection Hwd as <- <- <-; (split; [done|]);
      rewrite ?app_nil_r; try done;
      (apply not_dispatched_app; [done|no_popen]). }
  rewrite Hn, Hm', Hf', Hfiles. simpl negb. cbv iota. simpl andb. cbv iota.
  destruct (sensor_names_match (sensor_filenames files)) eqn:Hsm; simpl negb; cbv iota.
  - destruct Hmatch as [Hmatch _]. specialize (Hmatch eq_refl).
    destruct (metop_command opts (sensor_filenames files)) as [cmd|e].
    + destruct Hcmd as (a & b & c & d & Ha & Hb0 & Hc & Hd & _).
      unfold after_popen. simpl. split.
      * intros _ instr. split; [apply Hmatch|].
        unfold REQUIRED_SENSORS. rewrite !elem_of_cons, elem_of_nil.
        intros [->|[->|[->|[->|[]]]]]; apply sensor_filenames_dom; eauto.
      * intros _. eexists _, _. rewrite elem_of_app. right. left.
    + destruct Hcmd as (instr & Hin & Hnone & _). simpl. split.
      * intros Hd. by apply Hb' in Hd.
      * intros Hall. apply Hall, sensor_filenames_dom in Hin as [? Hin].
        congruence.
  - simpl. split.
    + intros Hd. exfalso. revert Hd. apply not_dispatched_app; [done|no_popen].
    + intros Hall. destruct Hmatch as [_ Hmatch].
      assert (false = true) as Ht; [|done].
      apply Hmatch. intros instr. apply Hall.
Qed.

Lemma four_roles_length (files : list (string * string)) :
  (∀ instr, instr ∈ REQUIRED_SENSORS → instr ∈ files.*2) → (4 ≤ length files)%nat.
Proof.
  intros Hall.
  assert (NoDup REQUIRED_SENSORS) as Hnd by (by apply (bool_decide_unpack _)).
  apply NoDup_submseteq in Hall; [|done].
  apply submseteq_length in Hall. by rewrite length_fmap in Hall.
Qed.

(** X13.  A Metop file message [run] accepts starts the subprocess exactly when
    the scene is not locked, the sensor of the message is one of the
    Metop sensors, and the files collected for the scene, this one
    included, have the four roles avhrr, amsua, hirs and mhs as their
    sensors, all of them and no other. *)
Theorem metop_dispatched_iff_four_roles opts w self m pname :
  accepted opts m pname → pname ∈ SUPPORTED_METOP_SATELLITES →
  let d := data m in
  let se := (start_time d, scene_end d) in
  let keyname := (registry_key pname, se.1, se.2) in
  let r := run opts w self (Some m) in
  let files := default [] (level0files (post r) !! keyname) in
  dispatched (trace r) ↔
    pass_locked self pname se = None ∧
    dict_get METOP_SENSOR (sensor d) (sensor d) ∈ METOP_SENSORS ∧
    ∀ instr, instr ∈ files.*2 ↔ instr ∈ REQUIRED_SENSORS.
Proof.
  intros Hacc Hm. cbv zeta.
  assert (supported pname) as Hs by apply Hacc.
  rewrite (run_accepted _ _ _ _ _ Hacc).
  pose proof (collect_level0_spec (level0files self)
    (registry_key pname, start_time (data m), scene_end (data m))
    (path (uri (data m))) (sensor (data m))) as Hc.
  cbv zeta in Hc. unfold Py.str_in in Hc.
  simpl fst. simpl snd.
  set (keyname := (registry_key pname, start_time (data m), scene_end (data m))) in *.
  set (instr0 := dict_get METOP_SENSOR (sensor (data m)) (sensor (data m))) in *.
  set (have := default [] (level0files self !! keyname)) in *.
  set (now := if bool_decide ((path (uri (data m)), instr0) ∈ have) then have
              else have ++ [(path (uri (data m)), instr0)]) in *.
  destruct (process_shape opts w self (data m) pname Hs)
    as [(_ & Hl & _ & _ & Hleft)
       |(y & keyname' & T & -> & Hlk & Hl & _ & _ & _ & -> & Hright)];
    simpl fst in *; simpl snd in *; fold keyname in Hleft || fold keyname in Hright.
  - split; [intros Hd; by apply only_logs_not_dispatched in Hd|].
    intros (Hlk & Hin & Hroles). exfalso.
    destruct (Hleft Hlk) as (_ & Hnr & Hpost).
    rewrite Hpost, Hc in Hroles. rewrite Hc in Hnr.
    rewrite bool_decide_true in Hroles, Hnr by done.
    simpl in Hroles, Hnr. rewrite lookup_insert_eq in Hroles. simpl in Hroles.
    assert (4 ≤ length now)%nat as Hlen.
    { apply four_roles_length. intros instr. apply Hroles. }
    rewrite bool_decide_false in Hnr by lia. done.
  - fold keyname. destruct (Hright Hm) as [Hready Hy].
    match goal with |- context [launch ?o ?w ?y ?p ?l ?k ?se ?T] =>
      pose proof (launch_frame o w y p l k se T) as (_ & _ & _ & _ & Hframe)
    end.
    rewrite Hframe, Hy. rewrite Hc in Hready, Hy |- *.
    case_bool_decide as Hin; [|done]. simpl in Hy |- *.
    rewrite lookup_insert_eq. simpl.
    rewrite (launch_metop_iff opts w y pname _ keyname _ T now); try done.
    + tauto.
    + by rewrite Hy, lookup_insert_eq.
    + by apply only_logs_not_dispatched.
Qed.

Lemma metop_dispatched_iff_four_roles_witness :
  dispatched
    (trace (run example_options example_world three_roles_collected
              (Some (metop_message "hirs/4" "/data/metop/hirs.hmf")))).
Proof.
  apply (metop_dispatched_iff_four_roles example_options example_world
           three_roles_collected
           (metop_message "hirs/4" "/data/metop/hirs.hmf") "Metop-B").
  - repeat split. right. left.
  - unfold SUPPORTED_METOP_SATELLITES. left.
  - split; [reflexivity|]. split.
    + unfold METOP_SENSORS. rewrite !elem_of_cons. auto 10.
    + cbv zeta. intros instr.
      match goal with |- context [default [] ?x] =>
        replace x with (Some [("/data/metop/avhrr.hmf", "avhrr");
                              ("/data/metop/amsua.hmf", "amsua");
                              ("/data/metop/mhs.hmf", "mhs");
                              ("/data/metop/hirs.hmf", "hirs")])
          by (vm_compute; reflexivity)
      end.
      unfold REQUIRED_SENSORS. simpl.
      rewrite !elem_of_cons, !elem_of_nil. tauto.
Defined.

(** X5.  When [run] has returned [False] and the timer it started fires
    before the register is changed again, [reset_job_registry] returns
    without a warning and releases the scene: every other key is as it
    was before [run], and under the satellite's key the intervals are
    those of before, up to their order. *)
Theorem timer_releases_dispatched_scene opts w self msg :
  let r := run opts w self msg in
  outcome r = Returns false →
  ∃ key se,
    TimerStart (10 * 60) key se ∈ trace r ∧
    let r' := reset_job_registry (job_register (post r)) key se in
    outcome r' = Returns tt ∧ trace r' = [] ∧
    (∀ k, k ≠ key → post r' !! k = job_register self !! k) ∧
    ∃ l, post r' !! key = Some l ∧
         l ≡ₚ default [] (job_register self !! key).
Proof.
  cbv zeta.
  destruct (run_shape opts w self msg) as [(Ho & _)|(m & pname & -> & Hacc & ->)].
  { by rewrite Ho. }
  assert (supported pname) as Hs by apply Hacc.
  destruct (process_shape opts w self (data m) pname Hs)
    as [(Ho & _)|(y & keyname & T & -> & _ & _ & Hsat & Hreg & _)].
  { by rewrite Ho. }
  intros Hf. apply launch_false_registers in Hf as [Htimer Hpost].
  cbv zeta in Hpost.
  exists (satid y), (start_time (data m), scene_end (data m)).
  split; [done|]. rewrite Hpost, <- register_job_spec.
  destruct (register_then_reset y (start_time (data m), scene_end (data m)))
    as (Hout & Htr & Hother & l & Hl & Hperm & _).
  rewrite Hreg in Hother, Hperm. eauto 10.
Qed.

Lemma timer_releases_dispatched_scene_witness :
  ∃ key se,
    TimerStart (10 * 60) key se
      ∈ trace (run example_options example_world (new_processor example_options)
                 (Some noaa19_message)) ∧
    outcome (reset_job_registry
               (job_register
                  (post (run example_options example_world
                           (new_processor example_options) (Some noaa19_message))))
               key se)
    = Returns tt.
Proof.
  destruct (timer_releases_dispatched_scene example_options example_world
              (new_processor example_options) (Some noaa19_message))
    as (key & se & Htimer & Hout & _).
  - reflexivity.
  - by exists key, se.
Defined.

(** * The receive loop *)

(** X15.  One turn of the receive loop starts at most one subprocess, and it
    ends with [False] exactly when it has started one. *)
Theorem receive_dispatches_at_most_once opts w self msgs :
  let r := receive opts w self msgs in
  (count is_popen (trace r) ≤ 1)%nat ∧
  (outcome r = Returns false ↔ count is_popen (trace r) = 1%nat).
Proof.
  cbv zeta. revert self. induction msgs as [|msg msgs IH]; intros self.
  { simpl. split; [unfold count; simpl; lia|]. split; [done|]. unfold count. simpl. lia. }
  cbn [receive]. cbv zeta.
  destruct (run_counts opts w self msg) as [Hp _].
  destruct (outcome (run opts w self msg)) as [[|]|e] eqn:Ho.
  - cbn [outcome trace]. rewrite count_app, Hp. simpl. apply IH.
  - rewrite Ho, Hp. split; [lia|done].
  - rewrite Ho, Hp. split; [lia|]. split; [done|lia].
Qed.

(** X16.  One turn of the receive loop makes at most one working directory,
    and none when the object holds one. *)
Theorem receive_makes_one_working_dir opts w self msgs :
  mkdtemp w ≠ "" →
  let r := receive opts w self msgs in
  (count is_mkdtemp (trace r) ≤ 1)%nat ∧
  ∀ dir, working_dir self = Some dir → dir ≠ "" →
         count is_mkdtemp (trace r) = 0%nat ∧ working_dir (post r) = Some dir.
Proof.
  intros Hmk. cbv zeta. revert self. induction msgs as [|msg msgs IH]; intros self.
  { simpl. split; [unfold count; simpl; lia|]. intros dir Hd _. split; [done|]. done. }
  cbn [receive]. cbv zeta.
  destruct (run_counts opts w self msg) as [_ Hm].
  assert (∀ dir, working_dir self = Some dir → dir ≠ "" →
                 count is_mkdtemp (trace (run opts w self msg)) = 0%nat ∧
                 working_dir (post (run opts w self msg)) = Some dir) as Hkeep.
  { intros dir Hd Hne. destruct Hm as [[Hw Hc]|(_ & _ & [Hw|Hw])].
    - split; [done|]. by rewrite Hw.
    - congruence.
    - congruence. }
  assert (count is_mkdtemp (trace (run opts w self msg)) ≤ 1)%nat as Hle.
  { destruct Hm as [[_ ->]|(_ & -> & _)]; lia. }
  destruct (outcome (run opts w self msg)) as [[|]|e] eqn:Ho; [|done..].
  cbn [post trace]. rewrite count_app.
  destruct (IH (post (run opts w self msg))) as [IH1 IH2].
  split.
  - destruct Hm as [[_ ->]|(Hw & -> & _)]; [lia|].
    destruct (IH2 _ Hw Hmk) as [-> _]. lia.
  - intros dir Hd Hne. destruct (Hkeep dir Hd Hne) as [-> Hw].
    destruct (IH2 dir Hw Hne) as [-> ?]. done.
Qed.

Lemma receive_makes_one_working_dir_witness :
  (count is_mkdtemp
     (trace (receive example_options example_world (new_processor example_options)
               [None; Some noaa19_message])) ≤ 1)%nat.
Proof.
  apply (receive_makes_one_working_dir example_options example_world
           (new_processor example_options) [None; Some noaa19_message]).
  discriminate.
Defined.

(** * Paths *)

Lemma append_cons c (s t : string) : String c s +:+ t = String c (s +:+ t).
Proof. reflexivity. Qed.

Lemma append_nil_r (s : string) : s +:+ "" = s.
Proof. induction s as [|c s IH]; [done|]. by rewrite append_cons, IH. Qed.

Lemma rev_app_rev_app (s a b : string) :
  String.rev_app (String.rev_app s a) b = String.rev_app a (s +:+ b).
Proof.
  revert a b. induction s as [|c s IH]; intros a b; simpl; [done|].
  by rewrite IH, append_cons.
Qed.

Lemma rev_involutive (s : string) : String.rev (String.rev s) = s.
Proof. unfold String.rev. rewrite rev_app_rev_app. simpl. apply append_nil_r. Qed.

Lemma lstrip_idemp chars s : Py.lstrip chars (Py.lstrip chars s) = Py.lstrip chars s.
Proof.
  induction s as [|c s IH]; simpl; [done|].
  case_bool_decide as Hc; [done|]. simpl. by rewrite bool_decide_false.
Qed.

Lemma rstrip_idemp chars s : Py.rstrip chars (Py.rstrip chars s) = Py.rstrip chars s.
Proof. unfold Py.rstrip. by rewrite rev_involutive, lstrip_idemp. Qed.

Lemma lstrip_rev_app chars s acc :
  Py.lstrip chars s = "" →
  Py.lstrip chars (String.rev_app s acc) = Py.lstrip chars acc.
Proof.
  revert acc. induction s as [|c s IH]; intros acc; simpl; [done|].
  case_bool_decide as Hc; [|done]. intros Hs. rewrite IH by done.
  simpl. by rewrite bool_decide_true.
Qed.

Lemma rstrip_all chars s : Py.lstrip chars s = "" → Py.rstrip chars s = "".
Proof.
  intros Hs. unfold Py.rstrip, String.rev at 2. by rewrite lstrip_rev_app.
Qed.

Lemma after_last_slash_all i s :
  Py.lstrip ["/"%char] s = "" → s ≠ "" →
  Py.after_last_slash i s = (i + String.length s)%nat.
Proof.
  revert i. induction s as [|c s IH]; intros i; [done|]. simpl.
  case_bool_decide as Hc; [|done]. intros Hs _.
  apply list_elem_of_singleton in Hc as ->.
  destruct s as [|c' s].
  - simpl. rewrite ?bool_decide_true by done. lia.
  - rewrite IH by done. simpl. replace (S i + S (String.length s))%nat
      with (S (S i + String.length s)) by lia. simpl. lia.
Qed.

Lemma drop_length s : Py.drop (String.length s) s = "".
Proof. induction s; simpl; done. Qed.

Lemma basename_all s : Py.lstrip ["/"%char] s = "" → Py.basename s = "".
Proof.
  intros Hs. unfold Py.basename. destruct (decide (s = "")) as [->|Hne]; [done|].
  rewrite after_last_slash_all by done. apply drop_length.
Qed.

(** [shutil.move] names the moved directory as [move_lvl1dir] does. *)
Lemma basename_rstrip_dirname p :
  Py.basename (Py.rstrip ["/"%char] (Py.dirname p)) = Py.basename (Py.dirname p).
Proof.
  unfold Py.dirname. cbv zeta. case_bool_decide as Hall.
  - rewrite rstrip_all by done. by rewrite (basename_all (Py.take _ _)).
  - by rewrite rstrip_idemp.
Qed.

(** * Further properties of the harvest *)

Lemma foldl_insert_exact {V} (f : string → V) (l : list string) k v :
  foldl (fun m x => <[x := f x]> m) (∅ : gmap string V) l !! k = Some v
  ↔ k ∈ l ∧ v = f k.
Proof.
  destruct (decide (k ∈ l)) as [Hin|Hnin].
  - rewrite foldl_insert_all by done. split; [by intros [= <-]|by intros [_ ->]].
  - rewrite foldl_insert_other, lookup_empty by done. split; [done|by intros [? _]].
Qed.

(** The result of [classify_moved] has the files found, and no other. *)
Lemma classify_moved_exact self (fs : gmap string (list string)) subd logged retv :
  outcome (classify_moved self fs subd logged) = Returns retv →
  ∀ fname sl,
    retv !! fname = Some sl ↔
    fname ∈ glob_all fs (Py.join (lvl1_home self) subd) ∧
    sl = sensor_and_level_of fname.
Proof.
  unfold classify_moved.
  destruct (orbit_unset _);
    [destruct (Py.split _ _) as [|?[|?[|?[|?[|]]]]]; try done|];
    simpl; intros [= <-] fname sl; apply foldl_insert_exact.
Qed.

(** What [classify_moved] leaves in [orbit]. *)
Lemma classify_moved_orbit self (fs : gmap string (list string)) subd logged :
  let r := classify_moved self fs subd logged in
  match outcome r with
  | Returns _ =>
      if orbit_unset (orbit self)
      then ∃ a b c orb, Py.split "_" subd = [a; b; c; orb] ∧
                        orbit (post r).1 = OrbitStr orb
      else orbit (post r).1 = orbit self
  | Raises e =>
      e = ValueError "unpack" ∧ orbit_unset (orbit self) = true ∧
      length (Py.split "_" subd) ≠ 4%nat ∧ post r = (self, fs)
  end.
Proof.
  unfold classify_moved.
  destruct (orbit_unset _);
    [destruct (Py.split _ _) as [|?[|?[|?[|?[|]]]]]|]; simpl; eauto 10.
Qed.

Lemma move_lvl1dir_unfold self (fs : gmap string (list string)) first rest :
  result_files self = first :: rest →
  move_lvl1dir self fs =
  match shutil_move fs (Py.dirname first) (lvl1_home self) with
  | Moved fs' => classify_moved self fs' (Py.basename (Py.dirname first)) []
  | ShutilError _ =>
      classify_moved self fs (Py.basename (Py.dirname first)) [already_exists]
  | MoveFailed e => Result (Raises e) (self, fs) []
  end.
Proof. intros Hrf. unfold move_lvl1dir. by rewrite Hrf. Qed.

(** X17.  The dictionary [move_lvl1dir] returns has an entry for each file
    found in the sub-directory under the output root, with the sensor
    and level read from its name, and no other entry. *)
Theorem move_lvl1dir_reports_exactly self (fs : gmap string (list string))
    first rest retv :
  result_files self = first :: rest →
  let r := move_lvl1dir self fs in
  outcome r = Returns retv →
  ∀ fname sl,
    retv !! fname = Some sl ↔
    fname ∈ glob_all (post r).2
              (Py.join (lvl1_home self) (Py.basename (Py.dirname first))) ∧
    sl = sensor_and_level_of fname.
Proof.
  intros Hrf. cbv zeta. rewrite (move_lvl1dir_unfold _ _ _ _ Hrf).
  destruct (shutil_move _ _ _) as [fs'| |]; [| |done]; intros Hret.
  - pose proof (classify_moved_frame self fs' (Py.basename (Py.dirname first)) [])
      as (-> & _).
    by apply (classify_moved_exact _ _ _ _ _ Hret).
  - pose proof (classify_moved_frame self fs (Py.basename (Py.dirname first))
                  [already_exists]) as (-> & _).
    by apply (classify_moved_exact _ _ _ _ _ Hret).
Qed.

Lemma move_lvl1dir_reports_exactly_witness :
  ∃ retv,
    outcome (move_lvl1dir harvesting_processor harvested_fs) = Returns retv ∧
    (retv !! foo_file = Some (sensor_and_level_of foo_file) ↔
     foo_file ∈ glob_all (post (move_lvl1dir harvesting_processor harvested_fs)).2
                  "/data/lvl1/noaa19_20140826_1108_47748" ∧
     sensor_and_level_of foo_file = sensor_and_level_of foo_file).
Proof.
  assert (match outcome (move_lvl1dir harvesting_processor harvested_fs) with
          | Returns _ => true | Raises _ => false end = true) as Hret
    by (vm_compute; reflexivity).
  destruct (outcome (move_lvl1dir harvesting_processor harvested_fs))
    as [retv|] eqn:Ho; [|discriminate Hret].
  exists retv. split; [reflexivity|].
  apply (move_lvl1dir_reports_exactly harvesting_processor harvested_fs
           "/tmp/aapp_wrk/noaa19_20140826_1108_47748/hrpt_noaa19_20140826_1108_47748.l1b"
           ["/tmp/aapp_wrk/noaa19_20140826_1108_47748/foo_noaa19_20140826_1108_47748.l1b"]
           retv).
  - reflexivity.
  - exact Ho.
Defined.

(** X18.  When the output root is there and has no entry of the name, the pass
    directory is moved under it with its files, nothing is logged, and
    the dictionary returned lists each file of the directory that is not
    hidden, under its new path. *)
Theorem move_lvl1dir_moves_pass_directory self (fs : gmap string (list string))
    first rest names :
  result_files self = first :: rest →
  let path := Py.dirname first in
  let dest := Py.join (lvl1_home self) (Py.basename path) in
  is_Some (fs !! lvl1_home self) →
  path ≠ lvl1_home self →
  fs !! dest = None →
  fs !! path = Some names →
  let r := move_lvl1dir self fs in
  (post r).2 = <[dest := names]> (delete path fs) ∧
  trace r = [] ∧
  ∀ retv, outcome r = Returns retv →
    ∀ fname sl,
      retv !! fname = Some sl ↔
      (∃ name, name ∈ names ∧ Py.startswith "." name = false ∧
               fname = Py.join dest name) ∧
      sl = sensor_and_level_of fname.
Proof.
  intros Hrf. cbv zeta. intros [? Hhome] Hne Hdest Hpath.
  rewrite (move_lvl1dir_unfold _ _ _ _ Hrf).
  unfold shutil_move.
  rewrite Hhome, bool_decide_false, basename_rstrip_dirname, Hdest, Hpath by done.
  pose proof (classify_moved_frame self
                (<[Py.join (lvl1_home self) (Py.basename (Py.dirname first)) := names]>
                   (delete (Py.dirname first) fs))
                (Py.basename (Py.dirname first)) []) as (Hfs & Htr & _).
  split; [done|]. split; [done|].
  intros retv Hret fname sl.
  rewrite (classify_moved_exact _ _ _ _ _ Hret).
  unfold glob_all. rewrite lookup_insert_eq.
  rewrite list_elem_of_fmap.
  split; intros [Hin ->]; (split; [|done]).
  - destruct Hin as (name & -> & Hin). apply list_elem_of_filter in Hin as [? ?].
    by exists name.
  - destruct Hin as (name & ? & ? & ->). exists name. split; [done|].
    by apply list_elem_of_filter.
Qed.

Lemma move_lvl1dir_moves_pass_directory_witness :
  (post (move_lvl1dir harvesting_processor harvested_fs)).2
    !! "/data/lvl1/noaa19_20140826_1108_47748"
  = Some ["hrpt_noaa19_20140826_1108_47748.l1b";
          "foo_noaa19_20140826_1108_47748.l1b"].
Proof.
  destruct (move_lvl1dir_moves_pass_directory harvesting_processor harvested_fs
              "/tmp/aapp_wrk/noaa19_20140826_1108_47748/hrpt_noaa19_20140826_1108_47748.l1b"
              ["/tmp/aapp_wrk/noaa19_20140826_1108_47748/foo_noaa19_20140826_1108_47748.l1b"]
              ["hrpt_noaa19_20140826_1108_47748.l1b";
               "foo_noaa19_20140826_1108_47748.l1b"]) as (-> & _).
  - reflexivity.
  - by eexists.
  - vm_compute. discriminate.
  - vm_compute. reflexivity.
  - vm_compute. reflexivity.
  - vm_compute. reflexivity.
Defined.

(** X19.  After a harvest that returns, the orbit is the one the message gave,
    or, when there was none, the fourth part of the sub-directory name. *)
Theorem move_lvl1dir_orbit self (fs : gmap string (list string)) first rest retv :
  result_files self = first :: rest →
  let r := move_lvl1dir self fs in
  outcome r = Returns retv →
  if orbit_unset (orbit self)
  then ∃ a b c orb,
         Py.split "_" (Py.basename (Py.dirname first)) = [a; b; c; orb] ∧
         orbit (post r).1 = OrbitStr orb
  else orbit (post r).1 = orbit self.
Proof.
  intros Hrf. cbv zeta. rewrite (move_lvl1dir_unfold _ _ _ _ Hrf).
  destruct (shutil_move _ _ _) as [fs'| |]; [| |done]; intros Hret.
  - pose proof (classify_moved_orbit self fs' (Py.basename (Py.dirname first)) [])
      as Ho. cbv zeta in Ho. by rewrite Hret in Ho.
  - pose proof (classify_moved_orbit self fs (Py.basename (Py.dirname first))
                  [already_exists]) as Ho. cbv zeta in Ho. by rewrite Hret in Ho.
Qed.

Lemma move_lvl1dir_orbit_witness :
  ∃ a b c orb,
    Py.split "_" "noaa19_20140826_1108_47748" = [a; b; c; orb] ∧
    orbit (post (move_lvl1dir harvesting_processor harvested_fs)).1 = OrbitStr orb.
Proof.
  assert (match outcome (move_lvl1dir harvesting_processor harvested_fs) with
          | Returns _ => true | Raises _ => false end = true) as Hret
    by (vm_compute; reflexivity).
  destruct (outcome (move_lvl1dir harvesting_processor harvested_fs))
    as [retv|] eqn:Ho; [|discriminate Hret].
  apply (move_lvl1dir_orbit harvesting_processor harvested_fs
           "/tmp/aapp_wrk/noaa19_20140826_1108_47748/hrpt_noaa19_20140826_1108_47748.l1b"
           ["/tmp/aapp_wrk/noaa19_20140826_1108_47748/foo_noaa19_20140826_1108_47748.l1b"]
           retv).
  - reflexivity.
  - exact Ho.
Defined.

(** X20.  With no orbit from the message and a sub-directory name that has not
    four parts, the harvest raises [ValueError], and it does so after the
    directory has been moved: the move is not undone. *)
Theorem move_lvl1dir_raises_after_move self (fs fs' : gmap string (list string))
    first rest :
  result_files self = first :: rest →
  orbit_unset (orbit self) = true →
  length (Py.split "_" (Py.basename (Py.dirname first))) ≠ 4%nat →
  shutil_move fs (Py.dirname first) (lvl1_home self) = Moved fs' →
  move_lvl1dir self fs = Result (Raises (ValueError "unpack")) (self, fs') [].
Proof.
  intros Hrf Hu Hlen Hmv. rewrite (move_lvl1dir_unfold _ _ _ _ Hrf), Hmv.
  unfold classify_moved. rewrite Hu.
  destruct (Py.split _ _) as [|?[|?[|?[|?[|]]]]]; done.
Qed.

Lemma move_lvl1dir_raises_after_move_witness :
  outcome (move_lvl1dir short_name_processor short_name_fs)
  = Raises (ValueError "unpack") ∧
  (post (move_lvl1dir short_name_processor short_name_fs)).2
    !! "/tmp/aapp_wrk/noaa19_20140826_1108" = None.
Proof.
  rewrite (move_lvl1dir_raises_after_move short_name_processor short_name_fs
             (<["/data/lvl1/noaa19_20140826_1108" := ["hrpt_noaa19_20140826_1108.l1b"]]>
                (delete "/tmp/aapp_wrk/noaa19_20140826_1108" short_name_fs))
             "/tmp/aapp_wrk/noaa19_20140826_1108/hrpt_noaa19_20140826_1108.l1b" []).
  - split; [reflexivity|]. vm_compute. reflexivity.
  - reflexivity.
  - reflexivity.
  - vm_compute. discriminate.
  - vm_compute. reflexivity.
Defined.

(** * Further properties of [pack_aapplvl1_files] *)

(** The loop over two lists, one after the other. *)
Lemma pack_loop_app n path subdir files files' :
  ∀ (acc : gmap string sensor_level) (fs : gmap string (list string)) ev,
  pack_loop n path subdir (files ++ files') acc fs ev =
  let r := pack_loop n path subdir files acc fs ev in
  match outcome r with
  | Returns _ => pack_loop n path subdir files' (post r).1 (post r).2 (trace r)
  | Raises _ => r
  end.
Proof.
  induction files as [|file files IH]; intros acc fs ev; [done|].
  cbn [pack_loop app]. cbv zeta.
  destruct (Py.split "." (Py.basename file)) as [|i0 [|e0 [|]]]; try done.
  destruct (pack_one n i0 e0) as [[firstname sl]|]; [|apply IH].
  destruct (shutil_copy fs file _) as [fs'|]; [apply IH|done].
Qed.

(** What the loop keeps true: the entries of the dictionary are the
    destinations of the copies, and each copy is that of a listed file. *)
Lemma pack_loop_invariant n path subdir files :
  ∀ (acc : gmap string sensor_level) (fs : gmap string (list string)) ev,
  let r := pack_loop n path subdir files acc fs ev in
  ((∀ dst, is_Some (acc !! dst) ↔ ∃ src, Copy src dst ∈ ev) →
   (∀ dst, is_Some ((post r).1 !! dst) ↔ ∃ src, Copy src dst ∈ trace r)) ∧
  (∀ e, e ∈ trace r →
     e ∈ ev ∨
     ∃ src in_name ext firstname sl,
       e = Copy src (Py.join path (firstname +:+ "_" +:+ subdir +:+ "." +:+ ext)) ∧
       src ∈ files ∧
       Py.split "." (Py.basename src) = [in_name; ext] ∧
       pack_one n in_name ext = Some (firstname, sl)).
Proof.
  induction files as [|file files IH]; intros acc fs ev; cbv zeta.
  { simpl. split; [done|]. auto. }
  cbn [pack_loop]. cbv zeta.
  destruct (Py.split "." (Py.basename file)) as [|i0 [|e0 [|]]] eqn:Hsp;
    try (simpl; split; [done|]; by auto).
  destruct (pack_one n i0 e0) as [[firstname sl]|] eqn:Hone.
  - destruct (shutil_copy fs file _) as [fs'|];
      [|simpl; split; [done|]; by auto].
    match goal with |- context [pack_loop _ _ _ _ ?acc' ?fs1 ?ev'] =>
      destruct (IH acc' fs1 ev') as [IH1 IH2] end.
    split.
    + intros Hinv. apply IH1. intros dst.
      destruct (decide (dst = Py.join path (firstname +:+ "_" +:+ subdir +:+ "." +:+ e0)))
        as [->|Hne].
      * rewrite lookup_insert_eq. split; [intros _|by eauto].
        exists file. apply elem_of_app. right. left.
      * rewrite lookup_insert_ne, Hinv by done.
        split; intros [src Hin]; exists src.
        -- apply elem_of_app. by left.
        -- apply elem_of_app in Hin as [?|Hin]; [done|].
           apply list_elem_of_singleton in Hin. congruence.
    + intros e [He|(src & in_name & ext & fn & sl' & -> & Hin & ? & ?)]%IH2.
      * apply elem_of_app in He as [?|He]; [by left|].
        apply list_elem_of_singleton in He as ->.
        right. exists file, i0, e0, firstname, sl. split_and!; try done. left.
      * right. exists src, in_name, ext, fn, sl'. split_and!; try done. by right.
  - destruct (IH acc fs ev) as [IH1 IH2]. split; [done|].
    intros e [?|(src & in_name & ext & fn & sl' & -> & Hin & ? & ?)]%IH2.
    + by left.
    + right. exists src, in_name, ext, fn, sl'. split_and!; try done. by right.
Qed.

(** Making the sub-directory copies nothing. *)
Lemma ensure_subdir_events (fs fs' : gmap string (list string)) path ev :
  ensure_subdir fs path = Returns (fs', ev) →
  ∀ e, e ∈ ev → e = Mkdir path.
Proof.
  unfold ensure_subdir. destruct (os_path_exists fs path).
  - intros [= <- <-] e Hin. by apply elem_of_nil in Hin.
  - destruct (os_mkdir fs path); [|done].
    intros [= <- <-] e Hin. by apply list_elem_of_singleton in Hin.
Qed.

Lemma pack_aapplvl1_files_unfold (fs : gmap string (list string)) n aappfiles
    base_dir subdir :
  pack_aapplvl1_files fs n aappfiles base_dir subdir =
  match ensure_subdir fs (Py.join base_dir subdir) with
  | Raises e => Result (Raises e) fs []
  | Returns (fs', ev) =>
      let r := pack_loop n (Py.join base_dir subdir) subdir aappfiles ∅ fs' ev in
      Result (match outcome r with
              | Returns _ => Returns (post r).1
              | Raises e => Raises e
              end) (post r).2 (trace r)
  end.
Proof.
  unfold pack_aapplvl1_files. cbv zeta.
  destruct (ensure_subdir fs _) as [[fs' ev]|]; [|done].
  by destruct (outcome (pack_loop _ _ _ _ _ _ _)).
Qed.

(** X21.  The dictionary [pack_aapplvl1_files] returns has an entry for a path
    exactly when a file has been copied to that path. *)
Theorem pack_reports_what_it_copies (fs : gmap string (list string)) n aappfiles
    base_dir subdir retv :
  let r := pack_aapplvl1_files fs n aappfiles base_dir subdir in
  outcome r = Returns retv →
  ∀ dst, is_Some (retv !! dst) ↔ ∃ src, Copy src dst ∈ trace r.
Proof.
  cbv zeta. rewrite pack_aapplvl1_files_unfold.
  destruct (ensure_subdir fs _) as [[fs' ev]|] eqn:Hsub; [|done]. cbv zeta.
  destruct (pack_loop_invariant n (Py.join base_dir subdir) subdir aappfiles ∅ fs' ev)
    as [Hinv _].
  cbv zeta in Hinv. simpl.
  destruct (outcome (pack_loop _ _ _ _ _ _ _)); [|done]. intros [= <-].
  apply Hinv. intros dst. rewrite lookup_empty. split; [by intros [? ?]|].
  intros [src Hin]. by apply (ensure_subdir_events _ _ _ _ Hsub) in Hin.
Qed.

(** X22.  Whatever the outcome, every copy [pack_aapplvl1_files] makes is that
    of a listed file whose name has two parts, the first of them neither
    [dcsn] nor [msun], to the name built from the two parts under the
    sub-directory. *)
Theorem pack_copies_only_considered (fs : gmap string (list string)) n aappfiles
    base_dir subdir src dst :
  Copy src dst ∈ trace (pack_aapplvl1_files fs n aappfiles base_dir subdir) →
  src ∈ aappfiles ∧
  ∃ in_name ext firstname sl,
    Py.split "." (Py.basename src) = [in_name; ext] ∧
    (in_name ∉ not_considered) ∧
    pack_one n in_name ext = Some (firstname, sl) ∧
    dst = Py.join (Py.join base_dir subdir)
            (firstname +:+ "_" +:+ subdir +:+ "." +:+ ext).
Proof.
  rewrite pack_aapplvl1_files_unfold.
  destruct (ensure_subdir fs _) as [[fs' ev]|] eqn:Hsub;
    [|by intros ?%elem_of_nil]. cbv zeta.
  destruct (pack_loop_invariant n (Py.join base_dir subdir) subdir aappfiles ∅ fs' ev)
    as [_ Hinv].
  cbv zeta in Hinv. simpl.
  intros [Hin|(src' & in_name & ext & fn & sl & [= -> ->] & Hin & Hsp & Hone)]%Hinv.
  - by apply (ensure_subdir_events _ _ _ _ Hsub) in Hin.
  - split; [done|]. exists in_name, ext, fn, sl. split_and!; try done.
    intros Hnc. unfold pack_one, Py.str_in in Hone.
    by rewrite bool_decide_true in Hone.
Qed.

(** X23.  A file whose name has not exactly two parts ends the packing with
    [ValueError]; the files listed before it have been copied, as if the
    list had ended there. *)
Theorem pack_raises_midway (fs : gmap string (list string)) n good bad rest
    base_dir subdir retv :
  let r := pack_aapplvl1_files fs n good base_dir subdir in
  outcome r = Returns retv →
  length (Py.split "." (Py.basename bad)) ≠ 2%nat →
  pack_aapplvl1_files fs n (good ++ bad :: rest) base_dir subdir
  = Result (Raises (ValueError "unpack")) (post r) (trace r).
Proof.
  cbv zeta. rewrite !pack_aapplvl1_files_unfold.
  destruct (ensure_subdir fs _) as [[fs' ev]|]; [|done]. cbv zeta.
  rewrite pack_loop_app. cbv zeta. simpl.
  destruct (outcome (pack_loop _ _ _ good _ _ _)) eqn:Ho; [|done].
  intros _ Hlen. cbn [pack_loop].
  destruct (Py.split "." (Py.basename bad)) as [|i0 [|e0 [|]]]; done.
Qed.

(** X28.  A copy whose destination is in a directory that is not there raises
    [IOError], whatever the source: the files listed before have been
    copied, as if the list had ended there, and nothing is returned. *)
Theorem pack_copy_needs_directory (fs : gmap string (list string)) n good file
    rest base_dir subdir retv in_name ext firstname sl :
  let r := pack_aapplvl1_files fs n good base_dir subdir in
  let dst := Py.join (Py.join base_dir subdir)
               (firstname +:+ "_" +:+ subdir +:+ "." +:+ ext) in
  outcome r = Returns retv →
  Py.split "." (Py.basename file) = [in_name; ext] →
  pack_one n in_name ext = Some (firstname, sl) →
  post r !! dst = None →
  post r !! Py.dirname dst = None →
  ∃ what,
    pack_aapplvl1_files fs n (good ++ file :: rest) base_dir subdir
    = Result (Raises (IOError what)) (post r) (trace r).
Proof.
  cbv zeta. rewrite !pack_aapplvl1_files_unfold.
  destruct (ensure_subdir fs _) as [[fs' ev]|]; [|done]. cbv zeta.
  rewrite pack_loop_app. cbv zeta. simpl.
  destruct (outcome (pack_loop _ _ _ good _ _ _)) eqn:Ho; [|done].
  set (st := post (pack_loop n (Py.join base_dir subdir) subdir good ∅ fs' ev)).
  intros _ Hsp Hone Hdst Hdir. cbn [pack_loop]. rewrite Hsp, Hone.
  unfold shutil_copy, os_path_isdir, os_path_isfile.
  rewrite (bool_decide_false (is_Some (st.2 !! Py.join _ _)))
    by (rewrite Hdst; by intros [? ?]).
  rewrite Hdir.
  destruct (st.2 !! Py.dirname file) as [names|] eqn:Hsrc.
  - rewrite (bool_decide_false (Py.dirname file = _)) by congruence.
    rewrite andb_false_r. simpl.
    repeat case_bool_decide; simpl; eauto.
  - simpl. case_bool_decide; simpl; eauto.
Qed.

Lemma pack_reports_what_it_copies_witness :
  let r := pack_aapplvl1_files metop_fs None metop_result_files "/data/lvl1"
             "metop01_20140826_1108_12345" in
  ∃ retv,
    outcome r = Returns retv ∧
    (is_Some (retv !! "/data/lvl1/metop01_20140826_1108_12345/hrpt_metop01_20140826_1108_12345.l1b")
     ↔ ∃ src, Copy src "/data/lvl1/metop01_20140826_1108_12345/hrpt_metop01_20140826_1108_12345.l1b"
                ∈ trace r).
Proof.
  cbv zeta.
  assert (match outcome (pack_aapplvl1_files metop_fs None metop_result_files
                           "/data/lvl1" "metop01_20140826_1108_12345") with
          | Returns _ => true | Raises _ => false end = true) as Hret
    by (vm_compute; reflexivity).
  destruct (outcome (pack_aapplvl1_files metop_fs None metop_result_files
                       "/data/lvl1" "metop01_20140826_1108_12345"))
    as [retv|] eqn:Hp; [|discriminate Hret].
  exists retv. split; [reflexivity|].
  apply (pack_reports_what_it_copies metop_fs None metop_result_files "/data/lvl1"
           "metop01_20140826_1108_12345" retv Hp).
Defined.

Lemma pack_copies_only_considered_witness :
  "/tmp/aapp_wrk/aman.l1c" ∈ metop_result_files.
Proof.
  apply (pack_copies_only_considered metop_fs None metop_result_files "/data/lvl1"
           "metop01_20140826_1108_12345" "/tmp/aapp_wrk/aman.l1c"
           "/data/lvl1/metop01_20140826_1108_12345/amsu-al1c_metop01_20140826_1108_12345.l1c").
  vm_compute. right. right. left.
Defined.

Lemma pack_raises_midway_witness :
  outcome (pack_aapplvl1_files metop_fs None
             (["/tmp/aapp_wrk/hrpt.l1b"] ++ "/tmp/aapp_wrk/aman.l1c.gz"
                :: ["/tmp/aapp_wrk/hrsn.l1d"])
             "/data/lvl1" "metop01_20140826_1108_12345")
  = Raises (ValueError "unpack").
Proof.
  assert (match outcome (pack_aapplvl1_files metop_fs None ["/tmp/aapp_wrk/hrpt.l1b"]
                           "/data/lvl1" "metop01_20140826_1108_12345") with
          | Returns _ => true | Raises _ => false end = true) as Hret
    by (vm_compute; reflexivity).
  destruct (outcome (pack_aapplvl1_files metop_fs None ["/tmp/aapp_wrk/hrpt.l1b"]
                       "/data/lvl1" "metop01_20140826_1108_12345"))
    as [retv|] eqn:Hp; [|discriminate Hret].
  rewrite (pack_raises_midway metop_fs None ["/tmp/aapp_wrk/hrpt.l1b"]
             "/tmp/aapp_wrk/aman.l1c.gz" ["/tmp/aapp_wrk/hrsn.l1d"]
             "/data/lvl1" "metop01_20140826_1108_12345" retv Hp).
  - reflexivity.
  - vm_compute. discriminate.
Defined.

(** The AVHRR file of a Metop pass, packed into a sub-directory that is
    made for it: its destination is in the directory [avhrr] under the
    sub-directory, which nothing has made, and the copy raises. *)
Lemma pack_copy_needs_directory_witness :
  ∃ what,
    outcome (pack_aapplvl1_files avhr_fs (Some 1%Z) ([] ++ "/tmp/aapp_wrk/avhr.l1b" :: [])
               "/data/lvl1" "metop01_20140826_1108_12345")
    = Raises (IOError what).
Proof.
  assert (match outcome (pack_aapplvl1_files avhr_fs (Some 1%Z) []
                           "/data/lvl1" "metop01_20140826_1108_12345") with
          | Returns _ => true | Raises _ => false end = true) as Hret
    by (vm_compute; reflexivity).
  destruct (outcome (pack_aapplvl1_files avhr_fs (Some 1%Z) []
                       "/data/lvl1" "metop01_20140826_1108_12345"))
    as [retv|] eqn:Hp; [|discriminate Hret].
  destruct (pack_copy_needs_directory avhr_fs (Some 1%Z) [] "/tmp/aapp_wrk/avhr.l1b" []
              "/data/lvl1" "metop01_20140826_1108_12345" retv
              "avhr" "l1b" "avhrr/3l1b"
              {| res_sensor := "avhrr/3"; res_level := "1b" |} Hp)
    as [what ->].
  - vm_compute. reflexivity.
  - vm_compute. reflexivity.
  - vm_compute. reflexivity.
  - vm_compute. reflexivity.
  - by exists what.
Defined.

(** * The hand-over of the level-1 files *)

Lemma launch_names opts w self pname level0 keyname se before :
  let self' := post (launch opts w self pname level0 keyname se before) in
  satellite self' = satellite self ∧ lvl1_home self' = lvl1_home self.
Proof. launch_cases self pname keyname; by split. Qed.

(** The names [process] leaves in the object. *)
Lemma process_names opts w self d pname :
  supported pname →
  let self' := post (process opts w self d pname) in
  satid self' = registry_key pname ∧ satellite self' = pname ∧
  lvl1_home self' = lvl1_home self.
Proof.
  intros Hs. cbv zeta.
  assert (let x := post (resolve_scene self d pname) in
          satid x = registry_key pname ∧ satellite x = pname ∧
          lvl1_home x = lvl1_home self) as Hx.
  { unfold resolve_scene, registry_key.
    each_satellite Hs; destruct (end_time d), (orbit_number d); by repeat split. }
  cbv zeta in Hx. destruct Hx as (Hx1 & Hx2 & Hx3).
  rewrite process_supported by done. cbv zeta.
  destruct (launched_previously _ _); [done|].
  assert (∀ y k T,
    satid y = registry_key pname → satellite y = pname →
    lvl1_home y = lvl1_home self →
    let self' := post (launch opts w y pname (path (uri d)) k
                         (start_time d, scene_end d) T) in
    satid self' = registry_key pname ∧ satellite self' = pname ∧
    lvl1_home self' = lvl1_home self) as Hl.
  { intros y k T ???.
    pose proof (launch_frame opts w y pname (path (uri d)) k
                  (start_time d, scene_end d) T) as Hf.
    pose proof (launch_names opts w y pname (path (uri d)) k
                  (start_time d, scene_end d) T) as Hn.
    cbv zeta in *. destruct Hf as (_ & _ & _ & -> & _). by destruct Hn as (-> & ->). }
  set (x := post (resolve_scene self d pname)) in *.
  set (y := if (Py.find ".hmf" (Py.basename (path (uri d))) >? 0)%Z
            then set_ishmf true (set_level0_filename (Some (path (uri d))) x)
            else set_level0_filename (Some (path (uri d))) x).
  assert (satid y = registry_key pname ∧ satellite y = pname ∧
          lvl1_home y = lvl1_home self) as (Hy1 & Hy2 & Hy3).
  { subst y. by destruct (Py.find _ _ >? 0)%Z. }
  case_bool_decide.
  - destruct (collect_level0 _ _ _ _) as [[] files']; simpl fst; simpl snd; cbv iota;
      try done.
    by apply Hl.
  - by apply Hl.
Qed.

Lemma metop_registry_key pname :
  pname ∈ SUPPORTED_METOP_SATELLITES →
  Py.startswith "metop" (registry_key pname) = true.
Proof.
  unfold SUPPORTED_METOP_SATELLITES. intros Hm.
  repeat (apply elem_of_cons in Hm as [->|Hm]); [..|by apply elem_of_nil in Hm];
    reflexivity.
Qed.

(** X24.  A Metop scene whose last message carries no orbit number is started,
    and the hand-over that follows stops with [TypeError] in
    [create_subdirname]: nothing is copied and nothing is published. *)
Theorem metop_pass_without_orbit_number_fails opts w host self m pname fs :
  accepted opts m pname → pname ∈ SUPPORTED_METOP_SATELLITES →
  orbit_number (data m) = None →
  let r := run opts w self (Some m) in
  outcome r = Returns false →
  hand_over opts host (post r) fs
  = HandedOver (Fails (TypeError "%d format: a number is required"))
      (post r, fs) [] [].
Proof.
  intros Hacc Hm Horb. cbv zeta.
  assert (supported pname) as Hs by apply Hacc.
  rewrite (run_accepted _ _ _ _ _ Hacc). intros _.
  destruct (process_scene_fields opts w self (data m) pname Hs) as (Hst & _ & Ho).
  destruct (process_names opts w self (data m) pname Hs) as (Hsat & _).
  unfold hand_over, create_subdirname.
  rewrite Hst, Hsat, metop_registry_key, Ho, Horb by done. done.
Qed.

Lemma metop_pass_without_orbit_number_fails_witness :
  pass_sent
    (hand_over example_options
       example_host
       (post (run example_options example_world three_roles_collected
                (Some (with_orbit_number None
                         (metop_message "hirs/4" "/data/metop/hirs.hmf")))))
       ∅)
  = [].
Proof.
  rewrite (metop_pass_without_orbit_number_fails example_options example_world _
             three_roles_collected
             (with_orbit_number None (metop_message "hirs/4" "/data/metop/hirs.hmf"))
             "Metop-B").
  - reflexivity.
  - repeat split. right. left.
  - left.
  - reflexivity.
  - vm_compute. reflexivity.
Defined.

(** One message for each entry of the dictionary. *)
Lemma publish_level1_spec opts host (result_files : gmap string sensor_level)
    sat orb start_t end_t msg :
  msg ∈ publish_level1 opts host result_files sat orb start_t end_t ↔
  ∃ resultfile sl,
    result_files !! resultfile = Some sl ∧
    msg = {| subject := "/AAPP-HRPT/" +:+ res_level sl +:+ "/norrköping/" +:+
                        MODE host +:+ "/polar/direct_readout/";
             atype := "file";
             body := {| send_uri := "ssh://" +:+ SERVERNAME opts +:+ "/" +:+ resultfile;
                        send_filename := Py.basename resultfile;
                        send_sensor := res_sensor sl;
                        send_platform_name := sat;
                        send_orbit_number := orb;
                        send_format := "AAPP-HRPT";
                        send_type := "Binary";
                        send_data_processing_level := res_level sl;
                        send_start_time := start_t;
                        send_end_time := end_t |} |}.
Proof.
  unfold publish_level1. rewrite list_elem_of_fmap. split.
  - intros ([f sl] & -> & Hin%elem_of_map_to_list). by exists f, sl.
  - intros (f & sl & Hin & ->). exists (f, sl). split; [done|].
    by apply elem_of_map_to_list.
Qed.

Lemma publish_level1_uri opts host (result_files : gmap string sensor_level)
    sat orb start_t end_t resultfile :
  is_Some (result_files !! resultfile) ↔
  ∃ msg, msg ∈ publish_level1 opts host result_files sat orb start_t end_t ∧
         send_uri (body msg) = "ssh://" +:+ SERVERNAME opts +:+ "/" +:+ resultfile.
Proof.
  split.
  - intros [sl Hin]. eexists. split; [apply publish_level1_spec; eauto|]. done.
  - intros (msg & (f & sl & Hin & ->)%publish_level1_spec & Huri). simpl in Huri.
    do 2 apply String.app_inj in Huri. change ("/" +:+ ?x) with (String "/" x) in Huri.
    injection Huri as ->. eauto.
Qed.

(** X25.  A Metop pass with an orbit number that is handed over without an
    exception.  The sub-directory is named after the satellite, the
    start time and the orbit in five digits; no other directory is made;
    every copy is that of a result file whose name has two parts, to the
    path joined from the output root, the sub-directory and the name
    built from the two parts and the sub-directory; and the paths
    announced are exactly the destinations of the copies. *)
Theorem metop_pass_publishes_copies opts host self
    (fs : gmap string (list string)) t n :
  starttime self = Some t →
  Py.startswith "metop" (satid self) = true →
  orbit self = OrbitInt n →
  let h := hand_over opts host self fs in
  let subd := dict_get SATELLITE_NAME (satid self) (satid self) +:+
              strftime host "_%Y%m%d_%H%M_" t +:+ format_5d n in
  let path := Py.join (lvl1_home self) subd in
  pass_outcome h = Ok tt →
  (∀ dir, Mkdir dir ∈ pass_trace h → dir = path) ∧
  (∀ src dst, Copy src dst ∈ pass_trace h →
     src ∈ result_files self ∧
     ∃ in_name ext firstname sl,
       Py.split "." (Py.basename src) = [in_name; ext] ∧
       pack_one (py_int host (satnum self)) in_name ext = Some (firstname, sl) ∧
       dst = Py.join path (firstname +:+ "_" +:+ subd +:+ "." +:+ ext)) ∧
  (∀ dst, (∃ src, Copy src dst ∈ pass_trace h) ↔
          ∃ msg, msg ∈ pass_sent h ∧
                 send_uri (body msg) = "ssh://" +:+ SERVERNAME opts +:+ "/" +:+ dst).
Proof.
  intros Hst Hm Ho. cbv zeta. unfold hand_over, create_subdirname.
  rewrite Hst, Hm, Ho.
  set (subd := dict_get SATELLITE_NAME (satid self) (satid self) +:+
               strftime host "_%Y%m%d_%H%M_" t +:+ format_5d n).
  unfold pack_lvl1. rewrite pack_aapplvl1_files_unfold.
  destruct (ensure_subdir fs _) as [[fs' ev]|] eqn:Hsub; [|done]. cbv zeta.
  destruct (pack_loop_invariant (py_int host (satnum self))
              (Py.join (lvl1_home self) subd) subd (result_files self) ∅ fs' ev)
    as [Hkeys Hcopies].
  cbv zeta in Hkeys, Hcopies.
  set (r := pack_loop (py_int host (satnum self)) (Py.join (lvl1_home self) subd)
              subd (result_files self) ∅ fs' ev) in *.
  cbn [outcome post trace].
  destruct (outcome r); [|done]. simpl. intros _. split_and!.
  - intros dir [Hin|(? & ? & ? & ? & ? & [=] & _)]%Hcopies.
    apply (ensure_subdir_events _ _ _ _ Hsub) in Hin. by injection Hin.
  - intros src dst [Hin|(src' & in_name & ext & fn & sl & [= -> ->] & Hin & ? & ?)]%Hcopies.
    + by apply (ensure_subdir_events _ _ _ _ Hsub) in Hin.
    + split; [done|]. by exists in_name, ext, fn, sl.
  - intros dst. rewrite <- publish_level1_uri. symmetry. apply Hkeys.
    intros dst'. rewrite lookup_empty. split; [by intros [? ?]|].
    intros [src Hin]. by apply (ensure_subdir_events _ _ _ _ Hsub) in Hin.
Qed.

(** X26.  A NOAA pass whose directory is moved under the output root and that
    is handed over without an exception: one message is sent for each
    file of the directory that is not hidden, with the file's new path in
    its URI, the sensor and level read from the file name, and the orbit
    the object holds after the harvest; no other message is sent. *)
Theorem noaa_pass_publishes_moved_files opts host self
    (fs : gmap string (list string)) first rest names t :
  starttime self = Some t →
  Py.startswith "metop" (satid self) = false →
  result_files self = first :: rest →
  let path := Py.dirname first in
  let dest := Py.join (lvl1_home self) (Py.basename path) in
  is_Some (fs !! lvl1_home self) →
  path ≠ lvl1_home self →
  fs !! dest = None →
  fs !! path = Some names →
  let h := hand_over opts host self fs in
  pass_outcome h = Ok tt →
  (pass_post h).2 = <[dest := names]> (delete path fs) ∧
  ∀ msg,
    msg ∈ pass_sent h ↔
    ∃ name, name ∈ names ∧ Py.startswith "." name = false ∧
      let fname := Py.join dest name in
      let sl := sensor_and_level_of fname in
      subject msg = "/AAPP-HRPT/" +:+ res_level sl +:+ "/norrköping/" +:+
                    MODE host +:+ "/polar/direct_readout/" ∧
      atype msg = "file" ∧
      body msg =
        {| send_uri := "ssh://" +:+ SERVERNAME opts +:+ "/" +:+ fname;
           send_filename := Py.basename fname;
           send_sensor := res_sensor sl;
           send_platform_name := satellite self;
           send_orbit_number := orbit (pass_post h).1;
           send_format := "AAPP-HRPT";
           send_type := "Binary";
           send_data_processing_level := res_level sl;
           send_start_time := starttime self;
           send_end_time := endtime self |}.
Proof.
  intros Hst Hm Hrf. cbv zeta. intros [? Hhome] Hne Hdest Hpath.
  unfold hand_over. rewrite Hst, Hm.
  rewrite (move_lvl1dir_unfold _ _ _ _ Hrf).
  unfold shutil_move.
  rewrite Hhome, bool_decide_false, basename_rstrip_dirname, Hdest, Hpath by done.
  set (subd := Py.basename (Py.dirname first)).
  set (fs' := <[Py.join (lvl1_home self) subd := names]> (delete (Py.dirname first) fs)).
  pose proof (classify_moved_frame self fs' subd []) as (Hfs & _).
  pose proof (classify_moved_exact self fs' subd []) as Hexact.
  assert (∀ x : AappLvl1Processor,
            satellite ((post (classify_moved self fs' subd [])).1) = satellite self ∧
            starttime ((post (classify_moved self fs' subd [])).1) = starttime self ∧
            endtime ((post (classify_moved self fs' subd [])).1) = endtime self)
    as Hsame.
  { intros _. unfold classify_moved.
    destruct (orbit_unset _);
      [destruct (Py.split _ _) as [|?[|?[|?[|?[|]]]]]|]; done. }
  destruct (Hsame self) as (Hs1 & Hs2 & Hs3).
  destruct (outcome (classify_moved self fs' subd [])) as [retv|] eqn:Hret; [|done].
  simpl. intros _. split; [done|].
  intros msg. rewrite publish_level1_spec, Hs1, Hs2, Hs3. split.
  - intros (f & sl & Hin & ->).
    apply (Hexact retv eq_refl) in Hin as [Hin ->].
    unfold glob_all, fs' in Hin. rewrite lookup_insert_eq in Hin.
    apply list_elem_of_fmap in Hin as (name & -> & Hin).
    apply list_elem_of_filter in Hin as [? ?].
    exists name. split; [done|]. split; [done|]. cbv zeta. simpl. rewrite Hst. split_and!; reflexivity.
  - intros (name & Hin & Hvis & Hsub & Hty & Hbody).
    exists (Py.join (Py.join (lvl1_home self) subd) name),
           (sensor_and_level_of (Py.join (Py.join (lvl1_home self) subd) name)).
    split.
    + apply (Hexact retv eq_refl). split; [|done].
      unfold glob_all, fs'. rewrite lookup_insert_eq.
      apply list_elem_of_fmap. exists name. split; [done|].
      by apply list_elem_of_filter.
    + destruct msg as [s a b]. simpl in *. rewrite Hst. by subst.
Qed.

(** X27.  A NOAA pass that left no result file: the warning is logged, nothing
    is moved and nothing is published. *)
Theorem noaa_pass_without_files_publishes_nothing opts host self
    (fs : gmap string (list string)) t :
  starttime self = Some t →
  Py.startswith "metop" (satid self) = false →
  result_files self = [] →
  hand_over opts host self fs
  = HandedOver (Ok tt) (self, fs) [Log WARNING "No files in directory to move!"] [].
Proof.
  intros Hst Hm Hrf. unfold hand_over, move_lvl1dir. rewrite Hst, Hm, Hrf. simpl.
  unfold publish_level1. by rewrite map_to_list_empty.
Qed.

Lemma noaa_pass_without_files_publishes_nothing_witness :
  pass_sent (hand_over example_options example_host
               (set_starttime (Some 0%Z) (new_processor example_options))
               harvested_fs)
  = [].
Proof.
  rewrite (noaa_pass_without_files_publishes_nothing example_options example_host
             (set_starttime (Some 0%Z) (new_processor example_options))
             harvested_fs 0%Z); reflexivity.
Defined.

Lemma metop_pass_publishes_copies_witness :
  let h := hand_over example_options example_host metop_pass_ready metop_fs in
  (∃ src, Copy src "/data/lvl1/metop01_20140826_1108_12345/hrpt_metop01_20140826_1108_12345.l1b"
            ∈ pass_trace h) ↔
  (∃ msg, msg ∈ pass_sent h ∧
          send_uri (body msg)
          = "ssh://host//data/lvl1/metop01_20140826_1108_12345/hrpt_metop01_20140826_1108_12345.l1b").
Proof.
  cbv zeta.
  apply (metop_pass_publishes_copies example_options example_host metop_pass_ready
           metop_fs 0%Z 12345%Z).
  - reflexivity.
  - reflexivity.
  - reflexivity.
  - vm_compute. reflexivity.
Defined.

Lemma noaa_pass_publishes_moved_files_witness :
  let h := hand_over example_options example_host
             (set_starttime (Some 0%Z) harvesting_processor) harvested_fs in
  (pass_post h).2 !! "/data/lvl1/noaa19_20140826_1108_47748"
  = Some ["hrpt_noaa19_20140826_1108_47748.l1b";
          "foo_noaa19_20140826_1108_47748.l1b"].
Proof.
  cbv zeta.
  destruct (noaa_pass_publishes_moved_files example_options example_host
              (set_starttime (Some 0%Z) harvesting_processor) harvested_fs
              "/tmp/aapp_wrk/noaa19_20140826_1108_47748/hrpt_noaa19_20140826_1108_47748.l1b"
              ["/tmp/aapp_wrk/noaa19_20140826_1108_47748/foo_noaa19_20140826_1108_47748.l1b"]
              ["hrpt_noaa19_20140826_1108_47748.l1b";
               "foo_noaa19_20140826_1108_47748.l1b"] 0%Z) as [-> _].
  - reflexivity.
  - reflexivity.
  - reflexivity.
  - by eexists.
  - vm_compute. discriminate.
  - vm_compute. reflexivity.
  - vm_compute. reflexivity.
  - vm_compute. reflexivity.
  - vm_compute. reflexivity.
Defined.

(** * A pass without an orbit number *)

(** C6.  The message that completes a Metop-B scene, once without and
    once with an orbit number.  Without it [run] logs the warning, sets
    the orbit to [None], starts the subprocess and returns [False] as it
    does with it; the hand-over that follows then raises [TypeError] in
    [create_subdirname], with nothing copied and nothing published,
    where with the orbit number it completes, copies the file and
    announces it.  A NOAA-19 pass without an orbit number is handed over:
    [move_lvl1dir] takes the orbit from the name of the pass directory. *)
Theorem missing_orbit_number_stops_metop_pass :
  let without :=
    run example_options metop_world three_roles_collected
      (Some (with_orbit_number None hirs_message)) in
  let with_number :=
    run example_options metop_world three_roles_collected (Some hirs_message) in
  let noaa :=
    run example_options noaa_world (new_processor example_options)
      (Some noaa19_message) in
  (outcome without = Returns false ∧ outcome with_number = Returns false ∧
   orbit (post without) = OrbitNone ∧ no_orbit_number ∈ trace without ∧
   result_files (post without) = ["/tmp/aapp_wrk/hrpt.l1b"]) ∧
  hand_over example_options example_host (post without) metop_fs
  = HandedOver (Fails (TypeError "%d format: a number is required"))
      (post without, metop_fs) [] [] ∧
  (let h := hand_over example_options example_host (post with_number) metop_fs in
   pass_outcome h = Ok tt ∧
   pass_trace h
   = [Mkdir "/data/lvl1/metop01_20140826_1108_12345";
      Copy "/tmp/aapp_wrk/hrpt.l1b"
        "/data/lvl1/metop01_20140826_1108_12345/hrpt_metop01_20140826_1108_12345.l1b"] ∧
   length (pass_sent h) = 1%nat) ∧
  (outcome noaa = Returns false ∧ orbit (post noaa) = OrbitNone ∧
   let h := hand_over example_options example_host (post noaa) harvested_fs in
   pass_outcome h = Ok tt ∧ orbit (pass_post h).1 = OrbitStr "47748" ∧
   length (pass_sent h) = 2%nat).
Proof.
  cbv zeta. split_and!; try (vm_compute; reflexivity).
  vm_compute. left.
Qed.

